(** * MindWell backend: appointment, calendar and payment consistency

    A shallow embedding of the booking and payment handlers of the
    MindWell Psychology backend (Express + Mongoose):

    - [appointmentController.js]: [createAppointment], [getAvailableSlots],
      [updateAppointment], [deleteAppointment];
    - the serverless entry point's [app.post('/api/appointments')];
    - [calendarController.js]: [getCalendarSettings],
      [updateCalendarSettings], [bulkUpdateCalendarSettings],
      [checkAvailability];
    - [paymentController.js]: [submitPayment], [getPaymentById],
      [verifyPayment], [rejectPayment];
    - [utils/cloudinary.js]: [CloudinaryService.validateFile],
      [CloudinaryService.uploadImage];
    - the Mongoose schemas [Appointment], [Payment], [CalendarSettings],
      and the slug of the [pre('save')] hook of [Blog].

    Every handler is a function from the database (and, for receipts, the
    upload directory) and a request to the new database and the HTTP
    response.  An [await] is a point where another request may run:
    [resume] and [resumePost] give the two create handlers turn by turn,
    [resumeSubmit] does so for [submitPayment], and [interleave] runs two
    requests under a schedule.

    Conventions.
    - A JS string is a [string]; one [ascii] stands for one code unit, so
      the development covers strings of code units below 256.
    - A JS [Date] is its time value, milliseconds since the epoch, in [Z].
      A request field holding a date is [option Date]: [None] is a missing
      or unparseable value (an Invalid Date).
    - A Mongo collection is the list of its documents in insertion order;
      [findOne] returns the first match.
    - Documents in the database satisfy their schema (they went through
      [create], or an update with [runValidators]), so a [save] validates
      only the fields the handler has just assigned.
    - The notification calls ([sendEmailAndLog], [sendClientConfirmation],
      [sendAdminNotification]) catch their own failures, are not awaited or
      are wrapped in a [try], and write only to the e-mail log: they change
      neither the database nor the response, and are left out. *)

From Stdlib Require Import String Ascii List ZArith Bool Lia.
Import ListNotations.
Local Open Scope string_scope.
Local Open Scope Z_scope.

(** ** JavaScript strings *)

Module Js.

(** Code units that [String.prototype.trim] and [parseInt] drop: TAB, LF,
    VT, FF, CR, SPACE and (in the Latin-1 range) NBSP. *)
Definition isWhiteSpace (c : ascii) : bool :=
  let n := nat_of_ascii c in
  (Nat.eqb n 9 || Nat.eqb n 10 || Nat.eqb n 11 || Nat.eqb n 12
   || Nat.eqb n 13 || Nat.eqb n 32 || Nat.eqb n 160)%bool.

Fixpoint trimStart (s : string) : string :=
  match s with
  | String c s' => if isWhiteSpace c then trimStart s' else s
  | EmptyString => EmptyString
  end.

(** [trimEnd] keeps a character when it is not white space or when
    something remains after it. *)
Fixpoint trimEnd (s : string) : string :=
  match s with
  | String c s' =>
      match trimEnd s' with
      | EmptyString => if isWhiteSpace c then EmptyString else String c EmptyString
      | t => String c t
      end
  | EmptyString => EmptyString
  end.

Definition trim (s : string) : string := trimEnd (trimStart s).

(** [s.length] *)
Definition length (s : string) : Z := Z.of_nat (String.length s).

(** Truthiness of a string: the empty string is falsy. *)
Definition truthy (s : string) : bool :=
  match s with EmptyString => false | _ => true end.

(** [arr.includes(x)] on an array of strings. *)
Definition includes (arr : list string) (x : string) : bool :=
  existsb (String.eqb x) arr.

(** [s.split(sep)] for a one-character separator. *)
Fixpoint splitAux (sep : ascii) (s : string) (cur : string) : list string :=
  match s with
  | EmptyString => [cur]
  | String c s' =>
      if Ascii.eqb c sep then cur :: splitAux sep s' EmptyString
      else splitAux sep s' (cur ++ String c EmptyString)
  end.

Definition split (sep : ascii) (s : string) : list string :=
  splitAux sep s EmptyString.

(** Value of a digit in the given radix (10 or 16). *)
Definition digitValue (radix : Z) (c : ascii) : option Z :=
  let n := Z.of_nat (nat_of_ascii c) in
  let v :=
    if (48 <=? n) && (n <=? 57) then Some (n - 48)
    else if (97 <=? n) && (n <=? 102) then Some (n - 87)
    else if (65 <=? n) && (n <=? 70) then Some (n - 55)
    else None in
  match v with
  | Some d => if d <? radix then Some d else None
  | None => None
  end.

(** Longest prefix of digits, read left to right; [None] when there is no
    digit at all. *)
Fixpoint digits (radix : Z) (s : string) (acc : option Z) : option Z :=
  match s with
  | EmptyString => acc
  | String c s' =>
      match digitValue radix c with
      | Some d =>
          digits radix s'
            (Some (match acc with Some a => a * radix + d | None => d end))
      | None => acc
      end
  end.

(** [parseInt(s)] without a radix; [None] is NaN.  [undefined] is passed
    as [None] and gives NaN. *)
Definition parseIntString (s : string) : option Z :=
  let s1 := trimStart s in
  let '(sign, s2) :=
    match s1 with
    | String "-" r => (-1, r)
    | String "+" r => (1, r)
    | _ => (1, s1)
    end in
  let '(radix, s3) :=
    match s2 with
    | String "0" (String "x" r) => (16, r)
    | String "0" (String "X" r) => (16, r)
    | _ => (10, s2)
    end in
  match digits radix s3 None with
  | Some v => Some (sign * v)
  | None => None
  end.

Definition parseInt (s : option string) : option Z :=
  match s with
  | Some s => parseIntString s
  | None => None
  end.

(** Arithmetic and comparison on numbers that may be NaN. *)
Definition mul (a b : option Z) : option Z :=
  match a, b with Some x, Some y => Some (x * y) | _, _ => None end.
Definition add (a b : option Z) : option Z :=
  match a, b with Some x, Some y => Some (x + y) | _, _ => None end.
Definition ge (a b : option Z) : bool :=
  match a, b with Some x, Some y => y <=? x | _, _ => false end.
Definition lt (a b : option Z) : bool :=
  match a, b with Some x, Some y => x <? y | _, _ => false end.

End Js.

(** ** Regular expressions of the schemas

    Anchored matching ([^...$]) by derivatives; only the constructs the
    schemas use. *)

Module RegExp.

Inductive t : Type :=
| Fail
| Eps
| Class (p : ascii -> bool)
| Cat (r s : t)
| Alt (r s : t)
| Star (r : t).

Fixpoint nullable (r : t) : bool :=
  match r with
  | Fail => false
  | Eps => true
  | Class _ => false
  | Cat r s => nullable r && nullable s
  | Alt r s => nullable r || nullable s
  | Star _ => true
  end.

Definition cat (r s : t) : t :=
  match r, s with
  | Fail, _ => Fail
  | _, Fail => Fail
  | Eps, _ => s
  | _, _ => Cat r s
  end.

Definition alt (r s : t) : t :=
  match r, s with
  | Fail, _ => s
  | _, Fail => r
  | _, _ => Alt r s
  end.

Fixpoint deriv (c : ascii) (r : t) : t :=
  match r with
  | Fail => Fail
  | Eps => Fail
  | Class p => if p c then Eps else Fail
  | Cat r s =>
      if nullable r then alt (cat (deriv c r) s) (deriv c s)
      else cat (deriv c r) s
  | Alt r s => alt (deriv c r) (deriv c s)
  | Star r' => cat (deriv c r') (Star r')
  end.

(** [re.test(s)] for an anchored expression. *)
Fixpoint test (r : t) (s : string) : bool :=
  match s with
  | EmptyString => nullable r
  | String c s' => test (deriv c r) s'
  end.

Definition plus (r : t) : t := Cat r (Star r).
Definition opt (r : t) : t := Alt r Eps.

Definition between (lo hi : nat) (c : ascii) : bool :=
  let n := nat_of_ascii c in (Nat.leb lo n && Nat.leb n hi)%bool.

(** [\w] *)
Definition word : t :=
  Class (fun c => (between 48 57 c || between 65 90 c || between 97 122 c
                   || Ascii.eqb c "_")%bool).
(** [[\.-]] *)
Definition dotOrDash : t :=
  Class (fun c => (Ascii.eqb c "." || Ascii.eqb c "-")%bool).
Definition dot : t := Class (fun c => Ascii.eqb c ".").

(** [/^\w+([\.-]?\w+)*@\w+([\.-]?\w+)*(\.\w{2,3})+$/], the [match] of the
    [email] paths. *)
Definition email : t :=
  let name := Cat (plus word) (Star (Cat (opt dotOrDash) (plus word))) in
  Cat name
    (Cat (Class (fun c => Ascii.eqb c "@"))
       (Cat name
          (plus (Cat dot (Cat word (Cat word (opt word))))))).

End RegExp.

(** ** Dates *)

Definition Date := Z.

Module JsDate.

Definition msPerDay : Z := 86400000.

(** [Date.UTC(year, month - 1, day)]: the value of [new Date('YYYY-MM-DD')],
    which JavaScript reads as midnight UTC. *)
Definition utc (y m d : Z) : Date :=
  let y' := if m <=? 2 then y - 1 else y in
  let era := y' / 400 in
  let yoe := y' - era * 400 in
  let doy := (153 * (m + (if 2 <? m then -3 else 9)) + 2) / 5 + d - 1 in
  let doe := yoe * 365 + yoe / 4 - yoe / 100 + doy in
  (era * 146097 + doe - 719468) * msPerDay.

(** Day number of the UTC calendar date: what
    [toISOString().split('T')[0]] identifies. *)
Definition isoDay (t : Date) : Z := t / msPerDay.

(** [getDay()] in a zone [tz] milliseconds east of UTC: 0 is Sunday.
    1970-01-01 was a Thursday. *)
Definition getDay (tz : Z) (t : Date) : Z := ((t + tz) / msPerDay + 4) mod 7.

(** [new Date(dateStr + 'T00:00:00')]: a date-time without offset is local
    time. *)
Definition localTimeOfDay (tz : Z) (day : Z) (h m s ms : Z) : Date :=
  day * msPerDay + ((h * 60 + m) * 60 + s) * 1000 + ms - tz.

(** [d.setHours(h, m, s, ms)]: same local calendar day, new time of day. *)
Definition setHours (tz : Z) (t : Date) (h m s ms : Z) : Date :=
  localTimeOfDay tz ((t + tz) / msPerDay) h m s ms.

End JsDate.

(** ** Exceptions and responses *)

(** What Mongoose and the Date API throw into a handler. *)
Inductive Exn : Type :=
| ValidationError (paths : list string)  (* schema validators: failing paths *)
| CastError (path : string)              (* a value that cannot be cast *)
| RangeError                             (* [toISOString] of an Invalid Date *)
| TypeError.                             (* a member read off [undefined] *)

(** The [error] member of a failure body: a literal of the handler, or the
    [message] of the exception it caught. *)
Inductive Error : Type :=
| Literal (message : string)
| MessageOf (e : Exn).

(** [res.status(statusCode).json({ success, ... })].  [res.json] alone is
    status 200. *)
Inductive Response (D : Type) : Type :=
| Success (statusCode : Z) (data : D)
| Failure (statusCode : Z) (error : Error).
Arguments Success {D} statusCode data.
Arguments Failure {D} statusCode error.

Definition isSuccess {D} (r : Response D) : bool :=
  match r with Success _ _ => true | Failure _ _ => false end.

(** ** Schemas *)

Definition ObjectId := nat.

(** [models/Appointment.js] *)
Module Appointment.

Record t : Type := mk {
  _id : ObjectId;
  clientName : string;
  email : string;
  phone : string;
  appointmentDate : Date;
  appointmentTime : string;
  serviceType : string;
  message : string;
  status : string;
  paymentStatus : string;
  paymentId : option ObjectId;
  amount : Z;
  adminNotes : string;
  createdAt : Date
}.

Definition timeEnum : list string :=
  ["09:00"; "10:00"; "11:00"; "14:00"; "15:00"; "16:00"].
Definition serviceEnum : list string :=
  ["individual"; "couple"; "family"; "adolescent"; "assessment"].
Definition statusEnum : list string :=
  ["pending"; "confirmed"; "cancelled"; "completed"].
Definition paymentStatusEnum : list string :=
  ["pending"; "paid"; "verified"; "failed"].

(** [req.body]: every member may be absent ([None]). *)
Record Body : Type := mkBody {
  b_clientName : option string;
  b_email : option string;
  b_phone : option string;
  b_appointmentDate : option Date;
  b_appointmentTime : option string;
  b_serviceType : option string;
  b_message : option string;
  b_status : option string;
  b_paymentStatus : option string;
  b_paymentId : option ObjectId;
  b_amount : option Z;
  b_adminNotes : option string
}.

(** Validators of a string path.  [required] rejects an absent and an
    empty value; the others accept an absent one. *)
Definition required (v : option string) : bool :=
  match v with Some s => Js.truthy s | None => false end.
Definition maxlength (n : Z) (v : option string) : bool :=
  match v with Some s => Js.length s <=? n | None => true end.
Definition enum (values : list string) (v : option string) : bool :=
  match v with Some s => Js.includes values s | None => true end.
Definition matches (r : RegExp.t) (v : option string) : bool :=
  match v with Some s => RegExp.test r s | None => true end.

(** The [trim: true] setter. *)
Definition trimmed (v : option string) : option string :=
  option_map Js.trim v.

(** The body after the setters of the schema. *)
Definition cast (b : Body) : Body :=
  {| b_clientName := trimmed (b_clientName b);
     b_email := b_email b;
     b_phone := trimmed (b_phone b);
     b_appointmentDate := b_appointmentDate b;
     b_appointmentTime := b_appointmentTime b;
     b_serviceType := b_serviceType b;
     b_message := trimmed (b_message b);
     b_status := b_status b;
     b_paymentStatus := b_paymentStatus b;
     b_paymentId := b_paymentId b;
     b_amount := b_amount b;
     b_adminNotes := b_adminNotes b |}.

(** Which validators run on a path: all of them on [create]; on an update
    with [runValidators] only those of the paths the update sets. *)
Definition checks (isNew : bool) (b : Body) : list (string * bool) :=
  let present {A} (v : option A) :=
    isNew || match v with Some _ => true | None => false end in
  let on {A} (v : option A) (ok : bool) := negb (present v) || ok in
  [ ("clientName",
      on (b_clientName b)
         (required (b_clientName b) && maxlength 100 (b_clientName b)));
    ("email",
      on (b_email b)
         (required (b_email b) && matches RegExp.email (b_email b)));
    ("phone", on (b_phone b) (required (b_phone b)));
    ("appointmentDate",
      on (b_appointmentDate b)
         (match b_appointmentDate b with Some _ => true | None => false end));
    ("appointmentTime",
      on (b_appointmentTime b)
         (required (b_appointmentTime b)
          && enum timeEnum (b_appointmentTime b)));
    ("serviceType",
      on (b_serviceType b)
         (required (b_serviceType b) && enum serviceEnum (b_serviceType b)));
    ("message", maxlength 500 (b_message b));
    ("status", enum statusEnum (b_status b));
    ("paymentStatus", enum paymentStatusEnum (b_paymentStatus b));
    ("adminNotes", maxlength 1000 (b_adminNotes b)) ].

Definition failing (isNew : bool) (b : Body) : list string :=
  map fst (filter (fun c => negb (snd c)) (checks isNew b)).

Definition orElse {A} (v : option A) (d : A) : A :=
  match v with Some x => x | None => d end.

(** [new Appointment(body)] followed by validation: the document to
    insert, with the schema defaults, or the failing paths. *)
Definition build (id : ObjectId) (now : Date) (body : Body)
  : Exn + t :=
  let b := cast body in
  match failing true b, b_appointmentDate b with
  | [], Some date =>
      inr {| _id := id;
             clientName := orElse (b_clientName b) "";
             email := orElse (b_email b) "";
             phone := orElse (b_phone b) "";
             appointmentDate := date;
             appointmentTime := orElse (b_appointmentTime b) "";
             serviceType := orElse (b_serviceType b) "";
             message := orElse (b_message b) "";
             status := orElse (b_status b) "pending";
             paymentStatus := orElse (b_paymentStatus b) "pending";
             paymentId := b_paymentId b;
             amount := orElse (b_amount b) 3000;
             adminNotes := orElse (b_adminNotes b) "";
             createdAt := now |}
  | paths, _ => inl (ValidationError paths)
  end.

(** [$set] of the members of an update that are present. *)
Definition assign (a : t) (body : Body) : t :=
  let b := cast body in
  {| _id := _id a;
     clientName := orElse (b_clientName b) (clientName a);
     email := orElse (b_email b) (email a);
     phone := orElse (b_phone b) (phone a);
     appointmentDate := orElse (b_appointmentDate b) (appointmentDate a);
     appointmentTime := orElse (b_appointmentTime b) (appointmentTime a);
     serviceType := orElse (b_serviceType b) (serviceType a);
     message := orElse (b_message b) (message a);
     status := orElse (b_status b) (status a);
     paymentStatus := orElse (b_paymentStatus b) (paymentStatus a);
     paymentId :=
       match b_paymentId b with Some p => Some p | None => paymentId a end;
     amount := orElse (b_amount b) (amount a);
     adminNotes := orElse (b_adminNotes b) (adminNotes a);
     createdAt := createdAt a |}.

(** Assignments the payment handlers make before [appointment.save()]. *)
Definition setPaymentStatus (ps : string) (a : t) : t :=
  {| _id := _id a; clientName := clientName a; email := email a;
     phone := phone a; appointmentDate := appointmentDate a;
     appointmentTime := appointmentTime a; serviceType := serviceType a;
     message := message a; status := status a; paymentStatus := ps;
     paymentId := paymentId a; amount := amount a;
     adminNotes := adminNotes a; createdAt := createdAt a |}.

Definition setPaymentId (pid : ObjectId) (a : t) : t :=
  {| _id := _id a; clientName := clientName a; email := email a;
     phone := phone a; appointmentDate := appointmentDate a;
     appointmentTime := appointmentTime a; serviceType := serviceType a;
     message := message a; status := status a;
     paymentStatus := paymentStatus a; paymentId := Some pid;
     amount := amount a; adminNotes := adminNotes a;
     createdAt := createdAt a |}.

Definition setStatus (s : string) (a : t) : t :=
  {| _id := _id a; clientName := clientName a; email := email a;
     phone := phone a; appointmentDate := appointmentDate a;
     appointmentTime := appointmentTime a; serviceType := serviceType a;
     message := message a; status := s; paymentStatus := paymentStatus a;
     paymentId := paymentId a; amount := amount a;
     adminNotes := adminNotes a; createdAt := createdAt a |}.

End Appointment.

(** [models/CalendarSettings.js] *)
Module CalendarSettings.

(** An element of [customHours]; the schema requires neither member. *)
Record Hours : Type := mkHours {
  start : option string;
  end_ : option string
}.

Record t : Type := mk {
  date : Date;
  isAvailable : bool;
  reason : string;
  customHours : list Hours;
  maxAppointments : Z
}.

(** The same setting with other hour ranges and another cap. *)
Definition setLimits (hours : list Hours) (cap : Z) (c : t) : t :=
  {| date := date c; isAvailable := isAvailable c; reason := reason c;
     customHours := hours; maxAppointments := cap |}.

End CalendarSettings.

(** [models/Payment.js] *)
Module Payment.

Record t : Type := mk {
  _id : ObjectId;
  appointmentId : ObjectId;
  clientName : string;
  clientEmail : string;
  clientPhone : string;
  amount : Z;
  currency : string;
  paymentMethod : string;
  transactionId : string;
  transactionDate : Date;
  receiptImage : string;
  receiptPublicId : string;
  status : string;
  verifiedBy : option string;
  verifiedAt : option Date;
  verificationNotes : option string;
  rejectedReason : option string;
  createdAt : Date;
  updatedAt : Date
}.

Definition methodEnum : list string :=
  ["easypaisa"; "jazzcash"; "bank_transfer"; "cash"].
Definition statusEnum : list string :=
  ["pending"; "verified"; "rejected"; "cancelled"].

(** Validation of a new document, on the members [Payment.create] is
    given by [submitPayment]. *)
Definition checks (p : t) : list (string * bool) :=
  [ ("clientName", Js.truthy (clientName p));
    ("clientEmail",
      Js.truthy (clientEmail p) && RegExp.test RegExp.email (clientEmail p));
    ("clientPhone", Js.truthy (clientPhone p));
    ("amount", 1 <=? amount p);
    ("paymentMethod",
      Js.truthy (paymentMethod p) && Js.includes methodEnum (paymentMethod p));
    ("transactionId", Js.truthy (transactionId p));
    ("receiptImage", Js.truthy (receiptImage p));
    ("status", Js.includes statusEnum (status p)) ].

Definition failing (p : t) : list string :=
  map fst (filter (fun c => negb (snd c)) (checks p)).

(** Assignments of [verifyPayment] and [rejectPayment]. *)
Definition setVerified (by_ : string) (at_ : Date) (notes : option string)
    (p : t) : t :=
  {| _id := _id p; appointmentId := appointmentId p;
     clientName := clientName p; clientEmail := clientEmail p;
     clientPhone := clientPhone p; amount := amount p;
     currency := currency p; paymentMethod := paymentMethod p;
     transactionId := transactionId p; transactionDate := transactionDate p;
     receiptImage := receiptImage p; receiptPublicId := receiptPublicId p;
     status := "verified"; verifiedBy := Some by_; verifiedAt := Some at_;
     verificationNotes := notes; rejectedReason := rejectedReason p;
     createdAt := createdAt p; updatedAt := updatedAt p |}.

Definition setRejected (reason : string) (p : t) : t :=
  {| _id := _id p; appointmentId := appointmentId p;
     clientName := clientName p; clientEmail := clientEmail p;
     clientPhone := clientPhone p; amount := amount p;
     currency := currency p; paymentMethod := paymentMethod p;
     transactionId := transactionId p; transactionDate := transactionDate p;
     receiptImage := receiptImage p; receiptPublicId := receiptPublicId p;
     status := "rejected"; verifiedBy := verifiedBy p;
     verifiedAt := verifiedAt p; verificationNotes := verificationNotes p;
     rejectedReason := Some reason;
     createdAt := createdAt p; updatedAt := updatedAt p |}.

(** The [timestamps] option stamps [updatedAt] on every save. *)
Definition touch (now : Date) (p : t) : t :=
  {| _id := _id p; appointmentId := appointmentId p;
     clientName := clientName p; clientEmail := clientEmail p;
     clientPhone := clientPhone p; amount := amount p;
     currency := currency p; paymentMethod := paymentMethod p;
     transactionId := transactionId p; transactionDate := transactionDate p;
     receiptImage := receiptImage p; receiptPublicId := receiptPublicId p;
     status := status p; verifiedBy := verifiedBy p;
     verifiedAt := verifiedAt p; verificationNotes := verificationNotes p;
     rejectedReason := rejectedReason p;
     createdAt := createdAt p; updatedAt := now |}.

(** Validators of the paths a verification, respectively a rejection,
    assigns before [payment.save()]: the [enum] of [status],
    [maxlength: [500, 'Notes cannot exceed 500 characters']] on
    [verificationNotes] and
    [maxlength: [500, 'Reason cannot exceed 500 characters']] on
    [rejectedReason]. *)
Definition checksOnVerify (p : t) : list (string * bool) :=
  [ ("status", Js.includes statusEnum (status p));
    ("verificationNotes", Appointment.maxlength 500 (verificationNotes p)) ].

Definition checksOnReject (p : t) : list (string * bool) :=
  [ ("status", Js.includes statusEnum (status p));
    ("rejectedReason", Appointment.maxlength 500 (rejectedReason p)) ].

Definition failingOf (checks : list (string * bool)) : list string :=
  map fst (filter (fun c => negb (snd c)) checks).

End Payment.

(** ** The database, the upload directory and the handler monad *)

Record State : Type := mkState {
  appointments : list Appointment.t;
  payments : list Payment.t;
  calendarSettings : list CalendarSettings.t;
  nextId : ObjectId;        (* the next fresh [ObjectId] *)
  uploads : list string     (* paths of the files in the upload directory *)
}.

(** What a request sees of its environment: the clock and the offset of
    the server's time zone, in milliseconds east of UTC. *)
Record Env : Type := mkEnv {
  now : Date;
  tz : Z
}.

Inductive Outcome (A : Type) : Type :=
| Return (a : A)
| Throw (e : Exn).
Arguments Return {A} a.
Arguments Throw {A} e.

(** A computation reads and writes the state and may throw; what it wrote
    before throwing stays written. *)
Definition M (A : Type) : Type := State -> State * Outcome A.

Definition ret {A} (a : A) : M A := fun st => (st, Return a).
Definition throw {A} (e : Exn) : M A := fun st => (st, Throw e).
Definition bind {A B} (m : M A) (k : A -> M B) : M B :=
  fun st =>
    match m st with
    | (st', Return a) => k a st'
    | (st', Throw e) => (st', Throw e)
    end.

(** [try { body } catch (error) { handler }] around the body of a request
    handler: the state left behind and the response sent.  The [catch]
    blocks of the handlers only clean up and respond. *)
Definition tryCatch {A} (body : M A) (handler : Exn -> State -> State * A)
  : State -> State * A :=
  fun st =>
    match body st with
    | (st', Return a) => (st', a)
    | (st', Throw e) => handler e st'
    end.

Notation "x <- m ;; k" := (bind m (fun x => k))
  (at level 61, m at next level, right associativity).
Notation "m ;;; k" := (bind m (fun _ => k))
  (at level 61, right associativity).

(** *** Collections *)

Definition setAppointments (st : State) (l : list Appointment.t) : State :=
  {| appointments := l; payments := payments st;
     calendarSettings := calendarSettings st; nextId := nextId st;
     uploads := uploads st |}.

Definition setPayments (st : State) (l : list Payment.t) : State :=
  {| appointments := appointments st; payments := l;
     calendarSettings := calendarSettings st; nextId := nextId st;
     uploads := uploads st |}.

Definition setUploads (st : State) (l : list string) : State :=
  {| appointments := appointments st; payments := payments st;
     calendarSettings := calendarSettings st; nextId := nextId st;
     uploads := l |}.

Definition setCalendarSettings (st : State) (l : list CalendarSettings.t)
  : State :=
  {| appointments := appointments st; payments := payments st;
     calendarSettings := l; nextId := nextId st; uploads := uploads st |}.

Definition freshId (st : State) : State :=
  {| appointments := appointments st; payments := payments st;
     calendarSettings := calendarSettings st; nextId := S (nextId st);
     uploads := uploads st |}.

(** The write of a [save]: the function [f] of the modified paths,
    applied to the stored document of the given [_id]. *)
Definition writeAppointment (id : ObjectId)
    (f : Appointment.t -> Appointment.t) (st : State) : State :=
  setAppointments st
    (map (fun x => if Nat.eqb (Appointment._id x) id then f x else x)
       (appointments st)).

Definition writePayment (id : ObjectId) (f : Payment.t -> Payment.t)
    (st : State) : State :=
  setPayments st
    (map (fun x => if Nat.eqb (Payment._id x) id then f x else x)
       (payments st)).

(** An id taken from the request: [None] is a string that is not an
    [ObjectId], on which the query throws. *)
Definition castId (id : option ObjectId) : M ObjectId :=
  match id with
  | Some i => ret i
  | None => throw (CastError "_id")
  end.

(** [new Date(x)] used in a query: an Invalid Date cannot be cast. *)
Definition castDate (path : string) (d : option Date) : M Date :=
  match d with
  | Some t => ret t
  | None => throw (CastError path)
  end.

Module AppointmentModel.

Definition findOne (q : Appointment.t -> bool) : M (option Appointment.t) :=
  fun st => (st, Return (find q (appointments st))).

Definition find (q : Appointment.t -> bool) : M (list Appointment.t) :=
  fun st => (st, Return (filter q (appointments st))).

Definition hasId (id : ObjectId) (a : Appointment.t) : bool :=
  Nat.eqb (Appointment._id a) id.

Definition findById (id : ObjectId) : M (option Appointment.t) :=
  findOne (hasId id).

(** [Appointment.create(body)] *)
Definition create (env : Env) (body : Appointment.Body) : M Appointment.t :=
  fun st =>
    match Appointment.build (nextId st) (now env) body with
    | inr a =>
        (freshId (setAppointments st (appointments st ++ [a])), Return a)
    | inl e => (st, Throw e)
    end.

(** [appointment.save()] after the assignments [assigned] to a document
    read from the collection: Mongoose writes the modified paths to the
    stored document of that [_id]; the handler keeps the modified copy. *)
Definition save (a : Appointment.t) (assigned : Appointment.t -> Appointment.t)
  : M Appointment.t :=
  fun st => (writeAppointment (Appointment._id a) assigned st,
             Return (assigned a)).

(** [findByIdAndUpdate(id, body, { new: true, runValidators: true })] *)
Definition findByIdAndUpdate (id : ObjectId) (body : Appointment.Body)
  : M (option Appointment.t) :=
  fun st =>
    match Appointment.failing false (Appointment.cast body) with
    | [] =>
        match List.find (hasId id) (appointments st) with
        | Some a =>
            (writeAppointment id (fun x => Appointment.assign x body) st,
             Return (Some (Appointment.assign a body)))
        | None => (st, Return None)
        end
    | paths => (st, Throw (ValidationError paths))
    end.

(** [findByIdAndDelete(id)] *)
Definition findByIdAndDelete (id : ObjectId) : M (option Appointment.t) :=
  fun st =>
    match List.find (hasId id) (appointments st) with
    | Some a =>
        (setAppointments st
           (filter (fun x => negb (hasId id x)) (appointments st)),
         Return (Some a))
    | None => (st, Return None)
    end.

End AppointmentModel.

Module CalendarSettingsModel.

Definition findOne (q : CalendarSettings.t -> bool)
  : M (option CalendarSettings.t) :=
  fun st => (st, Return (find q (calendarSettings st))).

End CalendarSettingsModel.

Module PaymentModel.

Definition findOne (q : Payment.t -> bool) : M (option Payment.t) :=
  fun st => (st, Return (find q (payments st))).

Definition hasId (id : ObjectId) (p : Payment.t) : bool :=
  Nat.eqb (Payment._id p) id.

Definition findById (id : ObjectId) : M (option Payment.t) :=
  findOne (hasId id).

(** [Payment.create(doc)]: [doc] carries the members the caller gives and
    the schema defaults; the id and the timestamps are set here. *)
Definition create (env : Env) (doc : ObjectId -> Date -> Payment.t)
  : M Payment.t :=
  fun st =>
    let p := doc (nextId st) (now env) in
    match Payment.failing p with
    | [] => (freshId (setPayments st (payments st ++ [p])), Return p)
    | paths => (st, Throw (ValidationError paths))
    end.

(** [payment.save()] after the assignments [assigned]: validation of the
    assigned paths, then the write of the modified paths and of
    [updatedAt] to the stored document of that [_id]. *)
Definition save (env : Env) (checks : Payment.t -> list (string * bool))
    (p : Payment.t) (assigned : Payment.t -> Payment.t) : M Payment.t :=
  fun st =>
    match Payment.failingOf (checks (assigned p)) with
    | [] =>
        let write x := Payment.touch (now env) (assigned x) in
        (writePayment (Payment._id p) write st, Return (write p))
    | paths => (st, Throw (ValidationError paths))
    end.

End PaymentModel.

(** ** [controllers/appointmentController.js] *)

Definition allSlots : list string :=
  ["09:00"; "10:00"; "11:00"; "14:00"; "15:00"; "16:00"].

(** [status: { $in: ['pending', 'confirmed'] }] *)
Definition statusInPendingConfirmed (a : Appointment.t) : bool :=
  Js.includes ["pending"; "confirmed"] (Appointment.status a).

(** A query member [appointmentTime: t]; an absent [t] matches no stored
    document, all of which carry a time. *)
Definition timeIs (t : option string) (a : Appointment.t) : bool :=
  match t with
  | Some t => String.eqb (Appointment.appointmentTime a) t
  | None => false
  end.

(** The filter of [createAppointment]'s [findOne]. *)
Definition slotBooked (date : Date) (time : option string)
    (a : Appointment.t) : bool :=
  (Appointment.appointmentDate a =? date) && timeIs time a
  && statusInPendingConfirmed a.

Definition slotAlreadyBooked : Error :=
  Literal "This time slot is already booked. Please choose another time.".

Definition createAppointment (env : Env) (body : Appointment.Body)
  : State -> State * Response Appointment.t :=
  tryCatch
    (date <- castDate "appointmentDate" (Appointment.b_appointmentDate body) ;;
     existingAppointment <-
       AppointmentModel.findOne
         (slotBooked date (Appointment.b_appointmentTime body)) ;;
     match existingAppointment with
     | Some _ => ret (Failure 400 slotAlreadyBooked)
     | None =>
         appointment <- AppointmentModel.create env body ;;
         ret (Success 201 appointment)
     end)
    (fun error st => (st, Failure 400 (MessageOf error))).

(** The [date] member of a query string. *)
Inductive DateParam : Type :=
| Missing                (* absent or empty: falsy *)
| Invalid                (* a string [new Date] cannot parse *)
| Valid (d : Date).

Definition getAvailableSlots (env : Env) (date : DateParam)
  : State -> State * Response (list string) :=
  tryCatch
    (match date with
     | Missing => ret (Failure 400 (Literal "Please provide a date"))
     | Invalid =>
         (* [getDay()] is NaN, neither 0 nor 6; the range query then fails
            to cast the Invalid Date *)
         throw (CastError "appointmentDate")
     | Valid selectedDate =>
         let dayOfWeek := JsDate.getDay (tz env) selectedDate in
         if (dayOfWeek =? 0) || (dayOfWeek =? 6) then ret (Success 200 [])
         else
           let gte := JsDate.setHours (tz env) selectedDate 0 0 0 0 in
           let lt := JsDate.setHours (tz env) gte 23 59 59 999 in
           bookedAppointments <-
             AppointmentModel.find
               (fun a =>
                  (gte <=? Appointment.appointmentDate a)
                  && (Appointment.appointmentDate a <? lt)
                  && statusInPendingConfirmed a) ;;
           let bookedTimes :=
             map Appointment.appointmentTime bookedAppointments in
           let availableSlots :=
             filter (fun slot => negb (Js.includes bookedTimes slot))
               allSlots in
           ret (Success 200 availableSlots)
     end)
    (fun error st => (st, Failure 400 (MessageOf error))).

Definition updateAppointment (id : option ObjectId) (body : Appointment.Body)
  : State -> State * Response Appointment.t :=
  tryCatch
    (id <- castId id ;;
     appointment <- AppointmentModel.findByIdAndUpdate id body ;;
     match appointment with
     | None => ret (Failure 404 (Literal "Appointment not found"))
     | Some appointment => ret (Success 200 appointment)
     end)
    (fun error st => (st, Failure 400 (MessageOf error))).

Definition deleteAppointment (id : option ObjectId)
  : State -> State * Response unit :=
  tryCatch
    (id <- castId id ;;
     appointment <- AppointmentModel.findByIdAndDelete id ;;
     match appointment with
     | None => ret (Failure 404 (Literal "Appointment not found"))
     | Some _ => ret (Success 200 tt)
     end)
    (fun error st => (st, Failure 400 (MessageOf error))).

(** ** The entry point's [app.post('/api/appointments')] *)

(** [date: { $gte: new Date(dateStr + 'T00:00:00'),
             $lt: new Date(dateStr + 'T23:59:59') }] *)
Definition settingOfDay (tz : Z) (dateStr : Z) (c : CalendarSettings.t)
  : bool :=
  (JsDate.localTimeOfDay tz dateStr 0 0 0 0 <=? CalendarSettings.date c)
  && (CalendarSettings.date c <? JsDate.localTimeOfDay tz dateStr 23 59 59 0).

(** [{ ...req.body, status: 'pending' }] *)
Definition withStatusPending (b : Appointment.Body) : Appointment.Body :=
  {| Appointment.b_clientName := Appointment.b_clientName b;
     Appointment.b_email := Appointment.b_email b;
     Appointment.b_phone := Appointment.b_phone b;
     Appointment.b_appointmentDate := Appointment.b_appointmentDate b;
     Appointment.b_appointmentTime := Appointment.b_appointmentTime b;
     Appointment.b_serviceType := Appointment.b_serviceType b;
     Appointment.b_message := Appointment.b_message b;
     Appointment.b_status := Some "pending";
     Appointment.b_paymentStatus := Appointment.b_paymentStatus b;
     Appointment.b_paymentId := Appointment.b_paymentId b;
     Appointment.b_amount := Appointment.b_amount b;
     Appointment.b_adminNotes := Appointment.b_adminNotes b |}.

Definition postApiAppointments (env : Env) (body : Appointment.Body)
  : State -> State * Response Appointment.t :=
  tryCatch
    (bookingDate <-
       match Appointment.b_appointmentDate body with
       | Some d => ret d
       | None => throw RangeError    (* [toISOString()] *)
       end ;;
     let dateStr := JsDate.isoDay bookingDate in
     calendarSetting <-
       CalendarSettingsModel.findOne (settingOfDay (tz env) dateStr) ;;
     if match calendarSetting with
        | Some c => negb (CalendarSettings.isAvailable c)
        | None => false
        end
     then ret (Failure 400 (Literal "Date unavailable"))
     else
       exists_ <-
         AppointmentModel.findOne
           (fun a =>
              (Appointment.appointmentDate a =? bookingDate)
              && timeIs (Appointment.b_appointmentTime body) a) ;;
       match exists_ with
       | Some _ => ret (Failure 400 (Literal "Slot booked"))
       | None =>
           appointment <-
             AppointmentModel.create env (withStatusPending body) ;;
           ret (Success 200 appointment)
       end)
    (fun _ st => (st, Failure 500 (Literal "Booking failed"))).

(** ** [controllers/calendarController.js]: [checkAvailability] *)

Record Availability : Type := mkAvailability {
  av_date : Z;               (* [dateStr], as a day number *)
  av_time : string;
  av_isAvailable : bool;
  av_reason : string;
  av_hasCustomSettings : bool
}.

(** [parseInt(x.split(':')[0]) * 60 + parseInt(x.split(':')[1])] *)
Definition minutesOf (x : string) : option Z :=
  let parts := Js.split ":" x in
  Js.add (Js.mul (Js.parseInt (nth_error parts 0)) (Some 60))
         (Js.parseInt (nth_error parts 1)).

(** The callback of [customHours.some]; a range without [start] or [end]
    makes [.split] throw a TypeError. *)
Definition inHours (timeInMinutes : option Z) (slot : CalendarSettings.Hours)
  : option bool :=
  match CalendarSettings.start slot, CalendarSettings.end_ slot with
  | Some s, Some e =>
      let startMinutes := minutesOf s in
      let endMinutes := minutesOf e in
      Some (Js.ge timeInMinutes startMinutes && Js.lt timeInMinutes endMinutes)
  | _, _ => None
  end.

(** [customHours.some(...)]: stops at the first range that holds the time;
    [None] when a callback threw before that. *)
Fixpoint someHours (timeInMinutes : option Z)
    (customHours : list CalendarSettings.Hours) : option bool :=
  match customHours with
  | [] => Some false
  | slot :: rest =>
      match inHours timeInMinutes slot with
      | Some true => Some true
      | Some false => someHours timeInMinutes rest
      | None => None
      end
  end.

Definition checkAvailability (env : Env) (date : DateParam)
    (time : option string) : State -> State * Response Availability :=
  tryCatch
    (match date, time with
     | Missing, _ | _, None =>
         ret (Failure 400 (Literal "Date and time are required"))
     | Invalid, Some _ => throw RangeError     (* [toISOString()] *)
     | Valid bookingDate, Some time =>
         if negb (Js.truthy time)
         then ret (Failure 400 (Literal "Date and time are required"))
         else
         let dayOfWeek := JsDate.getDay (tz env) bookingDate in
         let dateStr := JsDate.isoDay bookingDate in
         setting <-
           CalendarSettingsModel.findOne (settingOfDay (tz env) dateStr) ;;
         result <-
           match setting with
           | Some setting =>
               let isAvailable := CalendarSettings.isAvailable setting in
               let reason :=
                 if Js.truthy (CalendarSettings.reason setting)
                 then CalendarSettings.reason setting
                 else "Custom setting" in
               match CalendarSettings.customHours setting with
               | [] => ret (isAvailable, reason)
               | customHours =>
                   let timeInMinutes := minutesOf time in
                   match someHours timeInMinutes customHours with
                   | Some true => ret (isAvailable, reason)
                   | Some false =>
                       ret (false, "Outside custom working hours")
                   | None => throw TypeError
                   end
               end
           | None =>
               let isWeekend := (dayOfWeek =? 0) || (dayOfWeek =? 6) in
               if isWeekend
               then ret (false, "Weekend (no custom settings)")
               else ret (true, "")
           end ;;
         ret (Success 200
                {| av_date := dateStr;
                   av_time := time;
                   av_isAvailable := fst result;
                   av_reason := snd result;
                   av_hasCustomSettings :=
                     match setting with Some _ => true | None => false end |})
     end)
    (fun _ st => (st, Failure 500 (Literal "Failed to check availability"))).

(** ** [utils/cloudinary.js] *)

Module CloudinaryService.

(** [req.file], as multer leaves it. *)
Record File : Type := mkFile {
  path : string;
  mimetype : string;
  size : Z
}.

(** What the Cloudinary API answers to an upload: the collaborator is not
    part of the repository, its answer is an input. *)
Inductive Reply : Type :=
| Uploaded (secure_url public_id : string)
| Rejected (message : string).

Inductive UploadResult : Type :=
| uploaded (url publicId : string)      (* [{ success: true, ... }] *)
| failed (error : string).              (* [{ success: false, error }] *)

Inductive FileError : Type :=
| InvalidFileType (mimetype : string)
| FileTooLarge (size : Z).

Definition allowedTypes : list string :=
  ["image/jpeg"; "image/png"; "image/jpg"; "application/pdf"].
Definition maxSize : Z := 10 * 1024 * 1024.

(** [validateFile(file)] for a file that is present; [None] is
    [{ valid: true }]. *)
Definition validateFile (file : File) : option FileError :=
  if negb (Js.includes allowedTypes (mimetype file))
  then Some (InvalidFileType (mimetype file))
  else if maxSize <? size file then Some (FileTooLarge (size file))
  else None.

Definition existsSync (filePath : string) (st : State) : bool :=
  Js.includes (uploads st) filePath.

Definition unlinkSync (filePath : string) (st : State) : State :=
  setUploads st
    (filter (fun f => negb (String.eqb f filePath)) (uploads st)).

(** [uploadImage(filePath, folder)]: every failure is caught inside and
    returned as [{ success: false }]; the local file is removed on the
    successful branch only. *)
Definition uploadImage (cloud : Reply) (filePath : string) : M UploadResult :=
  fun st =>
    if negb (existsSync filePath st)
    then (st, Return (failed ("File not found: " ++ filePath)))
    else
      match cloud with
      | Uploaded secure_url public_id =>
          (unlinkSync filePath st, Return (uploaded secure_url public_id))
      | Rejected message =>
          (st, Return (failed (if Js.truthy message then message
                               else "Cloudinary upload failed")))
      end.

End CloudinaryService.

(** ** [controllers/paymentController.js] *)

(** The [error] of a payment response also reports a refused file. *)
Inductive PaymentError : Type :=
| Plain (e : Error)
| Refused (e : CloudinaryService.FileError).

Inductive PaymentResponse : Type :=
| PaymentOk (statusCode : Z) (data : Payment.t)
| PaymentFailure (statusCode : Z) (error : PaymentError).

Record SubmitRequest : Type := mkSubmit {
  s_appointmentId : option ObjectId;
  s_paymentMethod : option string;
  s_transactionId : option string;
  s_transactionDate : option Date;
  s_amount : option Z;         (* a multipart field: present means truthy *)
  s_file : option CloudinaryService.File
}.

Definition receiptRequired : PaymentError :=
  Plain (Literal "Receipt image is required").
Definition appointmentNotFound : PaymentError :=
  Plain (Literal "Appointment not found").
Definition paymentAlreadySubmitted : PaymentError :=
  Plain (Literal "Payment already submitted for this appointment").
Definition failedToUpload (detail : string) : PaymentError :=
  Plain (Literal ("Failed to upload receipt: "
                  ++ (if Js.truthy detail then detail else "Unknown error"))).

(** The document [submitPayment] hands to [Payment.create]. *)
Definition newPayment (req : SubmitRequest) (appointmentId : ObjectId)
    (appointment : Appointment.t) (url publicId : string)
    (id : ObjectId) (now : Date) : Payment.t :=
  {| Payment._id := id;
     Payment.appointmentId := appointmentId;
     Payment.clientName := Appointment.clientName appointment;
     Payment.clientEmail := Appointment.email appointment;
     Payment.clientPhone := Appointment.phone appointment;
     Payment.amount :=
       match s_amount req with
       | Some amount => amount
       | None =>
           if Appointment.amount appointment =? 0 then 3000
           else Appointment.amount appointment
       end;
     Payment.currency := "PKR";
     Payment.paymentMethod := Appointment.orElse (s_paymentMethod req) "";
     Payment.transactionId :=
       Js.trim (Appointment.orElse (s_transactionId req) "");
     Payment.transactionDate := Appointment.orElse (s_transactionDate req) now;
     Payment.receiptImage := url;
     Payment.receiptPublicId := publicId;
     Payment.status := "pending";
     Payment.verifiedBy := None;
     Payment.verifiedAt := None;
     Payment.verificationNotes := None;
     Payment.rejectedReason := None;
     Payment.createdAt := now;
     Payment.updatedAt := now |}.

(** The [catch] of [submitPayment]: clean up the uploaded file if it
    exists. *)
Definition cleanUp (req : SubmitRequest) (st : State) : State :=
  match s_file req with
  | Some file =>
      if CloudinaryService.existsSync (CloudinaryService.path file) st
      then CloudinaryService.unlinkSync (CloudinaryService.path file) st
      else st
  | None => st
  end.

Definition submitFailed : PaymentResponse :=
  PaymentFailure 500
    (Plain (Literal "Failed to submit payment. Please try again.")).

Definition submitPayment (env : Env) (cloud : CloudinaryService.Reply)
    (req : SubmitRequest) : State -> State * PaymentResponse :=
  tryCatch
    (match s_file req with
     | None => ret (PaymentFailure 400 receiptRequired)
     | Some file =>
         appointmentId <- castId (s_appointmentId req) ;;
         appointment <- AppointmentModel.findById appointmentId ;;
         match appointment with
         | None => ret (PaymentFailure 404 appointmentNotFound)
         | Some appointment =>
             existingPayment <-
               PaymentModel.findOne
                 (fun p => Nat.eqb (Payment.appointmentId p) appointmentId) ;;
             match existingPayment with
             | Some _ => ret (PaymentFailure 400 paymentAlreadySubmitted)
             | None =>
                 match CloudinaryService.validateFile file with
                 | Some e => ret (PaymentFailure 400 (Refused e))
                 | None =>
                     uploadResult <-
                       CloudinaryService.uploadImage cloud
                         (CloudinaryService.path file) ;;
                     match uploadResult with
                     | CloudinaryService.failed error =>
                         ret (PaymentFailure 500 (failedToUpload error))
                     | CloudinaryService.uploaded url publicId =>
                         payment <-
                           PaymentModel.create env
                             (newPayment req appointmentId appointment
                                url publicId) ;;
                         AppointmentModel.save appointment
                           (fun a =>
                              Appointment.setPaymentId (Payment._id payment)
                                (Appointment.setPaymentStatus "paid" a)) ;;;
                         ret (PaymentOk 201 payment)
                     end
                 end
             end
         end
     end)
    (fun _ st => (cleanUp req st, submitFailed)).

Record VerifyRequest : Type := mkVerify {
  v_id : option ObjectId;          (* [req.params.id] *)
  v_notes : option string;         (* [req.body.notes] *)
  v_user : option string           (* [req.user?.email] *)
}.

Definition paymentNotFound : PaymentError :=
  Plain (Literal "Payment not found").
Definition alreadyVerified : PaymentError :=
  Plain (Literal "Payment already verified").

(** [req.user?.email || 'admin'] *)
Definition adminUser (req : VerifyRequest) : string :=
  match v_user req with
  | Some email => if Js.truthy email then email else "admin"
  | None => "admin"
  end.

Definition verifyFailed : PaymentResponse :=
  PaymentFailure 500 (Plain (Literal "Failed to verify payment")).

Definition verifyPayment (env : Env) (req : VerifyRequest)
  : State -> State * PaymentResponse :=
  tryCatch
    (let notes := v_notes req in
     let adminUser := adminUser req in
     id <- castId (v_id req) ;;
     payment <- PaymentModel.findById id ;;
     match payment with
     | None => ret (PaymentFailure 404 paymentNotFound)
     | Some payment =>
         if String.eqb (Payment.status payment) "verified"
         then ret (PaymentFailure 400 alreadyVerified)
         else
           (* update payment *)
           payment <-
             PaymentModel.save env Payment.checksOnVerify payment
               (Payment.setVerified adminUser (now env) notes) ;;
           (* update appointment *)
           appointment <-
             AppointmentModel.findById (Payment.appointmentId payment) ;;
           match appointment with
           | Some appointment =>
               AppointmentModel.save appointment
                 (fun a =>
                    Appointment.setStatus "confirmed"
                      (Appointment.setPaymentStatus "verified" a)) ;;;
               ret tt
           | None => ret tt
           end ;;;
           ret (PaymentOk 200 payment)
     end)
    (fun _ st => (st, verifyFailed)).

Record RejectRequest : Type := mkReject {
  r_id : option ObjectId;          (* [req.params.id] *)
  r_reason : option string         (* [req.body.reason] *)
}.

Definition reasonRequired : PaymentError :=
  Plain (Literal "Rejection reason is required (min 5 characters)").

(** [!reason || reason.trim().length < 5] *)
Definition reasonTooShort (reason : option string) : bool :=
  match reason with
  | Some reason =>
      negb (Js.truthy reason) || (Js.length (Js.trim reason) <? 5)
  | None => true
  end.

Definition rejectFailed : PaymentResponse :=
  PaymentFailure 500 (Plain (Literal "Failed to reject payment")).

Definition rejectPayment (env : Env) (req : RejectRequest)
  : State -> State * PaymentResponse :=
  tryCatch
    (if reasonTooShort (r_reason req)
     then ret (PaymentFailure 400 reasonRequired)
     else
       let reason := Appointment.orElse (r_reason req) "" in
       id <- castId (r_id req) ;;
       payment <- PaymentModel.findById id ;;
       match payment with
       | None => ret (PaymentFailure 404 paymentNotFound)
       | Some payment =>
           (* update payment *)
           payment <-
             PaymentModel.save env Payment.checksOnReject payment
               (Payment.setRejected reason) ;;
           (* update appointment: also cancel the appointment *)
           appointment <-
             AppointmentModel.findById (Payment.appointmentId payment) ;;
           match appointment with
           | Some appointment =>
               AppointmentModel.save appointment
                 (fun a =>
                    Appointment.setStatus "cancelled"
                      (Appointment.setPaymentStatus "failed" a)) ;;;
               ret tt
           | None => ret tt
           end ;;;
           ret (PaymentOk 200 payment)
       end)
    (fun _ st => (st, rejectFailed)).

(** ** Requests in sequence *)

(** The requests that write to the database. *)
Inductive Operation : Type :=
| CreateAppointment (env : Env) (body : Appointment.Body)
| PostApiAppointments (env : Env) (body : Appointment.Body)
| UpdateAppointment (id : option ObjectId) (body : Appointment.Body)
| DeleteAppointment (id : option ObjectId)
| SubmitPayment (env : Env) (cloud : CloudinaryService.Reply)
    (req : SubmitRequest)
| VerifyPayment (env : Env) (req : VerifyRequest)
| RejectPayment (env : Env) (req : RejectRequest).

(** The state a request leaves behind. *)
Definition perform (op : Operation) (st : State) : State :=
  match op with
  | CreateAppointment env body => fst (createAppointment env body st)
  | PostApiAppointments env body => fst (postApiAppointments env body st)
  | UpdateAppointment id body => fst (updateAppointment id body st)
  | DeleteAppointment id => fst (deleteAppointment id st)
  | SubmitPayment env cloud req => fst (submitPayment env cloud req st)
  | VerifyPayment env req => fst (verifyPayment env req st)
  | RejectPayment env req => fst (rejectPayment env req st)
  end.

(** Requests served one after the other. *)
Definition performAll (ops : list Operation) (st : State) : State :=
  fold_left (fun st op => perform op st) ops st.

(** ** [createAppointment] between its awaits

    The handler gives up control at [await Appointment.findOne(...)] and at
    [await Appointment.create(...)]; each database call is atomic, and
    another request may run between the two. *)

Inductive Pending : Type :=
| AtFindOne (body : Appointment.Body)    (* about to query the slot *)
| AtCreate (body : Appointment.Body)     (* the slot was free; about to insert *)
| Sent (r : Response Appointment.t).     (* the response is out *)

(** One turn of a request: up to its next await. *)
Definition resume (env : Env) (p : Pending) : State -> State * Pending :=
  match p with
  | AtFindOne body =>
      tryCatch
        (date <-
           castDate "appointmentDate" (Appointment.b_appointmentDate body) ;;
         existingAppointment <-
           AppointmentModel.findOne
             (slotBooked date (Appointment.b_appointmentTime body)) ;;
         match existingAppointment with
         | Some _ => ret (Sent (Failure 400 slotAlreadyBooked))
         | None => ret (AtCreate body)
         end)
        (fun error st => (st, Sent (Failure 400 (MessageOf error))))
  | AtCreate body =>
      tryCatch
        (appointment <- AppointmentModel.create env body ;;
         ret (Sent (Success 201 appointment)))
        (fun error st => (st, Sent (Failure 400 (MessageOf error))))
  | Sent r => fun st => (st, Sent r)
  end.

(** The POST handler awaits three times: the calendar override, the slot
    query and the insert. *)
Inductive PendingPost : Type :=
| AtSetting (body : Appointment.Body)
| AtExists (body : Appointment.Body) (bookingDate : Date)
| AtInsert (body : Appointment.Body)
| Replied (r : Response Appointment.t).

Definition resumePost (env : Env) (p : PendingPost)
  : State -> State * PendingPost :=
  let failed st := (st, Replied (Failure 500 (Literal "Booking failed"))) in
  match p with
  | AtSetting body =>
      tryCatch
        (bookingDate <-
           match Appointment.b_appointmentDate body with
           | Some d => ret d
           | None => throw RangeError
           end ;;
         let dateStr := JsDate.isoDay bookingDate in
         calendarSetting <-
           CalendarSettingsModel.findOne (settingOfDay (tz env) dateStr) ;;
         if match calendarSetting with
            | Some c => negb (CalendarSettings.isAvailable c)
            | None => false
            end
         then ret (Replied (Failure 400 (Literal "Date unavailable")))
         else ret (AtExists body bookingDate))
        (fun _ => failed)
  | AtExists body bookingDate =>
      tryCatch
        (exists_ <-
           AppointmentModel.findOne
             (fun a =>
                (Appointment.appointmentDate a =? bookingDate)
                && timeIs (Appointment.b_appointmentTime body) a) ;;
         match exists_ with
         | Some _ => ret (Replied (Failure 400 (Literal "Slot booked")))
         | None => ret (AtInsert body)
         end)
        (fun _ => failed)
  | AtInsert body =>
      tryCatch
        (appointment <- AppointmentModel.create env (withStatusPending body) ;;
         ret (Replied (Success 200 appointment)))
        (fun _ => failed)
  | Replied r => fun st => (st, Replied r)
  end.

(** Two requests in flight; the schedule says whose turn it is ([true]:
    the first request). *)
Fixpoint interleave {P : Type} (step1 step2 : P -> State -> State * P)
    (schedule : list bool) (p1 p2 : P) (st : State) : State * P * P :=
  match schedule with
  | [] => (st, p1, p2)
  | true :: rest =>
      let '(st', p1') := step1 p1 st in
      interleave step1 step2 rest p1' p2 st'
  | false :: rest =>
      let '(st', p2') := step2 p2 st in
      interleave step1 step2 rest p1 p2' st'
  end.

(** ** Vocabulary of the properties *)

(** An appointment sits on the pair (date, time): the stored date equals
    the requested [Date] value and the stored time the requested slot. *)
Definition occupies (date : Date) (time : string) (a : Appointment.t) : bool :=
  (Appointment.appointmentDate a =? date)
  && String.eqb (Appointment.appointmentTime a) time.

Definition nonCancelled (a : Appointment.t) : bool :=
  negb (String.eqb (Appointment.status a) "cancelled").

(** The appointments of kind [which] on a pair. *)
Definition holders (which : Appointment.t -> bool) (date : Date)
    (time : string) (st : State) : list Appointment.t :=
  filter (fun a => occupies date time a && which a) (appointments st).


(** The payments that reference an appointment. *)
Definition paymentsOf (id : ObjectId) (st : State) : list Payment.t :=
  filter (fun p => Nat.eqb (Payment.appointmentId p) id) (payments st).

Definition atMostOnePaymentEach (st : State) : Prop :=
  forall id, (List.length (paymentsOf id st) <= 1)%nat.

(** The appointments on the calendar day of [date] (UTC) that are not
    cancelled: what a per-day cap would count. *)
Definition nonCancelledOn (date : Date) (st : State) : list Appointment.t :=
  filter
    (fun a =>
       (JsDate.isoDay (Appointment.appointmentDate a) =? JsDate.isoDay date)
       && nonCancelled a)
    (appointments st).



(** The state a verification that goes through leaves behind. *)
Definition verified (env : Env) (req : VerifyRequest) (payment : Payment.t)
    (st : State) : State :=
  let write x :=
    Payment.touch (now env)
      (Payment.setVerified (adminUser req) (now env) (v_notes req) x) in
  let st1 := writePayment (Payment._id payment) write st in
  match find (AppointmentModel.hasId (Payment.appointmentId payment))
          (appointments st) with
  | Some appointment =>
      writeAppointment (Appointment._id appointment)
        (fun a => Appointment.setStatus "confirmed"
                    (Appointment.setPaymentStatus "verified" a))
        st1
  | None => st1
  end.

(** The state a rejection that goes through leaves behind. *)
Definition rejected (env : Env) (reason : string) (payment : Payment.t)
    (st : State) : State :=
  let write x := Payment.touch (now env) (Payment.setRejected reason x) in
  let st1 := writePayment (Payment._id payment) write st in
  match find (AppointmentModel.hasId (Payment.appointmentId payment))
          (appointments st) with
  | Some appointment =>
      writeAppointment (Appointment._id appointment)
        (fun a => Appointment.setStatus "cancelled"
                    (Appointment.setPaymentStatus "failed" a))
        st1
  | None => st1
  end.

(** How a request changes the payments: not at all, by one insert for an
    appointment that had no payment, or by a write that keeps the
    reference to the appointment. *)
Inductive paymentsStep (st st' : State) : Prop :=
| paymentsSame : payments st' = payments st -> paymentsStep st st'
| paymentsInsert p :
    payments st' = (payments st ++ [p])%list ->
    paymentsOf (Payment.appointmentId p) st = [] ->
    paymentsStep st st'
| paymentsWrite id f :
    payments st' = payments (writePayment id f st) ->
    (forall x, Payment.appointmentId (f x) = Payment.appointmentId x) ->
    paymentsStep st st'.

(** ** Sample requests *)

Module Sample.

Definition env : Env := {| now := JsDate.utc 2024 6 1; tz := 0 |}.

Definition empty : State :=
  {| appointments := []; payments := []; calendarSettings := [];
     nextId := 0%nat; uploads := [] |}.

Definition monday : Date := JsDate.utc 2024 6 10.
Definition saturday : Date := JsDate.utc 2024 6 15.

Definition booking (date : Date) (time : string) : Appointment.Body :=
  {| Appointment.b_clientName := Some "Jane Doe";
     Appointment.b_email := Some "jane.doe@example.com";
     Appointment.b_phone := Some "0312-3456789";
     Appointment.b_appointmentDate := Some date;
     Appointment.b_appointmentTime := Some time;
     Appointment.b_serviceType := Some "individual";
     Appointment.b_message := None;
     Appointment.b_status := None;
     Appointment.b_paymentStatus := None;
     Appointment.b_paymentId := None;
     Appointment.b_amount := None;
     Appointment.b_adminNotes := None |}.

(** A second client asking for the same kind of session. *)
Definition otherBooking (date : Date) (time : string) : Appointment.Body :=
  {| Appointment.b_clientName := Some "Ali Khan";
     Appointment.b_email := Some "ali.khan@example.org";
     Appointment.b_phone := Some "0300-1234567";
     Appointment.b_appointmentDate := Some date;
     Appointment.b_appointmentTime := Some time;
     Appointment.b_serviceType := Some "couple";
     Appointment.b_message := Some "First visit";
     Appointment.b_status := None;
     Appointment.b_paymentStatus := None;
     Appointment.b_paymentId := None;
     Appointment.b_amount := None;
     Appointment.b_adminNotes := None |}.

(** An admin update that sets the status only. *)
Definition statusUpdate (s : string) : Appointment.Body :=
  {| Appointment.b_clientName := None;
     Appointment.b_email := None;
     Appointment.b_phone := None;
     Appointment.b_appointmentDate := None;
     Appointment.b_appointmentTime := None;
     Appointment.b_serviceType := None;
     Appointment.b_message := None;
     Appointment.b_status := Some s;
     Appointment.b_paymentStatus := None;
     Appointment.b_paymentId := None;
     Appointment.b_amount := None;
     Appointment.b_adminNotes := None |}.

Definition receipt : CloudinaryService.File :=
  {| CloudinaryService.path := "uploads/receipt-1717200000000-42.png";
     CloudinaryService.mimetype := "image/png";
     CloudinaryService.size := 204800 |}.

Definition stored : CloudinaryService.Reply :=
  CloudinaryService.Uploaded
    "https://res.cloudinary.com/demo/mindwell_payments/r1.png"
    "mindwell_payments/r1".

Definition payment (appointmentId : ObjectId) (file : bool) : SubmitRequest :=
  {| s_appointmentId := Some appointmentId;
     s_paymentMethod := Some "bank_transfer";
     s_transactionId := Some "TXN-20240601-001";
     s_transactionDate := None;
     s_amount := Some 3000;
     s_file := if file then Some receipt else None |}.

(** A submission whose appointment id is not an [ObjectId]. *)
Definition malformed : SubmitRequest :=
  {| s_appointmentId := None;
     s_paymentMethod := Some "bank_transfer";
     s_transactionId := Some "TXN-20240601-001";
     s_transactionDate := None;
     s_amount := Some 3000;
     s_file := Some receipt |}.

(** multer has written the receipt before the handler runs. *)
Definition withReceipt (st : State) : State :=
  setUploads st (CloudinaryService.path receipt :: uploads st).

Definition verify (id : ObjectId) (notes : option string) : VerifyRequest :=
  {| v_id := Some id; v_notes := notes; v_user := Some "admin@mindwell.com" |}.

Definition reject (id : ObjectId) (reason : string) : RejectRequest :=
  {| r_id := Some id; r_reason := Some reason |}.

(** A text of [n] characters. *)
Fixpoint text (n : nat) : string :=
  match n with
  | O => ""
  | S n' => String "x" (text n')
  end.

(** An override for a date. *)
Definition override (date : Date) (isAvailable : bool)
    (customHours : list CalendarSettings.Hours) (maxAppointments : Z)
  : CalendarSettings.t :=
  {| CalendarSettings.date := date;
     CalendarSettings.isAvailable := isAvailable;
     CalendarSettings.reason := "";
     CalendarSettings.customHours := customHours;
     CalendarSettings.maxAppointments := maxAppointments |}.

Definition withOverride (c : CalendarSettings.t) (st : State) : State :=
  setCalendarSettings st (c :: calendarSettings st).

(** Nine bookings on Monday 2024-06-10: the six slots at midnight UTC and
    three of them again with the date given an hour later. *)
Definition nineBookings : list Operation :=
  map (fun t => CreateAppointment env (booking monday t)) allSlots
  ++ map (fun t => CreateAppointment env (otherBooking (monday + 3600000) t))
       ["09:00"; "10:00"; "11:00"].

Definition ninePosts : list Operation :=
  map (fun t => PostApiAppointments env (booking monday t)) allSlots
  ++ map (fun t => PostApiAppointments env (otherBooking (monday + 3600000) t))
       ["09:00"; "10:00"; "11:00"].

(** One appointment booked on Monday 2024-06-10 at 10:00 . *)
Definition booked : State :=
  fst (createAppointment env (booking monday "10:00") empty).

(** ... and its payment submitted. *)
Definition paid : State :=
  fst (submitPayment env stored (payment 0%nat true) (withReceipt booked)).

End Sample.

(** ** [controllers/calendarController.js]: [getCalendarSettings] *)

(** An element of the [data] array. *)
Record CalendarDay : Type := mkCalendarDay {
  cd_date : Z;                 (* [dateStr], as a day number *)
  cd_isAvailable : bool;
  cd_reason : string;
  cd_customHours : list CalendarSettings.Hours;
  cd_maxAppointments : Z;
  cd_hasCustomSettings : bool
}.

Record Calendar : Type := mkCalendar {
  cal_data : list CalendarDay;
  cal_defaultHours : list string
}.

(** [.sort({ date: 1 })] *)
Fixpoint insertByDate (c : CalendarSettings.t) (l : list CalendarSettings.t)
  : list CalendarSettings.t :=
  match l with
  | [] => [c]
  | x :: rest =>
      if CalendarSettings.date c <=? CalendarSettings.date x then c :: l
      else x :: insertByDate c rest
  end.

Definition sortByDate (l : list CalendarSettings.t) : list CalendarSettings.t :=
  fold_right insertByDate [] l.

(** [settingsMap[dateStr]] after the [forEach] over [settings]: a later
    setting of the same [dateStr] has overwritten an earlier one. *)
Definition settingsMap (settings : list CalendarSettings.t) (dateStr : Z)
  : option CalendarSettings.t :=
  find (fun s => JsDate.isoDay (CalendarSettings.date s) =? dateStr)
    (rev settings).

(** One turn of the [while] loop: the element pushed for [currentDate]. *)
Definition calendarDay (tz : Z) (settings : list CalendarSettings.t)
    (currentDate : Date) : CalendarDay :=
  let dateStr := JsDate.isoDay currentDate in
  let dayOfWeek := JsDate.getDay tz currentDate in
  match settingsMap settings dateStr with
  | Some setting =>
      {| cd_date := dateStr;
         cd_isAvailable := CalendarSettings.isAvailable setting;
         cd_reason := CalendarSettings.reason setting;
         cd_customHours := CalendarSettings.customHours setting;
         cd_maxAppointments := CalendarSettings.maxAppointments setting;
         cd_hasCustomSettings := true |}
  | None =>
      let isWeekend := (dayOfWeek =? 0) || (dayOfWeek =? 6) in
      {| cd_date := dateStr;
         cd_isAvailable := negb isWeekend;
         cd_reason := if isWeekend then "Weekend" else "Default weekday";
         cd_customHours := [];
         cd_maxAppointments := 8;
         cd_hasCustomSettings := false |}
  end.

(** [while (currentDate <= end) { ...;
      currentDate.setDate(currentDate.getDate() + 1) }],
    with a bound on the number of turns. *)
Fixpoint calendarLoop (turns : nat) (tz : Z)
    (settings : list CalendarSettings.t) (currentDate end_ : Date)
  : list CalendarDay :=
  match turns with
  | O => []
  | S turns' =>
      if currentDate <=? end_
      then calendarDay tz settings currentDate
           :: calendarLoop turns' tz settings (currentDate + JsDate.msPerDay)
                end_
      else []
  end.

(** The turns the loop takes from [start] to [end_]. *)
Definition calendarTurns (start end_ : Date) : nat :=
  Z.to_nat ((end_ - start) / JsDate.msPerDay + 1).

Definition getCalendarSettings (env : Env) (startDate endDate : DateParam)
  : State -> State * Response Calendar :=
  tryCatch
    (match startDate, endDate with
     | Missing, _ | _, Missing =>
         ret (Failure 400 (Literal "Start date and end date are required"))
     | Invalid, _ | _, Invalid => throw (CastError "date")
     | Valid start, Valid end_ =>
         settings <-
           (fun st =>
              (st, Return
                     (sortByDate
                        (filter
                           (fun c => (start <=? CalendarSettings.date c)
                                     && (CalendarSettings.date c <=? end_))
                           (calendarSettings st))))) ;;
         let calendarData :=
           calendarLoop (calendarTurns start end_) (tz env) settings start
             end_ in
         ret (Success 200
                {| cal_data := calendarData; cal_defaultHours := allSlots |})
     end)
    (fun _ st =>
       (st, Failure 500 (Literal "Failed to fetch calendar settings"))).

(** ** [controllers/calendarController.js]: the admin's updates *)

(** [req.body] of [updateCalendarSettings], and an element of [updates]
    of [bulkUpdateCalendarSettings]. *)
Record CalendarUpdate : Type := mkCalendarUpdate {
  u_date : DateParam;
  u_isAvailable : option bool;
  u_reason : option string;
  u_customHours : option (list CalendarSettings.Hours);
  u_maxAppointments : option Z
}.

(** The update both handlers hand to [findOneAndUpdate], after the
    [trim] setter of [reason]. *)
Definition settingOf (date : Date) (u : CalendarUpdate) : CalendarSettings.t :=
  {| CalendarSettings.date := date;
     CalendarSettings.isAvailable := Appointment.orElse (u_isAvailable u) true;
     CalendarSettings.reason := Js.trim (Appointment.orElse (u_reason u) "");
     CalendarSettings.customHours := Appointment.orElse (u_customHours u) [];
     CalendarSettings.maxAppointments :=
       match u_maxAppointments u with
       | Some m => if m =? 0 then 8 else m
       | None => 8
       end |}.

(** [!slot.start || !slot.end] *)
Definition incomplete (slot : CalendarSettings.Hours) : bool :=
  let falsy v := match v with Some s => negb (Js.truthy s) | None => true end in
  falsy (CalendarSettings.start slot) || falsy (CalendarSettings.end_ slot).

(** The write of an upsert on [{ date }]: the first setting of that date
    is replaced, or the new one is inserted. *)
Fixpoint upsert (c : CalendarSettings.t) (l : list CalendarSettings.t)
  : list CalendarSettings.t :=
  match l with
  | [] => [c]
  | x :: rest =>
      if CalendarSettings.date x =? CalendarSettings.date c then c :: rest
      else x :: upsert c rest
  end.

Inductive BulkResult : Type :=
| Updated (setting : CalendarSettings.t)
| NotUpdated (date : DateParam) (error : Exn).   (* [{ date, error }] *)

Record BulkResponse : Type := mkBulkResponse {
  bulk_data : list BulkResult;
  bulk_totalUpdated : nat
}.

Definition isUpdated (r : BulkResult) : bool :=
  match r with Updated _ => true | NotUpdated _ _ => false end.

Section CalendarUpdates.

(** What the update validators make of the elements of [customHours]
    (their [match] patterns) is left open. *)
Variable validHours : list CalendarSettings.Hours -> bool.

(** The validators that run on the update: [maxlength] of [reason], the
    elements of [customHours], [min] of [maxAppointments]. *)
Definition settingChecks (c : CalendarSettings.t) : list (string * bool) :=
  [ ("reason", Js.length (CalendarSettings.reason c) <=? 200);
    ("customHours", validHours (CalendarSettings.customHours c));
    ("maxAppointments", 1 <=? CalendarSettings.maxAppointments c) ].

(** [CalendarSettings.findOneAndUpdate({ date }, update,
      { new: true, upsert: true, runValidators: true })] *)
Definition findOneAndUpdate (date : DateParam) (u : CalendarUpdate)
  : M CalendarSettings.t :=
  date <- match date with
          | Valid d => ret d
          | _ => throw (CastError "date")
          end ;;
  fun st =>
    let c := settingOf date u in
    match Payment.failingOf (settingChecks c) with
    | [] =>
        (setCalendarSettings st (upsert c (calendarSettings st)), Return c)
    | paths => (st, Throw (ValidationError paths))
    end.

Definition updateCalendarSettings (u : CalendarUpdate)
  : State -> State * Response CalendarSettings.t :=
  tryCatch
    (match u_date u with
     | Missing => ret (Failure 400 (Literal "Date is required"))
     | date =>
         if existsb incomplete (Appointment.orElse (u_customHours u) [])
         then ret (Failure 400
                     (Literal "Custom hours must have start and end times"))
         else
           setting <- findOneAndUpdate date u ;;
           ret (Success 200 setting)
     end)
    (fun error st => (st, Failure 500 (MessageOf error))).

(** One turn of the [for] loop, with its own [try]. *)
Definition bulkOne (update : CalendarUpdate) : State -> State * BulkResult :=
  tryCatch
    (setting <- findOneAndUpdate (u_date update) update ;;
     ret (Updated setting))
    (fun err st => (st, NotUpdated (u_date update) err)).

Fixpoint bulkLoop (updates : list CalendarUpdate) (results : list BulkResult)
  : State -> State * list BulkResult :=
  fun st =>
    match updates with
    | [] => (st, results)
    | update :: rest =>
        let '(st', r) := bulkOne update st in
        bulkLoop rest (results ++ [r]) st'
    end.

(** [updates] is [None] when the member is not an array. *)
Definition bulkUpdateCalendarSettings (updates : option (list CalendarUpdate))
  : State -> State * Response BulkResponse :=
  fun st =>
    match updates with
    | None | Some [] => (st, Failure 400 (Literal "Updates array is required"))
    | Some updates =>
        let '(st', results) := bulkLoop updates [] st in
        (st', Success 200
                {| bulk_data := results;
                   bulk_totalUpdated :=
                     List.length (filter isUpdated results) |})
    end.

End CalendarUpdates.

(** ** [controllers/paymentController.js]: [getPaymentById] *)

(** A payment with [appointmentId] populated: the appointment of that id,
    or [null]. *)
Definition Populated : Type := (Payment.t * option Appointment.t)%type.

Definition getPaymentById (id : option ObjectId)
  : State -> State * Response Populated :=
  tryCatch
    (id <- castId id ;;
     payment <- PaymentModel.findById id ;;
     match payment with
     | None => ret (Failure 404 (Literal "Payment not found"))
     | Some payment =>
         appointment <-
           AppointmentModel.findById (Payment.appointmentId payment) ;;
         ret (Success 200 (payment, appointment))
     end)
    (fun _ st => (st, Failure 500 (Literal "Failed to fetch payment"))).

(** ** [models/Blog.js]: the slug of a title *)

Module Blog.

Definition code (c : ascii) : nat := nat_of_ascii c.

(** [toLowerCase()] on one code unit below 256: A to Z, and the capital
    letters of Latin-1. *)
Definition lower (c : ascii) : ascii :=
  let n := code c in
  if (Nat.leb 65 n && Nat.leb n 90)
     || (Nat.leb 192 n && Nat.leb n 214)
     || (Nat.leb 216 n && Nat.leb n 222)
  then ascii_of_nat (n + 32)
  else c.

Fixpoint toLowerCase (s : string) : string :=
  match s with
  | EmptyString => EmptyString
  | String c r => String (lower c) (toLowerCase r)
  end.

(** [[a-zA-Z0-9]] *)
Definition alphanumeric (c : ascii) : bool :=
  RegExp.between 48 57 c || RegExp.between 65 90 c || RegExp.between 97 122 c.

Definition dash : ascii := "-"%char.
Definition isDash (c : ascii) : bool := Ascii.eqb c dash.

(** [.replace(/[^a-zA-Z0-9]/g, '-')] *)
Fixpoint dashOthers (s : string) : string :=
  match s with
  | EmptyString => EmptyString
  | String c r => String (if alphanumeric c then c else dash) (dashOthers r)
  end.

(** [.replace(/-+/g, '-')]: a run of dashes becomes one. *)
Fixpoint squeeze (s : string) : string :=
  match s with
  | EmptyString => EmptyString
  | String c r =>
      if isDash c
      then match r with
           | String c' _ => if isDash c' then squeeze r
                            else String dash (squeeze r)
           | EmptyString => String dash EmptyString
           end
      else String c (squeeze r)
  end.

(** The [-$] half of [.replace(/^-|-$/g, '')]: a dash that ends the
    string goes. *)
Fixpoint dropLastDash (s : string) : string :=
  match s with
  | EmptyString => EmptyString
  | String c EmptyString => if isDash c then EmptyString else s
  | String c r => String c (dropLastDash r)
  end.

(** [.replace(/^-|-$/g, '')]: a dash that starts the string goes, and so
    does one that ends what follows. *)
Definition trimDashes (s : string) : string :=
  match s with
  | String c r => if isDash c then dropLastDash r else dropLastDash s
  | EmptyString => EmptyString
  end.

(** The slug the [pre('save')] hook computes from the title. *)
Definition slug (title : string) : string :=
  trimDashes (squeeze (dashOthers (toLowerCase title))).

End Blog.

(** ** [submitPayment] between its awaits

    The handler gives up control at [await Appointment.findById(...)],
    [await Payment.findOne(...)], [await CloudinaryService.uploadImage(...)],
    [await Payment.create(...)] and [await appointment.save()]; another
    request may run at each of them.  The upload is taken as one turn. *)

Inductive PendingSubmit : Type :=
| AtAppointment (req : SubmitRequest)
| AtExisting (req : SubmitRequest) (file : CloudinaryService.File)
    (appointmentId : ObjectId) (appointment : Appointment.t)
| AtUpload (req : SubmitRequest) (file : CloudinaryService.File)
    (appointmentId : ObjectId) (appointment : Appointment.t)
| AtPayment (req : SubmitRequest) (appointmentId : ObjectId)
    (appointment : Appointment.t) (url publicId : string)
| AtAppointmentSave (req : SubmitRequest) (appointment : Appointment.t)
    (payment : Payment.t)
| Answered (r : PaymentResponse).

(** One turn of a submission: up to its next await. *)
Definition resumeSubmit (env : Env) (cloud : CloudinaryService.Reply)
    (p : PendingSubmit) : State -> State * PendingSubmit :=
  let caught (req : SubmitRequest) (_ : Exn) st :=
    (cleanUp req st, Answered submitFailed) in
  match p with
  | AtAppointment req =>
      tryCatch
        (match s_file req with
         | None => ret (Answered (PaymentFailure 400 receiptRequired))
         | Some file =>
             appointmentId <- castId (s_appointmentId req) ;;
             appointment <- AppointmentModel.findById appointmentId ;;
             match appointment with
             | None => ret (Answered (PaymentFailure 404 appointmentNotFound))
             | Some appointment =>
                 ret (AtExisting req file appointmentId appointment)
             end
         end)
        (caught req)
  | AtExisting req file appointmentId appointment =>
      tryCatch
        (existingPayment <-
           PaymentModel.findOne
             (fun p => Nat.eqb (Payment.appointmentId p) appointmentId) ;;
         match existingPayment with
         | Some _ =>
             ret (Answered (PaymentFailure 400 paymentAlreadySubmitted))
         | None =>
             match CloudinaryService.validateFile file with
             | Some e => ret (Answered (PaymentFailure 400 (Refused e)))
             | None => ret (AtUpload req file appointmentId appointment)
             end
         end)
        (caught req)
  | AtUpload req file appointmentId appointment =>
      tryCatch
        (uploadResult <-
           CloudinaryService.uploadImage cloud (CloudinaryService.path file) ;;
         match uploadResult with
         | CloudinaryService.failed error =>
             ret (Answered (PaymentFailure 500 (failedToUpload error)))
         | CloudinaryService.uploaded url publicId =>
             ret (AtPayment req appointmentId appointment url publicId)
         end)
        (caught req)
  | AtPayment req appointmentId appointment url publicId =>
      tryCatch
        (payment <-
           PaymentModel.create env
             (newPayment req appointmentId appointment url publicId) ;;
         ret (AtAppointmentSave req appointment payment))
        (caught req)
  | AtAppointmentSave req appointment payment =>
      tryCatch
        (AppointmentModel.save appointment
           (fun a =>
              Appointment.setPaymentId (Payment._id payment)
                (Appointment.setPaymentStatus "paid" a)) ;;;
         ret (Answered (PaymentOk 201 payment)))
        (caught req)
  | Answered r => fun st => (st, Answered r)
  end.

(** ** Vocabulary of the further properties *)

(** The three collections of a state. *)
Definition sameDatabase (st st' : State) : Prop :=
  appointments st' = appointments st
  /\ payments st' = payments st
  /\ calendarSettings st' = calendarSettings st.



(** The request was answered with [success: false]. *)
Definition paymentFailed (r : PaymentResponse) : bool :=
  match r with
  | PaymentOk _ _ => false
  | PaymentFailure _ _ => true
  end.

Definition refused (op : Operation) (st : State) : bool :=
  match op with
  | CreateAppointment env body =>
      negb (isSuccess (snd (createAppointment env body st)))
  | PostApiAppointments env body =>
      negb (isSuccess (snd (postApiAppointments env body st)))
  | UpdateAppointment id body =>
      negb (isSuccess (snd (updateAppointment id body st)))
  | DeleteAppointment id => negb (isSuccess (snd (deleteAppointment id st)))
  | SubmitPayment env cloud req =>
      paymentFailed (snd (submitPayment env cloud req st))
  | VerifyPayment env req => paymentFailed (snd (verifyPayment env req st))
  | RejectPayment env req => paymentFailed (snd (rejectPayment env req st))
  end.

(** A stored appointment passes the validators of its schema. *)
Definition conforms (a : Appointment.t) : bool :=
  Js.truthy (Appointment.clientName a)
  && (Js.length (Appointment.clientName a) <=? 100)
  && RegExp.test RegExp.email (Appointment.email a)
  && Js.truthy (Appointment.phone a)
  && Js.includes Appointment.timeEnum (Appointment.appointmentTime a)
  && Js.includes Appointment.serviceEnum (Appointment.serviceType a)
  && (Js.length (Appointment.message a) <=? 500)
  && Js.includes Appointment.statusEnum (Appointment.status a)
  && Js.includes Appointment.paymentStatusEnum (Appointment.paymentStatus a)
  && (Js.length (Appointment.adminNotes a) <=? 1000).

(** A stored payment passes the validators of its schema. *)
Definition paymentConforms (p : Payment.t) : bool :=
  forallb snd (Payment.checks p)
  && Appointment.maxlength 500 (Payment.verificationNotes p)
  && Appointment.maxlength 500 (Payment.rejectedReason p).

Definition schemaHolds (st : State) : Prop :=
  (forall a, In a (appointments st) -> conforms a = true)
  /\ (forall p, In p (payments st) -> paymentConforms p = true).

(** The range of [getAvailableSlots]' query for a date: from local
    midnight up to, and not including, 23:59:59.999 . *)
Definition queriedDay (tz : Z) (date : Date) (t : Date) : bool :=
  (JsDate.setHours tz date 0 0 0 0 <=? t)
  && (t <? JsDate.setHours tz (JsDate.setHours tz date 0 0 0 0) 23 59 59 999).

Definition isWeekend (tz : Z) (date : Date) : bool :=
  (JsDate.getDay tz date =? 0) || (JsDate.getDay tz date =? 6).




(** The shape of a slug: lowercase letters, digits and single dashes
    between them. *)
Definition slugChar (c : ascii) : bool :=
  RegExp.between 48 57 c || RegExp.between 97 122 c || Blog.isDash c.

Fixpoint allChars (p : ascii -> bool) (s : string) : bool :=
  match s with
  | EmptyString => true
  | String c r => p c && allChars p r
  end.

Fixpoint noDashRun (s : string) : bool :=
  match s with
  | String c ((String c' _) as r) =>
      negb (Blog.isDash c && Blog.isDash c') && noDashRun r
  | _ => true
  end.

Definition startsWithDash (s : string) : bool :=
  match s with
  | String c _ => Blog.isDash c
  | EmptyString => false
  end.

Fixpoint endsWithDash (s : string) : bool :=
  match s with
  | EmptyString => false
  | String c EmptyString => Blog.isDash c
  | String _ r => endsWithDash r
  end.

Definition wellShaped (s : string) : bool :=
  allChars slugChar s && noDashRun s
  && negb (startsWithDash s) && negb (endsWithDash s).


(** Further sample requests. *)
Module More.

Definition closedMonday : State :=
  Sample.withOverride (Sample.override Sample.monday false [] 8) Sample.empty.

(** A server in Karachi (UTC+5) and one in New York (UTC-4). *)
Definition karachi : Env := {| now := JsDate.utc 2024 6 1; tz := 18000000 |}.
Definition newYork : Env := {| now := JsDate.utc 2024 6 1; tz := -14400000 |}.

(** The admin closes Monday 2024-06-10. *)
Definition closeMonday : CalendarUpdate :=
  {| u_date := Valid Sample.monday;
     u_isAvailable := Some false;
     u_reason := Some "Public holiday";
     u_customHours := None;
     u_maxAppointments := None |}.

(** Monday with hours whose only range has no end. *)
Definition openEnded : CalendarUpdate :=
  {| u_date := Valid Sample.monday;
     u_isAvailable := Some true;
     u_reason := None;
     u_customHours :=
       Some [ {| CalendarSettings.start := Some "09:00";
                 CalendarSettings.end_ := None |} ];
     u_maxAppointments := Some 4 |}.

(** Update validators that let every list of hours pass. *)
Definition lenient (hours : list CalendarSettings.Hours) : bool := true.


(** A second submission for the same appointment, with its own receipt. *)
Definition receipt2 : CloudinaryService.File :=
  {| CloudinaryService.path := "uploads/receipt-1717200000500-77.jpg";
     CloudinaryService.mimetype := "image/jpeg";
     CloudinaryService.size := 180000 |}.

Definition stored2 : CloudinaryService.Reply :=
  CloudinaryService.Uploaded
    "https://res.cloudinary.com/demo/mindwell_payments/r2.jpg"
    "mindwell_payments/r2".

Definition payment2 (appointmentId : ObjectId) : SubmitRequest :=
  {| s_appointmentId := Some appointmentId;
     s_paymentMethod := Some "easypaisa";
     s_transactionId := Some "EP-778812";
     s_transactionDate := None;
     s_amount := None;
     s_file := Some receipt2 |}.

(** The Monday booking, with both receipts written by multer. *)
Definition twoReceipts : State :=
  setUploads Sample.booked
    [CloudinaryService.path Sample.receipt; CloudinaryService.path receipt2].

End More.

(** * Proofs *)

Ltac conjunctions := repeat match goal with |- _ /\ _ => split end.

(** ** Facts about lists *)

Section ListFacts.
Context {A : Type}.
Implicit Types (p q : A -> bool) (l : list A).

Lemma find_none_filter p l : find p l = None -> filter p l = [].
Proof.
  induction l as [|x l IH]; simpl; [reflexivity|].
  destruct (p x); [discriminate | exact IH].
Qed.

Lemma filter_nil_find p l : filter p l = [] -> find p l = None.
Proof.
  induction l as [|x l IH]; simpl; [reflexivity|].
  destruct (p x); [discriminate | exact IH].
Qed.

Lemma filter_nonempty_find p l : filter p l <> [] -> exists a, find p l = Some a.
Proof.
  intros H. destruct (find p l) eqn:E; [eauto|].
  apply find_none_filter in E. contradiction.
Qed.




Lemma find_map_if p (f : A -> A) l :
  (forall x, p (f x) = p x) ->
  find p (map (fun x => if p x then f x else x) l) = option_map f (find p l).
Proof.
  intros H. induction l as [|x l IH]; simpl; [reflexivity|].
  destruct (p x) eqn:P.
  - rewrite H, P. reflexivity.
  - rewrite P. exact IH.
Qed.

End ListFacts.

(** ** The handlers in direct style *)

Ltac unfold_monad :=
  unfold castDate, castId;
  unfold tryCatch, bind, ret, throw,
    AppointmentModel.findById, AppointmentModel.findOne, AppointmentModel.find,
    AppointmentModel.create, AppointmentModel.save,
    AppointmentModel.findByIdAndUpdate, AppointmentModel.findByIdAndDelete,
    CalendarSettingsModel.findOne,
    PaymentModel.findById, PaymentModel.findOne, PaymentModel.create,
    PaymentModel.save, CloudinaryService.uploadImage;
  cbv beta iota zeta.

Lemma createAppointment_eq env body st :
  createAppointment env body st =
  match Appointment.b_appointmentDate body with
  | None => (st, Failure 400 (MessageOf (CastError "appointmentDate")))
  | Some date =>
      match find (slotBooked date (Appointment.b_appointmentTime body))
              (appointments st) with
      | Some _ => (st, Failure 400 slotAlreadyBooked)
      | None =>
          match Appointment.build (nextId st) (now env) body with
          | inr a =>
              (freshId (setAppointments st (appointments st ++ [a])),
               Success 201 a)
          | inl e => (st, Failure 400 (MessageOf e))
          end
      end
  end.
Proof.
  unfold createAppointment; unfold_monad.
  destruct (Appointment.b_appointmentDate body); cbv beta iota; [|reflexivity].
  destruct (find _ _); [reflexivity|].
  destruct (Appointment.build _ _ _); reflexivity.
Qed.

Lemma postApiAppointments_eq env body st :
  postApiAppointments env body st =
  match Appointment.b_appointmentDate body with
  | None => (st, Failure 500 (Literal "Booking failed"))
  | Some bookingDate =>
      if match find (settingOfDay (tz env) (JsDate.isoDay bookingDate))
                 (calendarSettings st) with
         | Some c => negb (CalendarSettings.isAvailable c)
         | None => false
         end
      then (st, Failure 400 (Literal "Date unavailable"))
      else
        match find (fun a => (Appointment.appointmentDate a =? bookingDate)
                             && timeIs (Appointment.b_appointmentTime body) a)
                (appointments st) with
        | Some _ => (st, Failure 400 (Literal "Slot booked"))
        | None =>
            match Appointment.build (nextId st) (now env)
                    (withStatusPending body) with
            | inr a =>
                (freshId (setAppointments st (appointments st ++ [a])),
                 Success 200 a)
            | inl e => (st, Failure 500 (Literal "Booking failed"))
            end
        end
  end.
Proof.
  unfold postApiAppointments; unfold_monad.
  destruct (Appointment.b_appointmentDate body); cbv beta iota; [|reflexivity].
  destruct (find _ (calendarSettings st)) as [c|].
  - destruct (CalendarSettings.isAvailable c); simpl; [|reflexivity].
    destruct (find _ _); [reflexivity|].
    destruct (Appointment.build _ _ _); reflexivity.
  - destruct (find _ _); [reflexivity|].
    destruct (Appointment.build _ _ _); reflexivity.
Qed.

Lemma updateAppointment_eq id body st :
  updateAppointment id body st =
  match id with
  | None => (st, Failure 400 (MessageOf (CastError "_id")))
  | Some id =>
      match Appointment.failing false (Appointment.cast body) with
      | [] =>
          match find (AppointmentModel.hasId id) (appointments st) with
          | Some a =>
              (writeAppointment id (fun x => Appointment.assign x body) st,
               Success 200 (Appointment.assign a body))
          | None => (st, Failure 404 (Literal "Appointment not found"))
          end
      | paths => (st, Failure 400 (MessageOf (ValidationError paths)))
      end
  end.
Proof.
  unfold updateAppointment; unfold_monad.
  destruct id; cbv beta iota; [|reflexivity].
  destruct (Appointment.failing _ _); [|reflexivity].
  destruct (find _ _); reflexivity.
Qed.

Lemma deleteAppointment_eq id st :
  deleteAppointment id st =
  match id with
  | None => (st, Failure 400 (MessageOf (CastError "_id")))
  | Some id =>
      match find (AppointmentModel.hasId id) (appointments st) with
      | Some _ =>
          (setAppointments st
             (filter (fun x => negb (AppointmentModel.hasId id x))
                (appointments st)),
           Success 200 tt)
      | None => (st, Failure 404 (Literal "Appointment not found"))
      end
  end.
Proof.
  unfold deleteAppointment; unfold_monad.
  destruct id; cbv beta iota; [|reflexivity].
  destruct (find _ _); reflexivity.
Qed.

Lemma submitPayment_eq env cloud req st :
  submitPayment env cloud req st =
  match s_file req with
  | None => (st, PaymentFailure 400 receiptRequired)
  | Some file =>
    match s_appointmentId req with
    | None => (cleanUp req st, submitFailed)
    | Some appointmentId =>
      match find (AppointmentModel.hasId appointmentId) (appointments st) with
      | None => (st, PaymentFailure 404 appointmentNotFound)
      | Some appointment =>
        match find (fun p => Nat.eqb (Payment.appointmentId p) appointmentId)
                (payments st) with
        | Some _ => (st, PaymentFailure 400 paymentAlreadySubmitted)
        | None =>
          match CloudinaryService.validateFile file with
          | Some e => (st, PaymentFailure 400 (Refused e))
          | None =>
            if negb (CloudinaryService.existsSync (CloudinaryService.path file) st)
            then (st, PaymentFailure 500
                        (failedToUpload
                           ("File not found: " ++ CloudinaryService.path file)))
            else
              match cloud with
              | CloudinaryService.Rejected message =>
                  (st, PaymentFailure 500
                         (failedToUpload
                            (if Js.truthy message then message
                             else "Cloudinary upload failed")))
              | CloudinaryService.Uploaded url publicId =>
                  let st1 :=
                    CloudinaryService.unlinkSync (CloudinaryService.path file) st in
                  let payment :=
                    newPayment req appointmentId appointment url publicId
                      (nextId st1) (now env) in
                  match Payment.failing payment with
                  | [] =>
                      let st2 :=
                        freshId (setPayments st1 (payments st1 ++ [payment])) in
                      (writeAppointment (Appointment._id appointment)
                         (fun a =>
                            Appointment.setPaymentId (Payment._id payment)
                              (Appointment.setPaymentStatus "paid" a))
                         st2,
                       PaymentOk 201 payment)
                  | _ => (cleanUp req st1, submitFailed)
                  end
              end
          end
        end
      end
    end
  end.
Proof.
  unfold submitPayment; unfold_monad.
  destruct (s_file req) as [file|]; [|reflexivity].
  destruct (s_appointmentId req); cbv beta iota; [|reflexivity].
  destruct (find _ (appointments st)); [|reflexivity].
  destruct (find _ (payments st)); [reflexivity|].
  destruct (CloudinaryService.validateFile file); [reflexivity|].
  destruct (negb _); [reflexivity|].
  destruct cloud; [|reflexivity].
  destruct (Payment.failing _); reflexivity.
Qed.

Lemma verifyPayment_eq env req st :
  verifyPayment env req st =
  match v_id req with
  | None => (st, verifyFailed)
  | Some id =>
    match find (PaymentModel.hasId id) (payments st) with
    | None => (st, PaymentFailure 404 paymentNotFound)
    | Some payment =>
      if String.eqb (Payment.status payment) "verified"
      then (st, PaymentFailure 400 alreadyVerified)
      else
        let assigned :=
          Payment.setVerified (adminUser req) (now env) (v_notes req) in
        match Payment.failingOf (Payment.checksOnVerify (assigned payment)) with
        | [] =>
            let write x := Payment.touch (now env) (assigned x) in
            let st1 := writePayment (Payment._id payment) write st in
            (match find (AppointmentModel.hasId (Payment.appointmentId payment))
                     (appointments st1) with
             | Some appointment =>
                 writeAppointment (Appointment._id appointment)
                   (fun a => Appointment.setStatus "confirmed"
                               (Appointment.setPaymentStatus "verified" a))
                   st1
             | None => st1
             end,
             PaymentOk 200 (write payment))
        | _ => (st, verifyFailed)
        end
    end
  end.
Proof.
  unfold verifyPayment; unfold_monad.
  destruct (v_id req); cbv beta iota; [|reflexivity].
  destruct (find _ (payments st)) as [payment|]; [|reflexivity].
  destruct (String.eqb _ _); [reflexivity|].
  destruct (Payment.failingOf _); [|reflexivity].
  cbn [Payment.appointmentId Payment.touch Payment.setVerified].
  destruct (find _ _); reflexivity.
Qed.

Lemma rejectPayment_eq env req st :
  rejectPayment env req st =
  if reasonTooShort (r_reason req)
  then (st, PaymentFailure 400 reasonRequired)
  else
  match r_id req with
  | None => (st, rejectFailed)
  | Some id =>
    match find (PaymentModel.hasId id) (payments st) with
    | None => (st, PaymentFailure 404 paymentNotFound)
    | Some payment =>
        let assigned :=
          Payment.setRejected (Appointment.orElse (r_reason req) "") in
        match Payment.failingOf (Payment.checksOnReject (assigned payment)) with
        | [] =>
            let write x := Payment.touch (now env) (assigned x) in
            let st1 := writePayment (Payment._id payment) write st in
            (match find (AppointmentModel.hasId (Payment.appointmentId payment))
                     (appointments st1) with
             | Some appointment =>
                 writeAppointment (Appointment._id appointment)
                   (fun a => Appointment.setStatus "cancelled"
                               (Appointment.setPaymentStatus "failed" a))
                   st1
             | None => st1
             end,
             PaymentOk 200 (write payment))
        | _ => (st, rejectFailed)
        end
    end
  end.
Proof.
  unfold rejectPayment; unfold_monad.
  destruct (reasonTooShort _); [reflexivity|].
  destruct (r_id req); cbv beta iota; [|reflexivity].
  destruct (find _ (payments st)) as [payment|]; [|reflexivity].
  destruct (Payment.failingOf _); [|reflexivity].
  cbn [Payment.appointmentId Payment.touch Payment.setRejected].
  destruct (find _ _); reflexivity.
Qed.

(** ** Booking a slot *)

Lemma failing_nil (checks : list (string * bool)) :
  map fst (filter (fun c => negb (snd c)) checks) = [] ->
  forall c, In c checks -> snd c = true.
Proof.
  induction checks as [|[n b] cs IH]; simpl; intros H c Hin; [contradiction|].
  destruct b; simpl in H; [|discriminate].
  destruct Hin as [<-|Hin]; [reflexivity | exact (IH H c Hin)].
Qed.

(** What a document that passed validation took from the body. *)
Lemma build_fields id now body a :
  Appointment.build id now body = inr a ->
  Appointment._id a = id
  /\ Appointment.b_appointmentDate body = Some (Appointment.appointmentDate a)
  /\ Appointment.b_appointmentTime body = Some (Appointment.appointmentTime a)
  /\ Appointment.status a
     = Appointment.orElse (Appointment.b_status body) "pending".
Proof.
  unfold Appointment.build.
  destruct (Appointment.failing true (Appointment.cast body)) eqn:F;
    [|discriminate].
  destruct (Appointment.b_appointmentDate (Appointment.cast body)) eqn:D;
    [|discriminate].
  intros E. injection E as <-. cbn in D |- *.
  assert (T : Appointment.required (Appointment.b_appointmentTime body) = true).
  { pose proof (failing_nil _ F
             ("appointmentTime",
              Appointment.required (Appointment.b_appointmentTime body)
              && Appointment.enum Appointment.timeEnum
                   (Appointment.b_appointmentTime body))) as H.
    assert (I : snd ("appointmentTime",
                     Appointment.required (Appointment.b_appointmentTime body)
                     && Appointment.enum Appointment.timeEnum
                          (Appointment.b_appointmentTime body)) = true)
      by (apply H; cbn; tauto).
    cbn in I. apply andb_prop in I. tauto. }
  destruct (Appointment.b_appointmentTime body); [|discriminate].
  repeat split; assumption || reflexivity.
Qed.

Lemma build_valid id now body date :
  Appointment.failing true (Appointment.cast body) = [] ->
  Appointment.b_appointmentDate body = Some date ->
  exists a, Appointment.build id now body = inr a.
Proof.
  intros F D. unfold Appointment.build. rewrite F. cbn. rewrite D. eauto.
Qed.

Lemma holders_nil_find date time st :
  holders statusInPendingConfirmed date time st = [] ->
  find (slotBooked date (Some time)) (appointments st) = None.
Proof. apply filter_nil_find. Qed.



Lemma createAppointment_free env body date time st :
  Appointment.b_appointmentDate body = Some date ->
  Appointment.b_appointmentTime body = Some time ->
  holders statusInPendingConfirmed date time st = [] ->
  Appointment.failing true (Appointment.cast body) = [] ->
  exists a,
    createAppointment env body st
    = (freshId (setAppointments st (appointments st ++ [a])), Success 201 a)
    /\ occupies date time a = true.
Proof.
  intros D T H F. rewrite createAppointment_eq, D, T.
  rewrite (holders_nil_find _ _ _ H).
  destruct (build_valid (nextId st) (now env) body date F D) as [a B].
  rewrite B. exists a. split; [reflexivity|].
  destruct (build_fields _ _ _ _ B) as (_ & D' & T' & _).
  unfold occupies. rewrite D in D'. rewrite T in T'.
  injection D' as ->. injection T' as ->.
  rewrite Z.eqb_refl, String.eqb_refl. reflexivity.
Qed.


(** ** The slot invariant of the code: at most one pending or confirmed
       appointment on a pair *)
















Lemma holders_empty which date time st :
  (forall a, In a (appointments st) -> occupies date time a = true ->
             which a = false) ->
  holders which date time st = [].
Proof.
  intros H. unfold holders.
  destruct (filter _ _) as [|a l] eqn:E; [reflexivity|exfalso].
  assert (In a (a :: l)) as I by (left; reflexivity).
  rewrite <- E in I. apply filter_In in I as [I O].
  apply andb_prop in O as [O W]. rewrite (H a I O) in W. discriminate.
Qed.




(** The two requests left out of [keepsSlots] do crowd a pair.  A rejected
    payment cancels its appointment, the pair is booked again, and a later
    verification of the same payment confirms the cancelled appointment. *)
Example verifyPayment_revives_cancelled_appointment :
  let st :=
    performAll
      [ RejectPayment Sample.env (Sample.reject 1%nat "receipt unreadable");
        CreateAppointment Sample.env (Sample.booking Sample.monday "10:00") ]
      Sample.paid in
  List.length (holders statusInPendingConfirmed Sample.monday "10:00" st)
  = 1%nat
  /\ List.length
       (holders statusInPendingConfirmed Sample.monday "10:00"
          (perform (VerifyPayment Sample.env (Sample.verify 1%nat None)) st))
     = 2%nat.
Proof. cbv zeta. split; vm_compute; reflexivity. Qed.

Example updateAppointment_revives_cancelled_appointment :
  let st :=
    performAll
      [ UpdateAppointment (Some 0%nat) (Sample.statusUpdate "cancelled");
        CreateAppointment Sample.env (Sample.booking Sample.monday "10:00") ]
      Sample.booked in
  List.length (holders statusInPendingConfirmed Sample.monday "10:00" st)
  = 1%nat
  /\ List.length
       (holders statusInPendingConfirmed Sample.monday "10:00"
          (perform
             (UpdateAppointment (Some 0%nat) (Sample.statusUpdate "confirmed"))
             st))
     = 2%nat.
Proof. cbv zeta. split; vm_compute; reflexivity. Qed.

(** The POST handler has no status filter: a cancelled appointment keeps
    its pair closed there. *)
Example postApiAppointments_cancelled_appointment_blocks :
  let st :=
    perform (UpdateAppointment (Some 0%nat) (Sample.statusUpdate "cancelled"))
      (fst (postApiAppointments Sample.env
              (Sample.booking Sample.monday "10:00") Sample.empty)) in
  holders nonCancelled Sample.monday "10:00" st = []
  /\ postApiAppointments Sample.env (Sample.booking Sample.monday "10:00") st
     = (st, Failure 400 (Literal "Slot booked"))
  /\ isSuccess
       (snd (createAppointment Sample.env
               (Sample.booking Sample.monday "10:00") st)) = true.
Proof. cbv zeta. split; [|split]; vm_compute; reflexivity. Qed.

(** ** Two create requests in flight *)

(** Running the turns of one request back to back is the handler. *)
Lemma createAppointment_resume env body st :
  let '(st1, p1) := resume env (AtFindOne body) st in
  resume env p1 st1
  = (fst (createAppointment env body st),
     Sent (snd (createAppointment env body st))).
Proof.
  rewrite createAppointment_eq. unfold resume at 1. unfold_monad.
  destruct (Appointment.b_appointmentDate body); cbv beta iota; [|reflexivity].
  destruct (find _ _); cbv beta iota; [reflexivity|].
  unfold resume. unfold_monad.
  destruct (Appointment.build _ _ _); reflexivity.
Qed.

Lemma postApiAppointments_resumePost env body st :
  let '(st1, p1) := resumePost env (AtSetting body) st in
  let '(st2, p2) := resumePost env p1 st1 in
  resumePost env p2 st2
  = (fst (postApiAppointments env body st),
     Replied (snd (postApiAppointments env body st))).
Proof.
  rewrite postApiAppointments_eq. unfold resumePost at 1. unfold_monad.
  destruct (Appointment.b_appointmentDate body); cbv beta iota; [|reflexivity].
  match goal with |- context [if ?c then _ else _] => destruct c end;
    cbv beta iota; [reflexivity|].
  unfold resumePost at 1. unfold_monad.
  destruct (find _ (appointments st)); cbv beta iota; [reflexivity|].
  unfold resumePost. unfold_monad.
  destruct (Appointment.build _ _ _); reflexivity.
Qed.

(** Both slot queries run before either insert: both requests pass the
    check, and both inserts go through. *)
Lemma createAppointment_race env1 env2 body1 body2 date time st :
  Appointment.b_appointmentDate body1 = Some date ->
  Appointment.b_appointmentTime body1 = Some time ->
  Appointment.b_appointmentDate body2 = Some date ->
  Appointment.b_appointmentTime body2 = Some time ->
  Appointment.failing true (Appointment.cast body1) = [] ->
  Appointment.failing true (Appointment.cast body2) = [] ->
  holders statusInPendingConfirmed date time st = [] ->
  exists a1 a2 st',
    interleave (resume env1) (resume env2) [true; false; true; false]
      (AtFindOne body1) (AtFindOne body2) st
    = (st', Sent (Success 201 a1), Sent (Success 201 a2))
    /\ appointments st' = (appointments st ++ [a1; a2])%list
    /\ occupies date time a1 = true /\ occupies date time a2 = true.
Proof.
  intros D1 T1 D2 T2 F1 F2 H.
  apply holders_nil_find in H.
  cbn [interleave]. unfold resume at 1. unfold_monad. rewrite D1, T1, H.
  cbv beta iota. unfold resume at 1. unfold_monad. rewrite D2, T2, H.
  cbv beta iota. unfold resume at 1. unfold_monad.
  destruct (build_valid (nextId st) (now env1) body1 date F1 D1) as [a1 B1].
  rewrite B1. cbv beta iota. unfold resume at 1. unfold_monad.
  destruct (build_valid
              (nextId (freshId (setAppointments st (appointments st ++ [a1]))))
              (now env2) body2 date F2 D2) as [a2 B2].
  rewrite B2. cbv beta iota.
  exists a1, a2. eexists. split; [reflexivity|].
  split; [cbn; rewrite <- app_assoc; reflexivity|].
  destruct (build_fields _ _ _ _ B1) as (_ & D1' & T1' & _).
  destruct (build_fields _ _ _ _ B2) as (_ & D2' & T2' & _).
  rewrite D1 in D1'. rewrite T1 in T1'. rewrite D2 in D2'. rewrite T2 in T2'.
  injection D1' as E1. injection T1' as E2.
  injection D2' as E3. injection T2' as E4.
  unfold occupies. rewrite <- E1, <- E2, <- E3, <- E4.
  rewrite Z.eqb_refl, String.eqb_refl. split; reflexivity.
Qed.

(** C2: the code breaks the claim.  Two requests for Monday 2024-06-10 at
    10:00 on an empty database, the second slot query running between the
    first request's query and its insert: both requests are answered with
    a success, and two pending appointments occupy the pair.  The same
    schedule has the same outcome for the POST handler.  Served one after
    the other, the second request is refused. *)
Theorem concurrent_creates_both_succeed :
  let body1 := Sample.booking Sample.monday "10:00" in
  let body2 := Sample.otherBooking Sample.monday "10:00" in
  (exists st a1 a2,
     interleave (resume Sample.env) (resume Sample.env)
       [true; false; true; false] (AtFindOne body1) (AtFindOne body2)
       Sample.empty
     = (st, Sent (Success 201 a1), Sent (Success 201 a2))
     /\ holders statusInPendingConfirmed Sample.monday "10:00" st = [a1; a2])
  /\ (exists st a1 a2,
        interleave (resumePost Sample.env) (resumePost Sample.env)
          [true; false; true; false; true; false]
          (AtSetting body1) (AtSetting body2) Sample.empty
        = (st, Replied (Success 200 a1), Replied (Success 200 a2))
        /\ holders statusInPendingConfirmed Sample.monday "10:00" st
           = [a1; a2])
  /\ (exists st a1,
        interleave (resume Sample.env) (resume Sample.env)
          [true; true; false; false] (AtFindOne body1) (AtFindOne body2)
          Sample.empty
        = (st, Sent (Success 201 a1), Sent (Failure 400 slotAlreadyBooked))).
Proof.
  cbv zeta. split; [|split].
  - do 3 eexists. split; vm_compute; reflexivity.
  - do 3 eexists. split; vm_compute; reflexivity.
  - do 2 eexists. vm_compute. reflexivity.
Qed.

(** ** The calendar policy and the create handlers *)

(** [createAppointment] never reads the calendar settings. *)
Lemma createAppointment_ignores_calendar env body st l :
  createAppointment env body (setCalendarSettings st l)
  = (setCalendarSettings (fst (createAppointment env body st)) l,
     snd (createAppointment env body st)).
Proof.
  rewrite !createAppointment_eq. cbn [appointments setCalendarSettings nextId].
  destruct (Appointment.b_appointmentDate body); [|reflexivity].
  destruct (find _ _); [reflexivity|].
  destruct (Appointment.build _ _ _); reflexivity.
Qed.

(** Neither does [getAvailableSlots]. *)
Lemma getAvailableSlots_ignores_calendar env date st l :
  getAvailableSlots env date (setCalendarSettings st l)
  = (setCalendarSettings st l, snd (getAvailableSlots env date st)).
Proof.
  unfold getAvailableSlots. unfold_monad.
  destruct date; try reflexivity.
  destruct (_ || _); reflexivity.
Qed.

Lemma find_map {A} (p : A -> bool) (f : A -> A) l :
  (forall x, p (f x) = p x) ->
  find p (map f l) = option_map f (find p l).
Proof.
  intros H. induction l as [|x l IH]; cbn [map find]; [reflexivity|].
  rewrite H. destruct (p x); [reflexivity | exact IH].
Qed.

(** The POST handler reads [isAvailable] alone: other hour ranges and
    another cap on every setting change neither its answer nor the
    appointments it leaves. *)
Lemma postApiAppointments_ignores_limits env body st hours cap :
  let st' :=
    setCalendarSettings st
      (map (CalendarSettings.setLimits hours cap) (calendarSettings st)) in
  snd (postApiAppointments env body st') = snd (postApiAppointments env body st)
  /\ appointments (fst (postApiAppointments env body st'))
     = appointments (fst (postApiAppointments env body st)).
Proof.
  cbv zeta. rewrite !postApiAppointments_eq.
  cbn [appointments calendarSettings setCalendarSettings nextId].
  destruct (Appointment.b_appointmentDate body); [|split; reflexivity].
  rewrite find_map by reflexivity.
  destruct (find _ (calendarSettings st)) as [c|]; cbn [option_map].
  - cbn [CalendarSettings.isAvailable CalendarSettings.setLimits].
    destruct (negb _); [split; reflexivity|].
    destruct (find _ _); [split; reflexivity|].
    destruct (Appointment.build _ _ _); split; reflexivity.
  - destruct (find _ _); [split; reflexivity|].
    destruct (Appointment.build _ _ _); split; reflexivity.
Qed.

(** C3: the code breaks the claim.  An override caps Monday 2024-06-10 at
    one appointment and one pending appointment is on that date: the count
    has reached the cap, yet both create handlers book 11:00 .  Without an
    override, nine bookings on that date (the default cap is 8) all go
    through. *)
Theorem booking_beyond_maxAppointments :
  let st :=
    Sample.withOverride (Sample.override Sample.monday true [] 1)
      Sample.booked in
  let request := Sample.otherBooking Sample.monday "11:00" in
  map CalendarSettings.maxAppointments
    (filter (settingOfDay (tz Sample.env) (JsDate.isoDay Sample.monday))
       (calendarSettings st)) = [1]
  /\ List.length (nonCancelledOn Sample.monday st) = 1%nat
  /\ isSuccess (snd (createAppointment Sample.env request st)) = true
  /\ isSuccess (snd (postApiAppointments Sample.env request st)) = true
  /\ List.length
       (nonCancelledOn Sample.monday
          (fst (createAppointment Sample.env request st))) = 2%nat
  /\ List.length
       (nonCancelledOn Sample.monday
          (performAll Sample.nineBookings Sample.empty)) = 9%nat
  /\ List.length
       (nonCancelledOn Sample.monday
          (performAll Sample.ninePosts Sample.empty)) = 9%nat.
Proof. cbv zeta. conjunctions; vm_compute; reflexivity. Qed.

(** C6: the code breaks the claim.  An override closes Monday 2024-06-10 :
    [getAvailableSlots] still lists all six slots, while the POST handler
    refuses a booking on that date and [checkAvailability] reports it
    unavailable. *)
Theorem getAvailableSlots_on_closed_date :
  let st :=
    Sample.withOverride (Sample.override Sample.monday false [] 8)
      Sample.empty in
  getAvailableSlots Sample.env (Valid Sample.monday) st
  = (st, Success 200 ["09:00"; "10:00"; "11:00"; "14:00"; "15:00"; "16:00"])
  /\ postApiAppointments Sample.env (Sample.booking Sample.monday "10:00") st
     = (st, Failure 400 (Literal "Date unavailable"))
  /\ (exists a,
        checkAvailability Sample.env (Valid Sample.monday) (Some "10:00") st
        = (st, Success 200 a)
        /\ av_isAvailable a = false).
Proof.
  cbv zeta. split; [|split].
  - vm_compute. reflexivity.
  - vm_compute. reflexivity.
  - eexists. split; vm_compute; reflexivity.
Qed.

(** What [customHours.some] answers: [true] only for a time of day inside
    one of the ranges, end excluded. *)
Lemma someHours_true t customHours :
  someHours t customHours = Some true ->
  exists slot s e minutes first last,
    In slot customHours
    /\ CalendarSettings.start slot = Some s
    /\ CalendarSettings.end_ slot = Some e
    /\ t = Some minutes
    /\ minutesOf s = Some first /\ minutesOf e = Some last
    /\ first <= minutes < last.
Proof.
  induction customHours as [|slot rest IH]; cbn [someHours]; [discriminate|].
  destruct (inHours t slot) as [[|]|] eqn:E; [| |discriminate].
  - intros _. unfold inHours in E.
    destruct (CalendarSettings.start slot) as [s|] eqn:S; [|discriminate].
    destruct (CalendarSettings.end_ slot) as [e|] eqn:En; [|discriminate].
    injection E as E. apply andb_prop in E as [G L].
    unfold Js.ge in G. unfold Js.lt in L.
    destruct t as [minutes|]; [|discriminate].
    destruct (minutesOf s) as [first|] eqn:F1; [|discriminate].
    destruct (minutesOf e) as [last|] eqn:F2; [|discriminate].
    exists slot, s, e, minutes, first, last.
    cbn in G, L. apply Z.leb_le in G. apply Z.ltb_lt in L.
    split; [left; reflexivity|]. split; [exact S|]. split; [exact En|].
    split; [reflexivity|]. split; [exact F1|]. split; [exact F2|]. lia.
  - intros H. destruct (IH H) as (slot' & s & e & m & f & l & I & R).
    exists slot', s, e, m, f, l. split; [right; exact I | exact R].
Qed.

(** C7: the code breaks the claim.  With the override of scenario D on
    Saturday 2024-06-15 (available, hours 09:00 to 12:00), the booking at
    09:00 succeeds, and so does the booking at 14:00, through either create
    handler; only [checkAvailability] applies the hour ranges, and reports
    14:00 as outside of them. *)
Theorem booking_outside_custom_hours :
  let hours :=
    [ {| CalendarSettings.start := Some "09:00";
         CalendarSettings.end_ := Some "12:00" |} ] in
  let st :=
    Sample.withOverride (Sample.override Sample.saturday true hours 8)
      Sample.empty in
  isSuccess
    (snd (postApiAppointments Sample.env
            (Sample.booking Sample.saturday "09:00") st)) = true
  /\ isSuccess
       (snd (postApiAppointments Sample.env
               (Sample.booking Sample.saturday "14:00") st)) = true
  /\ isSuccess
       (snd (createAppointment Sample.env
               (Sample.booking Sample.saturday "14:00") st)) = true
  /\ minutesOf "14:00" = Some 840
  /\ someHours (minutesOf "14:00") hours = Some false
  /\ checkAvailability Sample.env (Valid Sample.saturday) (Some "14:00") st
     = (st, Success 200
              {| av_date := JsDate.isoDay Sample.saturday;
                 av_time := "14:00";
                 av_isAvailable := false;
                 av_reason := "Outside custom working hours";
                 av_hasCustomSettings := true |})
  /\ (exists a,
        checkAvailability Sample.env (Valid Sample.saturday) (Some "09:00") st
        = (st, Success 200 a)
        /\ av_isAvailable a = true).
Proof.
  cbv zeta. conjunctions; try (vm_compute; reflexivity).
  eexists. split; vm_compute; reflexivity.
Qed.

(** ** Verifying and rejecting a payment *)

Lemma find_writePayment id f st :
  (forall x, Payment._id (f x) = Payment._id x) ->
  find (PaymentModel.hasId id) (payments (writePayment id f st))
  = option_map f (find (PaymentModel.hasId id) (payments st)).
Proof.
  intros H. unfold writePayment. cbn [payments setPayments].
  apply (find_map_if (PaymentModel.hasId id) f).
  intros x. unfold PaymentModel.hasId. rewrite H. reflexivity.
Qed.

Lemma find_writeAppointment id f st :
  (forall x, Appointment._id (f x) = Appointment._id x) ->
  find (AppointmentModel.hasId id) (appointments (writeAppointment id f st))
  = option_map f (find (AppointmentModel.hasId id) (appointments st)).
Proof.
  intros H. unfold writeAppointment. cbn [appointments setAppointments].
  apply (find_map_if (AppointmentModel.hasId id) f).
  intros x. unfold AppointmentModel.hasId. rewrite H. reflexivity.
Qed.

Lemma find_payment_id id l p :
  find (PaymentModel.hasId id) l = Some p -> Payment._id p = id.
Proof.
  intros H. apply find_some in H as [_ H]. apply Nat.eqb_eq in H. exact H.
Qed.

Lemma find_appointment_id id l a :
  find (AppointmentModel.hasId id) l = Some a -> Appointment._id a = id.
Proof.
  intros H. apply find_some in H as [_ H]. apply Nat.eqb_eq in H. exact H.
Qed.

Lemma status_not_verified p :
  Payment.status p <> "verified" -> String.eqb (Payment.status p) "verified" = false.
Proof. intros H. apply String.eqb_neq. exact H. Qed.

Lemma verifyPayment_goes_through env req id st payment :
  v_id req = Some id ->
  find (PaymentModel.hasId id) (payments st) = Some payment ->
  Payment.status payment <> "verified" ->
  Appointment.maxlength 500 (v_notes req) = true ->
  verifyPayment env req st
  = (verified env req payment st,
     PaymentOk 200
       (Payment.touch (now env)
          (Payment.setVerified (adminUser req) (now env) (v_notes req)
             payment))).
Proof.
  intros I F S N. rewrite verifyPayment_eq, I, F, (status_not_verified _ S).
  cbv zeta. unfold Payment.failingOf, Payment.checksOnVerify.
  cbn [Payment.status Payment.verificationNotes Payment.setVerified].
  rewrite N. cbn [filter map snd negb fst].
  change (Js.includes Payment.statusEnum "verified") with true.
  cbn [filter map snd negb fst]. reflexivity.
Qed.

Lemma verifyPayment_notes_refused env req id st payment :
  v_id req = Some id ->
  find (PaymentModel.hasId id) (payments st) = Some payment ->
  Payment.status payment <> "verified" ->
  Appointment.maxlength 500 (v_notes req) = false ->
  verifyPayment env req st = (st, verifyFailed).
Proof.
  intros I F S N. rewrite verifyPayment_eq, I, F, (status_not_verified _ S).
  cbv zeta. unfold Payment.failingOf, Payment.checksOnVerify.
  cbn [Payment.status Payment.verificationNotes Payment.setVerified].
  rewrite N. reflexivity.
Qed.

Lemma verifyPayment_already env req id st payment :
  v_id req = Some id ->
  find (PaymentModel.hasId id) (payments st) = Some payment ->
  Payment.status payment = "verified" ->
  verifyPayment env req st = (st, PaymentFailure 400 alreadyVerified).
Proof.
  intros I F S. rewrite verifyPayment_eq, I, F, S. reflexivity.
Qed.

Lemma verified_payment env req id st payment :
  find (PaymentModel.hasId id) (payments st) = Some payment ->
  find (PaymentModel.hasId id) (payments (verified env req payment st))
  = Some (Payment.touch (now env)
            (Payment.setVerified (adminUser req) (now env) (v_notes req)
               payment)).
Proof.
  intros F. unfold verified. cbv zeta.
  assert (P : find (PaymentModel.hasId id)
                (payments
                   (writePayment (Payment._id payment)
                      (fun x => Payment.touch (now env)
                                  (Payment.setVerified (adminUser req) (now env)
                                     (v_notes req) x)) st))
              = Some (Payment.touch (now env)
                        (Payment.setVerified (adminUser req) (now env)
                           (v_notes req) payment))).
  { rewrite (find_payment_id _ _ _ F), find_writePayment, F by reflexivity.
    reflexivity. }
  destruct (find _ (appointments st)); exact P.
Qed.

Lemma verified_appointment env req payment st appointment :
  find (AppointmentModel.hasId (Payment.appointmentId payment))
    (appointments st) = Some appointment ->
  find (AppointmentModel.hasId (Payment.appointmentId payment))
    (appointments (verified env req payment st))
  = Some (Appointment.setStatus "confirmed"
            (Appointment.setPaymentStatus "verified" appointment)).
Proof.
  intros F. unfold verified. cbv zeta. rewrite F.
  rewrite (find_appointment_id _ _ _ F), find_writeAppointment by reflexivity.
  cbn [appointments writePayment setPayments]. rewrite F. reflexivity.
Qed.

Lemma trimStart_length s :
  (String.length (Js.trimStart s) <= String.length s)%nat.
Proof.
  induction s as [|c s IH]; cbn [Js.trimStart String.length]; [lia|].
  destruct (Js.isWhiteSpace c); cbn [String.length]; lia.
Qed.

Lemma trimEnd_length s :
  (String.length (Js.trimEnd s) <= String.length s)%nat.
Proof.
  induction s as [|c s IH]; cbn [Js.trimEnd String.length]; [lia|].
  destruct (Js.trimEnd s) as [|c' t].
  - destruct (Js.isWhiteSpace c); cbn [String.length]; lia.
  - cbn [String.length] in *. lia.
Qed.

Lemma trim_length s : Js.length (Js.trim s) <= Js.length s.
Proof.
  unfold Js.length, Js.trim.
  pose proof (trimEnd_length (Js.trimStart s)).
  pose proof (trimStart_length s). lia.
Qed.

Lemma reason_long_enough reason :
  5 <= Js.length (Js.trim reason) -> reasonTooShort (Some reason) = false.
Proof.
  intros H. unfold reasonTooShort.
  destruct reason as [|c r]; [cbn in H; lia|].
  cbn [Js.truthy negb orb]. apply Z.ltb_ge. exact H.
Qed.

Lemma reason_too_short reason :
  Js.length reason <= 4 -> reasonTooShort (Some reason) = true.
Proof.
  intros H. unfold reasonTooShort. apply orb_true_iff. right.
  apply Z.ltb_lt. pose proof (trim_length reason). lia.
Qed.

Lemma rejectPayment_goes_through env req id st payment reason :
  r_id req = Some id ->
  r_reason req = Some reason ->
  find (PaymentModel.hasId id) (payments st) = Some payment ->
  5 <= Js.length (Js.trim reason) ->
  Js.length reason <= 500 ->
  rejectPayment env req st
  = (rejected env reason payment st,
     PaymentOk 200 (Payment.touch (now env) (Payment.setRejected reason payment))).
Proof.
  intros I R F L5 L500.
  rewrite rejectPayment_eq, R, (reason_long_enough _ L5), I, F.
  cbv zeta. unfold Payment.failingOf, Payment.checksOnReject.
  cbn [Payment.status Payment.rejectedReason Payment.setRejected
       Appointment.orElse Appointment.maxlength].
  apply Z.leb_le in L500. rewrite L500.
  change (Js.includes Payment.statusEnum "rejected") with true.
  cbn [filter map snd negb fst]. reflexivity.
Qed.

Lemma rejectPayment_reason_refused env req st reason :
  r_reason req = Some reason ->
  Js.length reason <= 4 ->
  rejectPayment env req st = (st, PaymentFailure 400 reasonRequired).
Proof.
  intros R L. rewrite rejectPayment_eq, R, (reason_too_short _ L). reflexivity.
Qed.

Lemma rejected_payment env reason id st payment :
  find (PaymentModel.hasId id) (payments st) = Some payment ->
  find (PaymentModel.hasId id) (payments (rejected env reason payment st))
  = Some (Payment.touch (now env) (Payment.setRejected reason payment)).
Proof.
  intros F. unfold rejected. cbv zeta.
  assert (P : find (PaymentModel.hasId id)
                (payments
                   (writePayment (Payment._id payment)
                      (fun x => Payment.touch (now env)
                                  (Payment.setRejected reason x)) st))
              = Some (Payment.touch (now env)
                        (Payment.setRejected reason payment))).
  { rewrite (find_payment_id _ _ _ F), find_writePayment, F by reflexivity.
    reflexivity. }
  destruct (find _ (appointments st)); exact P.
Qed.

Lemma rejected_appointment env reason payment st appointment :
  find (AppointmentModel.hasId (Payment.appointmentId payment))
    (appointments st) = Some appointment ->
  find (AppointmentModel.hasId (Payment.appointmentId payment))
    (appointments (rejected env reason payment st))
  = Some (Appointment.setStatus "cancelled"
            (Appointment.setPaymentStatus "failed" appointment)).
Proof.
  intros F. unfold rejected. cbv zeta. rewrite F.
  rewrite (find_appointment_id _ _ _ F), find_writeAppointment by reflexivity.
  cbn [appointments writePayment setPayments]. rewrite F. reflexivity.
Qed.

(** C4 (as amended).  For a stored payment that is not verified and notes
    that are absent or at most 500 characters long, [verifyPayment]
    answers 200, stores the payment with status [verified], and stores the
    linked appointment, when there is one, with payment status [verified]
    and status [confirmed]; with longer notes the schema refuses the save
    and nothing is written.  For a payment that is already verified the
    call fails with [Payment already verified] and the database is left
    as it was. *)
Theorem verifyPayment_transition :
  forall env req id st payment,
    v_id req = Some id ->
    find (PaymentModel.hasId id) (payments st) = Some payment ->
    (Payment.status payment <> "verified" ->
     Appointment.maxlength 500 (v_notes req) = true ->
     exists st' payment',
       verifyPayment env req st = (st', PaymentOk 200 payment')
       /\ find (PaymentModel.hasId id) (payments st') = Some payment'
       /\ Payment.status payment' = "verified"
       /\ forall appointment,
            find (AppointmentModel.hasId (Payment.appointmentId payment))
              (appointments st) = Some appointment ->
            exists appointment',
              find (AppointmentModel.hasId (Payment.appointmentId payment))
                (appointments st') = Some appointment'
              /\ Appointment.paymentStatus appointment' = "verified"
              /\ Appointment.status appointment' = "confirmed")
    /\ (Payment.status payment <> "verified" ->
        Appointment.maxlength 500 (v_notes req) = false ->
        verifyPayment env req st = (st, verifyFailed))
    /\ (Payment.status payment = "verified" ->
        verifyPayment env req st = (st, PaymentFailure 400 alreadyVerified)).
Proof.
  intros env req id st payment I F. split; [|split].
  - intros S N. do 2 eexists.
    split; [exact (verifyPayment_goes_through env req id st payment I F S N)|].
    split; [exact (verified_payment env req id st payment F)|].
    split; [reflexivity|].
    intros appointment A. eexists.
    split; [exact (verified_appointment env req payment st appointment A)|].
    split; reflexivity.
  - exact (verifyPayment_notes_refused env req id st payment I F).
  - exact (verifyPayment_already env req id st payment I F).
Qed.

(** Scenario A: booked, paid, verified. *)
Lemma verifyPayment_transition_witness :
  exists st' payment',
    verifyPayment Sample.env
      (Sample.verify 1%nat (Some "receipt matches the transfer")) Sample.paid
    = (st', PaymentOk 200 payment')
    /\ Payment.status payment' = "verified"
    /\ exists appointment',
         find (AppointmentModel.hasId 0%nat) (appointments st')
         = Some appointment'
         /\ Appointment.paymentStatus appointment' = "verified"
         /\ Appointment.status appointment' = "confirmed".
Proof.
  assert (F : exists payment,
             find (PaymentModel.hasId 1%nat) (payments Sample.paid)
             = Some payment
             /\ Payment.status payment = "pending"
             /\ Payment.appointmentId payment = 0%nat)
    by (eexists; split; [vm_compute; reflexivity | split; reflexivity]).
  destruct F as (payment & F & S & L).
  destruct (verifyPayment_transition Sample.env
              (Sample.verify 1%nat (Some "receipt matches the transfer"))
              1%nat Sample.paid payment eq_refl F) as [H _].
  destruct H as (st' & payment' & E & _ & V & A).
  - rewrite S. discriminate.
  - reflexivity.
  - exists st', payment'. split; [exact E|]. split; [exact V|].
    rewrite L in A. eapply A. vm_compute. reflexivity.
Defined.

(** C4, as stated, fails: the payment is pending, the notes are 501
    characters long, and [verifyPayment] answers 500 with the payment
    still pending and the appointment untouched. *)
Lemma verifyPayment_long_notes :
  let req := Sample.verify 1%nat (Some (Sample.text 501)) in
  map Payment.status (payments Sample.paid) = ["pending"]
  /\ verifyPayment Sample.env req Sample.paid = (Sample.paid, verifyFailed)
  /\ map Payment.status
       (payments (fst (verifyPayment Sample.env req Sample.paid)))
     <> ["verified"].
Proof.
  cbv zeta. split; [|split].
  - vm_compute. reflexivity.
  - vm_compute. reflexivity.
  - vm_compute. discriminate.
Qed.

(** C5 (as amended).  For a stored payment, whatever its status and that
    of its appointment, and a reason of at least 5 characters once
    trimmed and at most 500 in all, [rejectPayment] answers 200, stores
    the payment with status [rejected] and the reason, and stores the
    linked appointment, when there is one, with payment status [failed]
    and status [cancelled].  For a reason of 4 characters or fewer the
    call fails with the validation error and the database is left as it
    was. *)
Theorem rejectPayment_transition :
  forall env req id st payment reason,
    r_id req = Some id ->
    r_reason req = Some reason ->
    find (PaymentModel.hasId id) (payments st) = Some payment ->
    (5 <= Js.length (Js.trim reason) ->
     Js.length reason <= 500 ->
     exists st' payment',
       rejectPayment env req st = (st', PaymentOk 200 payment')
       /\ find (PaymentModel.hasId id) (payments st') = Some payment'
       /\ Payment.status payment' = "rejected"
       /\ Payment.rejectedReason payment' = Some reason
       /\ forall appointment,
            find (AppointmentModel.hasId (Payment.appointmentId payment))
              (appointments st) = Some appointment ->
            exists appointment',
              find (AppointmentModel.hasId (Payment.appointmentId payment))
                (appointments st') = Some appointment'
              /\ Appointment.paymentStatus appointment' = "failed"
              /\ Appointment.status appointment' = "cancelled")
    /\ (Js.length reason <= 4 ->
        rejectPayment env req st = (st, PaymentFailure 400 reasonRequired)).
Proof.
  intros env req id st payment reason I R F. split.
  - intros L5 L500. do 2 eexists.
    split; [exact (rejectPayment_goes_through env req id st payment reason
                     I R F L5 L500)|].
    split; [exact (rejected_payment env reason id st payment F)|].
    split; [reflexivity|]. split; [reflexivity|].
    intros appointment A. eexists.
    split; [exact (rejected_appointment env reason payment st appointment A)|].
    split; reflexivity.
  - exact (rejectPayment_reason_refused env req st reason R).
Qed.

(** Scenario B: booked, paid, rejected; and a reason of four characters. *)
Lemma rejectPayment_transition_witness :
  (exists st' payment',
     rejectPayment Sample.env (Sample.reject 1%nat "receipt unreadable")
       Sample.paid
     = (st', PaymentOk 200 payment')
     /\ Payment.status payment' = "rejected"
     /\ exists appointment',
          find (AppointmentModel.hasId 0%nat) (appointments st')
          = Some appointment'
          /\ Appointment.paymentStatus appointment' = "failed"
          /\ Appointment.status appointment' = "cancelled")
  /\ rejectPayment Sample.env (Sample.reject 1%nat "blur") Sample.paid
     = (Sample.paid, PaymentFailure 400 reasonRequired).
Proof.
  assert (F : exists payment,
             find (PaymentModel.hasId 1%nat) (payments Sample.paid)
             = Some payment
             /\ Payment.appointmentId payment = 0%nat)
    by (eexists; split; [vm_compute; reflexivity | reflexivity]).
  destruct F as (payment & F & L). split.
  - destruct (rejectPayment_transition Sample.env
                (Sample.reject 1%nat "receipt unreadable") 1%nat Sample.paid
                payment "receipt unreadable" eq_refl eq_refl F) as [H _].
    destruct H as (st' & payment' & E & _ & V & _ & A).
    + vm_compute. discriminate.
    + vm_compute. discriminate.
    + exists st', payment'. split; [exact E|]. split; [exact V|].
      rewrite L in A. eapply A. vm_compute. reflexivity.
  - apply (rejectPayment_transition Sample.env (Sample.reject 1%nat "blur")
             1%nat Sample.paid payment "blur" eq_refl eq_refl F).
    vm_compute. discriminate.
Defined.

(** C5, as stated, fails: the first reason below is 5 characters long, 4
    of them blanks, and [rejectPayment] refuses it and writes nothing; the
    second is 501 characters long, the schema refuses the save, and the
    payment stays pending. *)
Lemma rejectPayment_padded_reason :
  Js.length "    x" = 5
  /\ rejectPayment Sample.env (Sample.reject 1%nat "    x") Sample.paid
     = (Sample.paid, PaymentFailure 400 reasonRequired)
  /\ Js.length (Sample.text 501) = 501
  /\ rejectPayment Sample.env (Sample.reject 1%nat (Sample.text 501))
       Sample.paid
     = (Sample.paid, rejectFailed)
  /\ map Payment.status (payments Sample.paid) = ["pending"].
Proof. conjunctions; vm_compute; reflexivity. Qed.





(** ** One payment per appointment *)

Lemma cleanUp_payments req st : payments (cleanUp req st) = payments st.
Proof.
  unfold cleanUp. destruct (s_file req); [|reflexivity].
  destruct (CloudinaryService.existsSync _ _); reflexivity.
Qed.

Lemma submitPayment_paymentsStep env cloud req st :
  paymentsStep st (fst (submitPayment env cloud req st)).
Proof.
  rewrite submitPayment_eq.
  destruct (s_file req) as [file|]; [|apply paymentsSame; reflexivity].
  destruct (s_appointmentId req) as [id|];
    [|apply paymentsSame; apply cleanUp_payments].
  destruct (find _ (appointments st)) as [appointment|];
    [|apply paymentsSame; reflexivity].
  destruct (find _ (payments st)) eqn:P; [apply paymentsSame; reflexivity|].
  destruct (CloudinaryService.validateFile file);
    [apply paymentsSame; reflexivity|].
  destruct (negb _); [apply paymentsSame; reflexivity|].
  destruct cloud; [|apply paymentsSame; reflexivity].
  cbv zeta. destruct (Payment.failing _).
  - eapply paymentsInsert; [reflexivity|].
    apply find_none_filter in P. exact P.
  - apply paymentsSame. cbn [fst]. rewrite cleanUp_payments. reflexivity.
Qed.

Lemma verifyPayment_paymentsStep env req st :
  paymentsStep st (fst (verifyPayment env req st)).
Proof.
  rewrite verifyPayment_eq.
  destruct (v_id req); [|apply paymentsSame; reflexivity].
  destruct (find _ (payments st)) as [payment|];
    [|apply paymentsSame; reflexivity].
  destruct (String.eqb _ _); [apply paymentsSame; reflexivity|].
  cbv zeta. destruct (Payment.failingOf _); [|apply paymentsSame; reflexivity].
  eapply paymentsWrite with (id := Payment._id payment).
  - cbn [fst]. destruct (find _ _); reflexivity.
  - reflexivity.
Qed.

Lemma rejectPayment_paymentsStep env req st :
  paymentsStep st (fst (rejectPayment env req st)).
Proof.
  rewrite rejectPayment_eq.
  destruct (reasonTooShort _); [apply paymentsSame; reflexivity|].
  destruct (r_id req); [|apply paymentsSame; reflexivity].
  destruct (find _ (payments st)) as [payment|];
    [|apply paymentsSame; reflexivity].
  cbv zeta. destruct (Payment.failingOf _); [|apply paymentsSame; reflexivity].
  eapply paymentsWrite with (id := Payment._id payment).
  - cbn [fst]. destruct (find _ _); reflexivity.
  - reflexivity.
Qed.

Lemma perform_paymentsStep op st : paymentsStep st (perform op st).
Proof.
  destruct op; cbn [perform].
  - apply paymentsSame. rewrite createAppointment_eq.
    destruct (Appointment.b_appointmentDate body); [|reflexivity].
    destruct (find _ _); [reflexivity|].
    destruct (Appointment.build _ _ _); reflexivity.
  - apply paymentsSame. rewrite postApiAppointments_eq.
    destruct (Appointment.b_appointmentDate body); [|reflexivity].
    match goal with |- context [if ?c then _ else _] => destruct c end;
      [reflexivity|].
    destruct (find _ _); [reflexivity|].
    destruct (Appointment.build _ _ _); reflexivity.
  - apply paymentsSame. rewrite updateAppointment_eq.
    destruct id; [|reflexivity].
    destruct (Appointment.failing _ _); [|reflexivity].
    destruct (find _ _); reflexivity.
  - apply paymentsSame. rewrite deleteAppointment_eq.
    destruct id; [|reflexivity]. destruct (find _ _); reflexivity.
  - apply submitPayment_paymentsStep.
  - apply verifyPayment_paymentsStep.
  - apply rejectPayment_paymentsStep.
Qed.

Lemma paymentsOf_write id id' f st :
  (forall x, Payment.appointmentId (f x) = Payment.appointmentId x) ->
  List.length (paymentsOf id (writePayment id' f st))
  = List.length (paymentsOf id st).
Proof.
  intros H. unfold paymentsOf, writePayment. cbn [payments setPayments].
  induction (payments st) as [|x l IH]; [reflexivity|].
  cbn [map filter].
  assert (E : Payment.appointmentId
                (if Nat.eqb (Payment._id x) id' then f x else x)
              = Payment.appointmentId x)
    by (destruct (Nat.eqb _ _); [apply H | reflexivity]).
  rewrite E. destruct (Nat.eqb (Payment.appointmentId x) id);
    cbn [List.length]; rewrite IH; reflexivity.
Qed.

Lemma paymentsOf_payments id st st' :
  payments st' = payments st -> paymentsOf id st' = paymentsOf id st.
Proof. intros E. unfold paymentsOf. rewrite E. reflexivity. Qed.

(** The payments of an appointment never get fewer, and an appointment
    with at most one keeps at most one. *)
Lemma paymentsStep_count id st st' :
  paymentsStep st st' ->
  (List.length (paymentsOf id st) <= List.length (paymentsOf id st'))%nat
  /\ (List.length (paymentsOf id st')
      <= Nat.max 1 (List.length (paymentsOf id st)))%nat.
Proof.
  intros [E | p E N | id' f E H].
  - rewrite (paymentsOf_payments id st st' E). lia.
  - unfold paymentsOf in *. rewrite E, filter_app, length_app.
    cbn [filter]. destruct (Nat.eqb (Payment.appointmentId p) id) eqn:I;
      cbn [List.length]; [|lia].
    apply Nat.eqb_eq in I. subst id. rewrite N. cbn. lia.
  - rewrite (paymentsOf_payments id _ st' E), (paymentsOf_write id id' f st H).
    lia.
Qed.

Lemma performAll_paymentsOf id ops st :
  (List.length (paymentsOf id st)
   <= List.length (paymentsOf id (performAll ops st)))%nat.
Proof.
  revert st. induction ops as [|op ops IH]; intros st; cbn [performAll fold_left].
  - lia.
  - etransitivity; [|apply IH].
    apply (paymentsStep_count id st (perform op st)).
    apply perform_paymentsStep.
Qed.

Lemma perform_atMostOnePaymentEach op st :
  atMostOnePaymentEach st -> atMostOnePaymentEach (perform op st).
Proof.
  intros I id. specialize (I id).
  pose proof (paymentsStep_count id st (perform op st)
                (perform_paymentsStep op st)). lia.
Qed.

(** A submission that succeeds has inserted its payment. *)
Lemma submitPayment_inserted env cloud req st st' code payment id :
  s_appointmentId req = Some id ->
  submitPayment env cloud req st = (st', PaymentOk code payment) ->
  Payment.appointmentId payment = id
  /\ payments st' = (payments st ++ [payment])%list.
Proof.
  intros I. rewrite submitPayment_eq, I.
  destruct (s_file req) as [file|]; [|discriminate].
  destruct (find _ (appointments st)) as [appointment|]; [|discriminate].
  destruct (find _ (payments st)); [discriminate|].
  destruct (CloudinaryService.validateFile file); [discriminate|].
  destruct (negb _); [discriminate|].
  destruct cloud; [|discriminate].
  cbv zeta. destruct (Payment.failing _); [|discriminate].
  intros E. injection E as <- _ <-. split; reflexivity.
Qed.

(** A submission for an appointment that has a payment writes nothing. *)
Lemma submitPayment_refused env cloud req st id :
  s_appointmentId req = Some id ->
  paymentsOf id st <> [] ->
  (exists code error,
     submitPayment env cloud req st = (st, PaymentFailure code error))
  /\ (s_file req <> None ->
      find (AppointmentModel.hasId id) (appointments st) <> None ->
      submitPayment env cloud req st
      = (st, PaymentFailure 400 paymentAlreadySubmitted)).
Proof.
  intros I P. rewrite submitPayment_eq, I.
  destruct (filter_nonempty_find _ _ P) as [p ->].
  destruct (s_file req) as [file|].
  - destruct (find _ (appointments st)).
    + split; [eauto|reflexivity].
    + split; [eauto|]. intros _ H. contradiction.
  - split; [eauto|]. intros H. contradiction.
Qed.
(** C8 (as amended).  Once a submission for an appointment has succeeded,
    its payment is stored, and whatever requests are served afterwards,
    every later submission for that appointment fails and writes nothing;
    the failure is [Payment already submitted for this appointment] when
    the request carries a receipt and the appointment still exists.  Every
    request served on its own keeps at most one payment per appointment. *)
Theorem second_payment_refused :
  forall env cloud req st st' code payment id,
    s_appointmentId req = Some id ->
    submitPayment env cloud req st = (st', PaymentOk code payment) ->
    Payment.appointmentId payment = id
    /\ In payment (payments st')
    /\ (forall ops env2 cloud2 req2,
          s_appointmentId req2 = Some id ->
          let st2 := performAll ops st' in
          (exists code2 error,
             submitPayment env2 cloud2 req2 st2
             = (st2, PaymentFailure code2 error))
          /\ (s_file req2 <> None ->
              find (AppointmentModel.hasId id) (appointments st2) <> None ->
              submitPayment env2 cloud2 req2 st2
              = (st2, PaymentFailure 400 paymentAlreadySubmitted)))
    /\ (forall op,
          atMostOnePaymentEach st' ->
          atMostOnePaymentEach (perform op st')).
Proof.
  intros env cloud req st st' code payment id I E.
  destruct (submitPayment_inserted env cloud req st st' code payment id I E)
    as [A P].
  split; [exact A|].
  split; [rewrite P; apply in_or_app; right; left; reflexivity|].
  split; [|intros op; apply perform_atMostOnePaymentEach].
  intros ops env2 cloud2 req2 I2 st2.
  apply (submitPayment_refused env2 cloud2 req2 st2 id I2).
  pose proof (performAll_paymentsOf id ops st') as L. fold st2 in L.
  assert (N : (1 <= List.length (paymentsOf id st'))%nat).
  { unfold paymentsOf. rewrite P, filter_app, length_app. cbn [filter].
    rewrite A, Nat.eqb_refl. cbn. lia. }
  destruct (paymentsOf id st2); [cbn in L; lia | discriminate].
Qed.

(** A second submission after the first payment has been verified. *)
Lemma second_payment_refused_witness :
  let later :=
    perform (VerifyPayment Sample.env (Sample.verify 1%nat None)) Sample.paid in
  submitPayment Sample.env Sample.stored (Sample.payment 0%nat true) later
  = (later, PaymentFailure 400 paymentAlreadySubmitted).
Proof.
  assert (E : exists payment,
             submitPayment Sample.env Sample.stored (Sample.payment 0%nat true)
               (Sample.withReceipt Sample.booked)
             = (Sample.paid, PaymentOk 201 payment))
    by (eexists; vm_compute; reflexivity).
  destruct E as [payment E].
  destruct (second_payment_refused Sample.env Sample.stored
              (Sample.payment 0%nat true) (Sample.withReceipt Sample.booked)
              Sample.paid 201 payment 0%nat eq_refl E) as (_ & _ & H & _).
  destruct (H [ VerifyPayment Sample.env (Sample.verify 1%nat None) ]
              Sample.env Sample.stored (Sample.payment 0%nat true) eq_refl)
    as [_ D].
  apply D.
  - discriminate.
  - vm_compute. discriminate.
Defined.

(** C8, as stated, fails: after a successful submission, a second one
    without a receipt is refused for the missing receipt, and one for an
    appointment deleted in between is refused as not found; neither answer
    is the duplicate-payment one. *)
Lemma second_submission_other_errors :
  let deleted := perform (DeleteAppointment (Some 0%nat)) Sample.paid in
  (exists payment,
     submitPayment Sample.env Sample.stored (Sample.payment 0%nat true)
       (Sample.withReceipt Sample.booked)
     = (Sample.paid, PaymentOk 201 payment))
  /\ submitPayment Sample.env Sample.stored (Sample.payment 0%nat false)
       Sample.paid
     = (Sample.paid, PaymentFailure 400 receiptRequired)
  /\ submitPayment Sample.env Sample.stored (Sample.payment 0%nat true)
       (Sample.withReceipt deleted)
     = (Sample.withReceipt deleted, PaymentFailure 404 appointmentNotFound)
  /\ receiptRequired <> paymentAlreadySubmitted
  /\ appointmentNotFound <> paymentAlreadySubmitted.
Proof.
  cbv zeta. conjunctions.
  - eexists. vm_compute. reflexivity.
  - vm_compute. reflexivity.
  - vm_compute. reflexivity.
  - discriminate.
  - discriminate.
Qed.

(** ** A receipt the object store refuses *)

(** When Cloudinary refuses the upload, [submitPayment] answers 500 and
    leaves everything as it was, the file multer wrote included. *)
Lemma submitPayment_upload_rejected env message req st file id appointment :
  s_file req = Some file ->
  s_appointmentId req = Some id ->
  find (AppointmentModel.hasId id) (appointments st) = Some appointment ->
  paymentsOf id st = [] ->
  CloudinaryService.validateFile file = None ->
  CloudinaryService.existsSync (CloudinaryService.path file) st = true ->
  submitPayment env (CloudinaryService.Rejected message) req st
  = (st, PaymentFailure 500
           (failedToUpload (if Js.truthy message then message
                            else "Cloudinary upload failed"))).
Proof.
  intros F I A P V X. rewrite submitPayment_eq, F, I, A.
  rewrite (filter_nil_find _ _ P), V, X. reflexivity.
Qed.

(** C9: the code breaks the claim.  The receipt is on disk, the booking
    exists and has no payment, and Cloudinary answers with a timeout:
    [submitPayment] answers 500, creates no payment and leaves the
    appointment alone, but the receipt file is still in the upload
    directory.  The two sibling paths do remove it: the [catch] block (a
    malformed appointment id) and the successful upload. *)
Theorem receipt_left_behind_on_upload_failure :
  let st := Sample.withReceipt Sample.booked in
  let file := CloudinaryService.path Sample.receipt in
  let r :=
    submitPayment Sample.env (CloudinaryService.Rejected "Request Timeout")
      (Sample.payment 0%nat true) st in
  CloudinaryService.existsSync file st = true
  /\ snd r = PaymentFailure 500 (failedToUpload "Request Timeout")
  /\ payments (fst r) = []
  /\ appointments (fst r) = appointments st
  /\ CloudinaryService.existsSync file (fst r) = true
  /\ CloudinaryService.existsSync file
       (fst (submitPayment Sample.env Sample.stored Sample.malformed st))
     = false
  /\ CloudinaryService.existsSync file
       (fst (submitPayment Sample.env Sample.stored
               (Sample.payment 0%nat true) st))
     = false.
Proof. cbv zeta. conjunctions; vm_compute; reflexivity. Qed.

(** * Further properties *)

(** ** The slots on offer *)

Lemma includes_In (l : list string) (x : string) :
  Js.includes l x = true <-> In x l.
Proof.
  unfold Js.includes. rewrite existsb_exists. split.
  - intros (y & I & E). apply String.eqb_eq in E. subst. exact I.
  - intros I. exists x. split; [exact I | apply String.eqb_refl].
Qed.

Lemma getAvailableSlots_eq env date st :
  getAvailableSlots env (Valid date) st
  = (st,
     Success 200
       (if isWeekend (tz env) date then []
        else
          filter
            (fun slot =>
               negb
                 (Js.includes
                    (map Appointment.appointmentTime
                       (filter
                          (fun a =>
                             queriedDay (tz env) date
                               (Appointment.appointmentDate a)
                             && statusInPendingConfirmed a)
                          (appointments st)))
                    slot))
            allSlots)).
Proof.
  unfold getAvailableSlots, isWeekend. unfold_monad.
  destruct (_ || _); reflexivity.
Qed.

Lemma slots_offered env date st :
  exists slots,
    getAvailableSlots env (Valid date) st = (st, Success 200 slots)
    /\ (isWeekend (tz env) date = true -> slots = [])
    /\ (isWeekend (tz env) date = false ->
        forall slot,
          In slot slots <->
          In slot allSlots
          /\ ~ exists a,
                 In a (appointments st)
                 /\ queriedDay (tz env) date (Appointment.appointmentDate a)
                    = true
                 /\ statusInPendingConfirmed a = true
                 /\ Appointment.appointmentTime a = slot)
    /\ (exists keep, slots = filter keep allSlots).
Proof.
  eexists. split; [apply getAvailableSlots_eq|].
  destruct (isWeekend (tz env) date).
  - split; [reflexivity|]. split; [discriminate|]. exists (fun _ => false).
    reflexivity.
  - split; [discriminate|]. split; [|eexists; reflexivity].
    intros _ slot. rewrite filter_In. split.
    + intros [I N]. split; [exact I|].
      intros (a & Ia & Q & S & T). apply negb_true_iff in N.
      assert (Js.includes
                (map Appointment.appointmentTime
                   (filter
                      (fun a => queriedDay (tz env) date
                                  (Appointment.appointmentDate a)
                                && statusInPendingConfirmed a)
                      (appointments st))) slot = true) as C.
      { apply includes_In. apply in_map_iff. exists a. split; [exact T|].
        apply filter_In. rewrite Q, S. auto. }
      congruence.
    + intros [I N]. split; [exact I|]. apply negb_true_iff.
      apply not_true_is_false. intros C. apply N.
      apply includes_In in C. apply in_map_iff in C as (a & T & F).
      apply filter_In in F as [Ia F]. apply andb_prop in F as [Q S].
      exists a. auto.
Qed.

(** X1.  For a date [getAvailableSlots] can read, the answer is 200 and
    nothing is written.  On a Saturday or Sunday (server time) no slot is
    offered; on any other day a slot is offered exactly when it is one of
    the six of the clinic and no pending or confirmed appointment dated
    within the queried day has that time, and the slots come in the
    clinic's order, each once. *)
Theorem getAvailableSlots_offers :
  forall env date st,
  exists slots,
    getAvailableSlots env (Valid date) st = (st, Success 200 slots)
    /\ (isWeekend (tz env) date = true -> slots = [])
    /\ (isWeekend (tz env) date = false ->
        forall slot,
          In slot slots <->
          In slot allSlots
          /\ ~ exists a,
                 In a (appointments st)
                 /\ queriedDay (tz env) date (Appointment.appointmentDate a)
                    = true
                 /\ statusInPendingConfirmed a = true
                 /\ Appointment.appointmentTime a = slot)
    /\ (exists keep, slots = filter keep allSlots).
Proof. exact slots_offered. Qed.

Lemma queriedDay_self tz date :
  queriedDay tz date date = true <-> (date + tz) mod JsDate.msPerDay < 86399999.
Proof.
  unfold queriedDay, JsDate.setHours, JsDate.localTimeOfDay, JsDate.msPerDay.
  pose proof (Z.div_mod (date + tz) 86400000 ltac:(lia)) as E.
  pose proof (Z.mod_pos_bound (date + tz) 86400000 ltac:(lia)) as B.
  set (q := (date + tz) / 86400000) in *.
  replace ((q * 86400000 + ((0 * 60 + 0) * 60 + 0) * 1000 + 0 - tz + tz)
           / 86400000) with q
    by (replace (q * 86400000 + ((0 * 60 + 0) * 60 + 0) * 1000 + 0 - tz + tz)
          with (q * 86400000) by lia;
        symmetry; apply Z.div_mul; lia).
  rewrite andb_true_iff, Z.leb_le, Z.ltb_lt. lia.
Qed.

(** X2.  A slot [getAvailableSlots] offers for a date can be booked on the
    spot: [createAppointment] accepts any body for that date and slot
    that passes the schema.  The date must not be the last millisecond of
    its day, which the query of [getAvailableSlots] leaves out. *)
Theorem offered_slot_can_be_booked :
  forall env date st slots slot body,
    getAvailableSlots env (Valid date) st = (st, Success 200 slots) ->
    In slot slots ->
    (date + tz env) mod JsDate.msPerDay < 86399999 ->
    Appointment.b_appointmentDate body = Some date ->
    Appointment.b_appointmentTime body = Some slot ->
    Appointment.failing true (Appointment.cast body) = [] ->
    exists st' a,
      createAppointment env body st = (st', Success 201 a)
      /\ Appointment.appointmentDate a = date
      /\ Appointment.appointmentTime a = slot.
Proof.
  intros env date st slots slot body G I M D T F.
  destruct (slots_offered env date st) as (slots' & G' & W & O & _).
  rewrite G in G'. injection G' as <-.
  destruct (isWeekend (tz env) date) eqn:K.
  - rewrite (W eq_refl) in I. contradiction.
  - apply (O eq_refl) in I as [_ N].
    assert (H : holders statusInPendingConfirmed date slot st = []).
    { apply holders_empty. intros a Ia Oc.
      destruct (statusInPendingConfirmed a) eqn:S; [exfalso|reflexivity].
      apply N. exists a. unfold occupies in Oc.
      apply andb_prop in Oc as [Od Ot].
      apply Z.eqb_eq in Od. apply String.eqb_eq in Ot.
      rewrite Od. split; [exact Ia|]. split; [apply queriedDay_self; exact M|].
      split; [exact S | exact Ot]. }
    destruct (createAppointment_free env body date slot st D T H F)
      as (a & E & Oc).
    exists (freshId (setAppointments st (appointments st ++ [a]))), a.
    split; [exact E|]. unfold occupies in Oc.
    apply andb_prop in Oc as [Od Ot].
    apply Z.eqb_eq in Od. apply String.eqb_eq in Ot. auto.
Qed.

(** Monday 2024-06-10 with 10:00 taken: 11:00 is offered and booked. *)
Lemma offered_slot_can_be_booked_witness :
  exists st' a,
    createAppointment Sample.env (Sample.otherBooking Sample.monday "11:00")
      Sample.booked
    = (st', Success 201 a)
    /\ Appointment.appointmentDate a = Sample.monday
    /\ Appointment.appointmentTime a = "11:00".
Proof.
  apply (offered_slot_can_be_booked Sample.env Sample.monday Sample.booked
           ["09:00"; "11:00"; "14:00"; "15:00"; "16:00"] "11:00").
  - vm_compute. reflexivity.
  - right. left. reflexivity.
  - vm_compute. reflexivity.
  - reflexivity.
  - reflexivity.
  - vm_compute. reflexivity.
Defined.

(** X3.  Once [createAppointment] has booked a pair with a pending or
    confirmed appointment, [getAvailableSlots] for that date no longer
    offers the slot (the last millisecond of a day excepted), whatever
    else is in the database. *)
Theorem booked_slot_not_offered :
  forall env body st st' code a env' slots,
    createAppointment env body st = (st', Success code a) ->
    statusInPendingConfirmed a = true ->
    (Appointment.appointmentDate a + tz env') mod JsDate.msPerDay < 86399999 ->
    getAvailableSlots env' (Valid (Appointment.appointmentDate a)) st'
    = (st', Success 200 slots) ->
    ~ In (Appointment.appointmentTime a) slots.
Proof.
  intros env body st st' code a env' slots C S M G I.
  assert (Ia : In a (appointments st')).
  { rewrite createAppointment_eq in C.
    destruct (Appointment.b_appointmentDate body); [|discriminate].
    destruct (find _ _); [discriminate|].
    destruct (Appointment.build _ _ _); [discriminate|].
    injection C as <- _ <-. cbn. apply in_or_app. right. left. reflexivity. }
  destruct (slots_offered env' (Appointment.appointmentDate a) st')
    as (slots' & G' & W & O & _).
  rewrite G in G'. injection G' as <-.
  destruct (isWeekend (tz env') (Appointment.appointmentDate a)) eqn:K.
  - rewrite (W eq_refl) in I. contradiction.
  - apply (O eq_refl) in I as [_ N]. apply N. exists a.
    split; [exact Ia|]. split; [apply queriedDay_self; exact M|].
    split; [exact S | reflexivity].
Qed.

(** Monday 2024-06-10 after the 10:00 booking. *)
Lemma booked_slot_not_offered_witness :
  exists slots,
    getAvailableSlots Sample.env (Valid Sample.monday) Sample.booked
    = (Sample.booked, Success 200 slots)
    /\ ~ In "10:00" slots.
Proof.
  assert (C : exists a,
             createAppointment Sample.env
               (Sample.booking Sample.monday "10:00") Sample.empty
             = (Sample.booked, Success 201 a)
             /\ Appointment.appointmentDate a = Sample.monday
             /\ Appointment.appointmentTime a = "10:00"
             /\ statusInPendingConfirmed a = true)
    by (eexists; split; [vm_compute; reflexivity|];
        split; [reflexivity|]; split; reflexivity).
  destruct C as (a & C & D & T & S).
  assert (G : exists slots,
             getAvailableSlots Sample.env (Valid Sample.monday) Sample.booked
             = (Sample.booked, Success 200 slots))
    by (eexists; vm_compute; reflexivity).
  destruct G as (slots & G). exists slots. split; [exact G|].
  rewrite <- T.
  apply (booked_slot_not_offered Sample.env
           (Sample.booking Sample.monday "10:00") Sample.empty Sample.booked
           201 a Sample.env slots C S).
  - rewrite D. vm_compute. reflexivity.
  - rewrite D. exact G.
Defined.

(** ** Availability of a date and time *)

Lemma success_inj {D} (c c' : Z) (x y : D) :
  Success c x = Success c' y -> x = y.
Proof. intros H. congruence. Qed.

(** What [checkAvailability] makes of a setting and a time. *)
Lemma checkAvailability_eq env date time st :
  Js.truthy time = true ->
  checkAvailability env (Valid date) (Some time) st
  = (st,
     let dateStr := JsDate.isoDay date in
     let answer isAvailable reason custom :=
       Success 200
         {| av_date := dateStr; av_time := time;
            av_isAvailable := isAvailable; av_reason := reason;
            av_hasCustomSettings := custom |} in
     match find (settingOfDay (tz env) dateStr) (calendarSettings st) with
     | Some setting =>
         let reason :=
           if Js.truthy (CalendarSettings.reason setting)
           then CalendarSettings.reason setting else "Custom setting" in
         match CalendarSettings.customHours setting with
         | [] => answer (CalendarSettings.isAvailable setting) reason true
         | slot :: rest =>
             match someHours (minutesOf time) (slot :: rest) with
             | Some true =>
                 answer (CalendarSettings.isAvailable setting) reason true
             | Some false => answer false "Outside custom working hours" true
             | None => Failure 500 (Literal "Failed to check availability")
             end
         end
     | None =>
         if isWeekend (tz env) date
         then answer false "Weekend (no custom settings)" false
         else answer true "" false
     end).
Proof.
  intros T. unfold checkAvailability, isWeekend. unfold_monad. rewrite T.
  cbv beta iota zeta. cbn [negb].
  destruct (find _ _) as [setting|].
  - destruct (CalendarSettings.customHours setting) as [|slot rest];
      [reflexivity|].
    destruct (someHours _ _) as [[|]|]; reflexivity.
  - destruct (_ || _); reflexivity.
Qed.

Lemma checkAvailability_answers env date time st st' code a :
  checkAvailability env date time st = (st', Success code a) ->
  exists d t, date = Valid d /\ time = Some t /\ Js.truthy t = true.
Proof.
  unfold checkAvailability. unfold_monad.
  destruct date as [| |d]; destruct time as [t|]; try discriminate.
  destruct (Js.truthy t) eqn:T; [|discriminate]. eauto.
Qed.

(** X4.  [checkAvailability] writes nothing, and it reports a date and
    time as available only in two cases: no setting is found for the day
    and the day is not a Saturday or Sunday; or the setting found is
    available and either has no custom hours or has a range that holds
    the time of day, end excluded. *)
Theorem checkAvailability_available :
  forall env date time st st' code a,
    checkAvailability env date time st = (st', Success code a) ->
    av_isAvailable a = true ->
    st' = st
    /\ exists d t,
         date = Valid d /\ time = Some t
         /\ match find (settingOfDay (tz env) (JsDate.isoDay d))
                    (calendarSettings st) with
            | None => isWeekend (tz env) d = false
            | Some setting =>
                CalendarSettings.isAvailable setting = true
                /\ (CalendarSettings.customHours setting = []
                    \/ exists slot s e minutes first last,
                         In slot (CalendarSettings.customHours setting)
                         /\ CalendarSettings.start slot = Some s
                         /\ CalendarSettings.end_ slot = Some e
                         /\ minutesOf t = Some minutes
                         /\ minutesOf s = Some first
                         /\ minutesOf e = Some last
                         /\ first <= minutes < last)
            end.
Proof.
  intros env date time st st' code a C A.
  destruct (checkAvailability_answers _ _ _ _ _ _ _ C) as (d & t & -> & -> & T).
  rewrite (checkAvailability_eq env d t st T) in C. cbv zeta in C.
  apply pair_equal_spec in C as [<- C]. split; [reflexivity|]. exists d, t.
  split; [reflexivity|]. split; [reflexivity|].
  destruct (find _ _) as [setting|].
  - destruct (CalendarSettings.customHours setting) as [|slot rest] eqn:H.
    + apply success_inj in C; subst a. cbn in A. auto.
    + destruct (someHours (minutesOf t) (slot :: rest)) as [[|]|] eqn:S;
        try discriminate.
      * apply success_inj in C; subst a. cbn in A. split; [exact A|]. right.
        exact (someHours_true _ _ S).
      * apply success_inj in C; subst a. discriminate.
  - destruct (isWeekend (tz env) d); [|reflexivity].
    apply success_inj in C; subst a. discriminate.
Qed.

(** Saturday 2024-06-15 opened from 09:00 to 12:00 : 09:00 is available. *)
Lemma checkAvailability_available_witness :
  exists st a setting,
    checkAvailability Sample.env (Valid Sample.saturday) (Some "09:00") st
    = (st, Success 200 a)
    /\ av_isAvailable a = true
    /\ find (settingOfDay (tz Sample.env) (JsDate.isoDay Sample.saturday))
         (calendarSettings st) = Some setting
    /\ CalendarSettings.isAvailable setting = true.
Proof.
  pose (hours := [ {| CalendarSettings.start := Some "09:00";
                      CalendarSettings.end_ := Some "12:00" |} ]).
  pose (st := Sample.withOverride
                (Sample.override Sample.saturday true hours 8) Sample.empty).
  assert (C : exists a,
             checkAvailability Sample.env (Valid Sample.saturday)
               (Some "09:00") st = (st, Success 200 a)
             /\ av_isAvailable a = true)
    by (eexists; split; vm_compute; reflexivity).
  destruct C as (a & C & A).
  destruct (checkAvailability_available Sample.env (Valid Sample.saturday)
              (Some "09:00") st st 200 a C A) as (_ & d & t & Ed & Et & M).
  injection Ed as <-. injection Et as <-.
  destruct (find (settingOfDay (tz Sample.env) (JsDate.isoDay Sample.saturday))
              (calendarSettings st)) as [setting|] eqn:F.
  - exists st, a, setting. destruct M as [M _]. auto.
  - vm_compute in M. discriminate.
Defined.

(** X5.  The POST handler and [checkAvailability] look the override up the
    same way: when the POST handler refuses a booking with
    [Date unavailable], [checkAvailability] for that date never reports
    it available, whatever the time asked. *)
Theorem closed_date_never_available :
  forall env body date time st st' code a,
    Appointment.b_appointmentDate body = Some date ->
    postApiAppointments env body st
    = (st, Failure 400 (Literal "Date unavailable")) ->
    checkAvailability env (Valid date) time st = (st', Success code a) ->
    av_isAvailable a = false /\ av_hasCustomSettings a = true.
Proof.
  intros env body date time st st' code a D P C.
  destruct (checkAvailability_answers _ _ _ _ _ _ _ C) as (d & t & Ed & -> & T).
  injection Ed as <-.
  rewrite (checkAvailability_eq env date t st T) in C. cbv zeta in C.
  rewrite postApiAppointments_eq, D in P.
  destruct (find _ (calendarSettings st)) as [setting|].
  - destruct (CalendarSettings.isAvailable setting) eqn:A.
    + cbn [negb] in P. destruct (find _ _); [discriminate|].
      destruct (Appointment.build _ _ _); discriminate.
    + destruct (CalendarSettings.customHours setting) as [|slot rest].
      * apply pair_equal_spec in C as [_ C].
        apply success_inj in C; subst a. split; reflexivity.
      * destruct (someHours (minutesOf t) (slot :: rest)) as [[|]|];
          try discriminate;
          apply pair_equal_spec in C as [_ C];
          apply success_inj in C; subst a; split; reflexivity.
  - destruct (find _ _); [discriminate|].
    destruct (Appointment.build _ _ _); discriminate.
Qed.

Lemma closed_date_never_available_witness :
  exists a,
    checkAvailability Sample.env (Valid Sample.monday) (Some "10:00")
      More.closedMonday = (More.closedMonday, Success 200 a)
    /\ av_isAvailable a = false /\ av_hasCustomSettings a = true.
Proof.
  assert (C : exists a,
             checkAvailability Sample.env (Valid Sample.monday) (Some "10:00")
               More.closedMonday = (More.closedMonday, Success 200 a))
    by (eexists; vm_compute; reflexivity).
  destruct C as (a & C). exists a. split; [exact C|].
  apply (closed_date_never_available Sample.env
           (Sample.booking Sample.monday "10:00") Sample.monday (Some "10:00")
           More.closedMonday More.closedMonday 200 a eq_refl).
  - vm_compute. reflexivity.
  - exact C.
Defined.

(** X6.  An override dated at midnight UTC of a day, as [new Date] reads a
    plain date, is found for a booking on that day exactly when the
    server's clock is at or east of UTC (by less than 23:59:59): with only
    a closed override of that kind in the database, the POST handler
    answers [Date unavailable] on such a server and only there. *)
Theorem override_found_east_of_utc :
  forall env body bookingDate setting st,
    Appointment.b_appointmentDate body = Some bookingDate ->
    calendarSettings st = [setting] ->
    CalendarSettings.isAvailable setting = false ->
    CalendarSettings.date setting
    = JsDate.isoDay bookingDate * JsDate.msPerDay ->
    (postApiAppointments env body st
     = (st, Failure 400 (Literal "Date unavailable"))
     <-> 0 <= tz env < 86399000).
Proof.
  intros env body bookingDate setting st D S A M.
  rewrite postApiAppointments_eq, D, S. cbn [find].
  unfold settingOfDay at 1. rewrite M.
  unfold JsDate.localTimeOfDay, JsDate.msPerDay.
  set (day := JsDate.isoDay bookingDate).
  destruct ((day * 86400000 + ((0 * 60 + 0) * 60 + 0) * 1000 + 0 - tz env
             <=? day * 86400000)
            && (day * 86400000
                <? day * 86400000 + ((23 * 60 + 59) * 60 + 59) * 1000 + 0
                   - tz env)) eqn:W.
  - rewrite A. cbn [negb]. split; [intros _|reflexivity].
    apply andb_prop in W as [L U].
    apply Z.leb_le in L. apply Z.ltb_lt in U. lia.
  - split.
    + intros H. exfalso.
      destruct (find _ _); [discriminate|].
      destruct (Appointment.build _ _ _); discriminate.
    + intros R. exfalso. apply andb_false_iff in W as [L|U].
      * apply Z.leb_gt in L. lia.
      * apply Z.ltb_ge in U. lia.
Qed.

(** The same closed Monday, seen from Karachi and from New York. *)
Lemma override_found_east_of_utc_witness :
  postApiAppointments More.karachi (Sample.booking Sample.monday "10:00")
    More.closedMonday
  = (More.closedMonday, Failure 400 (Literal "Date unavailable"))
  /\ postApiAppointments More.newYork (Sample.booking Sample.monday "10:00")
       More.closedMonday
     <> (More.closedMonday, Failure 400 (Literal "Date unavailable")).
Proof.
  split.
  - apply (override_found_east_of_utc More.karachi
             (Sample.booking Sample.monday "10:00") Sample.monday
             (Sample.override Sample.monday false [] 8) More.closedMonday
             eq_refl eq_refl eq_refl).
    + vm_compute. reflexivity.
    + cbn [tz More.karachi]. lia.
  - intros H.
    apply (override_found_east_of_utc More.newYork
             (Sample.booking Sample.monday "10:00") Sample.monday
             (Sample.override Sample.monday false [] 8) More.closedMonday
             eq_refl eq_refl eq_refl) in H.
    + cbn [tz More.newYork] in H. lia.
    + vm_compute. reflexivity.
Defined.

(** ** Deleting and updating an appointment *)

Lemma find_filter_negb {A} (p : A -> bool) l :
  find p (filter (fun x => negb (p x)) l) = None.
Proof.
  induction l as [|x l IH]; cbn [filter find]; [reflexivity|].
  destruct (p x) eqn:P; cbn [negb find]; [exact IH|].
  rewrite P. exact IH.
Qed.

(** X7.  [deleteAppointment] answers 200 exactly when an appointment has
    the id.  Afterwards none has it, every other appointment is kept, the
    payments are as they were (a payment of the deleted appointment stays
    behind), and the same request again answers 404 and writes nothing. *)
Theorem deleteAppointment_removes :
  forall id st,
    let st' := fst (deleteAppointment (Some id) st) in
    (isSuccess (snd (deleteAppointment (Some id) st)) = true
     <-> exists a, In a (appointments st) /\ Appointment._id a = id)
    /\ find (AppointmentModel.hasId id) (appointments st') = None
    /\ (forall a, Appointment._id a <> id ->
                  (In a (appointments st') <-> In a (appointments st)))
    /\ payments st' = payments st
    /\ deleteAppointment (Some id) st'
       = (st', Failure 404 (Literal "Appointment not found")).
Proof.
  intros id st. cbv zeta. rewrite (deleteAppointment_eq (Some id) st).
  destruct (find (AppointmentModel.hasId id) (appointments st)) as [a|] eqn:F;
    cbn [fst snd isSuccess].
  - split.
    { split; [intros _|reflexivity]. exists a.
      apply find_some in F as [I H]. apply Nat.eqb_eq in H. auto. }
    cbn [appointments setAppointments payments].
    assert (N : find (AppointmentModel.hasId id)
                  (filter (fun x => negb (AppointmentModel.hasId id x))
                     (appointments st)) = None)
      by apply find_filter_negb.
    split; [exact N|]. split.
    { intros b Hb. rewrite filter_In. split; [tauto|]. intros I.
      split; [exact I|]. apply negb_true_iff. apply Nat.eqb_neq. exact Hb. }
    split; [reflexivity|].
    rewrite deleteAppointment_eq. cbn [appointments setAppointments].
    rewrite N. reflexivity.
  - split.
    { split; [discriminate|]. intros (a & I & H).
      pose proof (find_none _ _ F a I) as N.
      apply Nat.eqb_neq in N. contradiction. }
    split; [exact F|]. split; [tauto|]. split; [reflexivity|].
    rewrite deleteAppointment_eq, F. reflexivity.
Qed.




(** ** A refused request writes nothing *)

Lemma sameDatabase_refl st : sameDatabase st st.
Proof. unfold sameDatabase. auto. Qed.

Lemma cleanUp_sameDatabase req st : sameDatabase st (cleanUp req st).
Proof.
  unfold cleanUp. destruct (s_file req) as [file|];
    [|apply sameDatabase_refl].
  destruct (CloudinaryService.existsSync _ _);
    [|apply sameDatabase_refl].
  unfold sameDatabase. auto.
Qed.

Lemma unlinkSync_sameDatabase f st :
  sameDatabase st (CloudinaryService.unlinkSync f st).
Proof. unfold sameDatabase. auto. Qed.

Lemma sameDatabase_trans st1 st2 st3 :
  sameDatabase st1 st2 -> sameDatabase st2 st3 -> sameDatabase st1 st3.
Proof.
  unfold sameDatabase. intros (A & B & C) (A' & B' & C').
  rewrite A', B', C'. auto.
Qed.

(** X9.  A request the server answers with a failure has written nothing
    to the database: the appointments, the payments and the calendar
    settings are what they were, for each of the seven writing handlers
    (the only database errors being those of casting and validation). *)
Theorem refused_request_writes_nothing :
  forall op st, refused op st = true -> sameDatabase st (perform op st).
Proof.
  intros op st R. destruct op; cbn [refused perform] in *.
  - rewrite createAppointment_eq in *.
    destruct (Appointment.b_appointmentDate body);
      [|apply sameDatabase_refl].
    destruct (find _ _); [apply sameDatabase_refl|].
    destruct (Appointment.build _ _ _);
      [apply sameDatabase_refl | discriminate].
  - rewrite postApiAppointments_eq in *.
    destruct (Appointment.b_appointmentDate body);
      [|apply sameDatabase_refl].
    destruct (match find _ (calendarSettings st) with
              | Some c => negb (CalendarSettings.isAvailable c)
              | None => false
              end); [apply sameDatabase_refl|].
    destruct (find _ _); [apply sameDatabase_refl|].
    destruct (Appointment.build _ _ _);
      [apply sameDatabase_refl | discriminate].
  - rewrite updateAppointment_eq in *.
    destruct id; [|apply sameDatabase_refl].
    destruct (Appointment.failing _ _); [|apply sameDatabase_refl].
    destruct (find _ _); [discriminate | apply sameDatabase_refl].
  - rewrite deleteAppointment_eq in *.
    destruct id; [|apply sameDatabase_refl].
    destruct (find _ _); [discriminate | apply sameDatabase_refl].
  - rewrite submitPayment_eq in *.
    destruct (s_file req) as [file|]; [|apply sameDatabase_refl].
    destruct (s_appointmentId req); [|apply cleanUp_sameDatabase].
    destruct (find _ (appointments st)); [|apply sameDatabase_refl].
    destruct (find _ (payments st)); [apply sameDatabase_refl|].
    destruct (CloudinaryService.validateFile file);
      [apply sameDatabase_refl|].
    destruct (negb _); [apply sameDatabase_refl|].
    destruct cloud; [|apply sameDatabase_refl].
    cbv zeta in *.
    destruct (Payment.failing _); [discriminate|].
    cbn [fst].
    eapply sameDatabase_trans;
      [apply unlinkSync_sameDatabase | apply cleanUp_sameDatabase].
  - rewrite verifyPayment_eq in *.
    destruct (v_id req); [|apply sameDatabase_refl].
    destruct (find _ (payments st)); [|apply sameDatabase_refl].
    destruct (String.eqb _ _); [apply sameDatabase_refl|].
    cbv zeta in *.
    destruct (Payment.failingOf _);
      [discriminate | apply sameDatabase_refl].
  - rewrite rejectPayment_eq in *.
    destruct (reasonTooShort _); [apply sameDatabase_refl|].
    destruct (r_id req); [|apply sameDatabase_refl].
    destruct (find _ (payments st)); [|apply sameDatabase_refl].
    cbv zeta in *.
    destruct (Payment.failingOf _);
      [discriminate | apply sameDatabase_refl].
Qed.

(** A second booking of the Monday slot is refused and writes nothing. *)
Lemma refused_request_writes_nothing_witness :
  let op :=
    CreateAppointment Sample.env (Sample.otherBooking Sample.monday "10:00") in
  refused op Sample.booked = true
  /\ sameDatabase Sample.booked (perform op Sample.booked).
Proof.
  cbv zeta.
  assert (R : refused
                (CreateAppointment Sample.env
                   (Sample.otherBooking Sample.monday "10:00"))
                Sample.booked = true) by (vm_compute; reflexivity).
  split; [exact R|].
  exact (refused_request_writes_nothing _ _ R).
Defined.

(** ** A payment that was accepted *)

Lemma getPaymentById_eq id st :
  getPaymentById id st =
  match id with
  | None => (st, Failure 500 (Literal "Failed to fetch payment"))
  | Some id =>
      match find (PaymentModel.hasId id) (payments st) with
      | None => (st, Failure 404 (Literal "Payment not found"))
      | Some payment =>
          (st, Success 200
                 (payment,
                  find (AppointmentModel.hasId (Payment.appointmentId payment))
                    (appointments st)))
      end
  end.
Proof.
  unfold getPaymentById; unfold_monad.
  destruct id; cbv beta iota; [|reflexivity].
  destruct (find _ _); reflexivity.
Qed.

(** What the handler went through when it answers 201. *)
Lemma submitPayment_accepted env cloud req st st' code p :
  submitPayment env cloud req st = (st', PaymentOk code p) ->
  exists id a file url publicId,
    s_appointmentId req = Some id
    /\ s_file req = Some file
    /\ find (AppointmentModel.hasId id) (appointments st) = Some a
    /\ find (fun p => Nat.eqb (Payment.appointmentId p) id) (payments st)
       = None
    /\ CloudinaryService.validateFile file = None
    /\ CloudinaryService.existsSync (CloudinaryService.path file) st = true
    /\ cloud = CloudinaryService.Uploaded url publicId
    /\ p = newPayment req id a url publicId (nextId st) (now env)
    /\ Payment.failing p = []
    /\ code = 201
    /\ st' = writeAppointment id
               (fun x => Appointment.setPaymentId (Payment._id p)
                           (Appointment.setPaymentStatus "paid" x))
               (freshId
                  (setPayments
                     (CloudinaryService.unlinkSync
                        (CloudinaryService.path file) st)
                     (payments st ++ [p])%list)).
Proof.
  rewrite submitPayment_eq.
  destruct (s_file req) as [file|]; [|discriminate].
  destruct (s_appointmentId req) as [id|]; [|discriminate].
  destruct (find _ (appointments st)) as [a|] eqn:A; [|discriminate].
  destruct (find _ (payments st)) eqn:P; [discriminate|].
  destruct (CloudinaryService.validateFile file) eqn:V; [discriminate|].
  destruct (CloudinaryService.existsSync _ _) eqn:E;
    cbn [negb]; [|discriminate].
  destruct cloud as [url publicId|]; [|discriminate].
  cbv zeta. cbn [nextId CloudinaryService.unlinkSync setUploads payments].
  destruct (Payment.failing _) eqn:F; [|discriminate].
  intros H. apply pair_equal_spec in H as [H1 H2].
  injection H2 as <- <-.
  exists id, a, file, url, publicId.
  rewrite (find_appointment_id _ _ _ A) in H1.
  conjunctions; try reflexivity; try assumption.
  symmetry. exact H1.
Qed.

Lemma In_write_other id (f : Appointment.t -> Appointment.t) l b :
  (forall x, Appointment._id (f x) = Appointment._id x) ->
  Appointment._id b <> id ->
  In b (map (fun x => if Nat.eqb (Appointment._id x) id then f x else x) l)
  <-> In b l.
Proof.
  intros K N. rewrite in_map_iff. split.
  - intros (x & E & I). destruct (Nat.eqb (Appointment._id x) id) eqn:Q.
    + apply Nat.eqb_eq in Q. subst b. rewrite K in N. contradiction.
    + subst. exact I.
  - intros I. exists b. split; [|exact I].
    apply Nat.eqb_neq in N. rewrite N. reflexivity.
Qed.

(** X10.  When [submitPayment] answers with success, the code is 201 and
    the payment it returns is the one appended to the payments: pending,
    for the appointment of the request, with the client's name, e-mail and
    phone copied from that appointment and an amount of at least 1.  The
    receipt, of an allowed type and at most 10 MB, is gone from the upload
    directory.  The appointment is marked paid and points at the payment;
    its booking status, date and time are as before, and no other
    appointment is touched. *)
Theorem submitPayment_records :
  forall env cloud req st st' code p,
    submitPayment env cloud req st = (st', PaymentOk code p) ->
    code = 201
    /\ Payment.status p = "pending"
    /\ 1 <= Payment.amount p
    /\ payments st' = (payments st ++ [p])%list
    /\ (exists file,
          s_file req = Some file
          /\ In (CloudinaryService.mimetype file)
               CloudinaryService.allowedTypes
          /\ CloudinaryService.size file <= CloudinaryService.maxSize
          /\ In (CloudinaryService.path file) (uploads st)
          /\ ~ In (CloudinaryService.path file) (uploads st'))
    /\ (exists a a',
          s_appointmentId req = Some (Payment.appointmentId p)
          /\ find (AppointmentModel.hasId (Payment.appointmentId p))
               (appointments st) = Some a
          /\ find (AppointmentModel.hasId (Payment.appointmentId p))
               (appointments st') = Some a'
          /\ Payment.clientName p = Appointment.clientName a
          /\ Payment.clientEmail p = Appointment.email a
          /\ Payment.clientPhone p = Appointment.phone a
          /\ Appointment.paymentStatus a' = "paid"
          /\ Appointment.paymentId a' = Some (Payment._id p)
          /\ Appointment.status a' = Appointment.status a
          /\ Appointment.appointmentDate a' = Appointment.appointmentDate a
          /\ Appointment.appointmentTime a' = Appointment.appointmentTime a)
    /\ (forall b, Appointment._id b <> Payment.appointmentId p ->
                  (In b (appointments st') <-> In b (appointments st))).
Proof.
  intros env cloud req st st' code p H.
  destruct (submitPayment_accepted _ _ _ _ _ _ _ H)
    as (id & a & file & url & publicId
        & I & Fi & A & P & V & E & C & Np & F & Co & S).
  assert (Ip : Payment.appointmentId p = id) by (rewrite Np; reflexivity).
  rewrite Ip.
  split; [exact Co|]. split; [rewrite Np; reflexivity|].
  split.
  { pose proof (failing_nil (Payment.checks p) F
                  ("amount", 1 <=? Payment.amount p)) as K.
    apply Z.leb_le. apply K. do 3 right. left. reflexivity. }
  split; [rewrite S; reflexivity|].
  split.
  { exists file. split; [exact Fi|].
    unfold CloudinaryService.validateFile in V.
    destruct (Js.includes _ _) eqn:T; cbn [negb] in V; [|discriminate].
    destruct (CloudinaryService.maxSize <? _) eqn:Z; [discriminate|].
    split; [apply includes_In; exact T|].
    split; [apply Z.ltb_ge; exact Z|].
    split; [apply includes_In; exact E|].
    rewrite S. cbn. rewrite filter_In. intros [_ Q].
    rewrite String.eqb_refl in Q. discriminate. }
  split.
  { exists a.
    eexists. split; [exact I|]. split; [exact A|].
    split.
    { rewrite S. rewrite find_writeAppointment by reflexivity.
      cbn [appointments freshId setPayments CloudinaryService.unlinkSync
             setUploads].
      rewrite A. reflexivity. }
    rewrite Np. conjunctions; reflexivity. }
  intros b Nb. rewrite S. unfold writeAppointment.
  cbn [appointments freshId setPayments CloudinaryService.unlinkSync
         setUploads setAppointments].
  apply In_write_other; [reflexivity | exact Nb].
Qed.

(** The payment of the Monday booking. *)
Lemma submitPayment_records_witness :
  exists p,
    submitPayment Sample.env Sample.stored (Sample.payment 0%nat true)
      (Sample.withReceipt Sample.booked) = (Sample.paid, PaymentOk 201 p)
    /\ payments Sample.paid = [p]
    /\ Payment.status p = "pending".
Proof.
  assert (H : exists p,
             submitPayment Sample.env Sample.stored (Sample.payment 0%nat true)
               (Sample.withReceipt Sample.booked)
             = (Sample.paid, PaymentOk 201 p))
    by (eexists; vm_compute; reflexivity).
  destruct H as [p H]. exists p.
  destruct (submitPayment_records _ _ _ _ _ _ _ H) as (_ & S & _ & P & _).
  split; [exact H|]. split; [exact P | exact S].
Defined.

Lemma find_app_fresh {A} (p : A -> bool) l x :
  find p l = None -> p x = true -> find p (l ++ [x]) = Some x.
Proof.
  intros N T. induction l as [|y l IH]; cbn [app find].
  - rewrite T. reflexivity.
  - cbn [find] in N. destruct (p y); [discriminate | exact (IH N)].
Qed.

(** X11.  A payment that [submitPayment] accepted can be read back:
    [getPaymentById] with the id of the returned payment answers 200 with
    that very payment, its appointment populated as the one now marked
    paid and pointing back at the payment.  (The id given to the new
    payment is one no stored payment has.) *)
Theorem submitted_payment_is_fetched :
  forall env cloud req st st' code p,
    (forall q, In q (payments st) -> Payment._id q <> nextId st) ->
    submitPayment env cloud req st = (st', PaymentOk code p) ->
    exists a',
      getPaymentById (Some (Payment._id p)) st'
      = (st', Success 200 (p, Some a'))
      /\ Appointment._id a' = Payment.appointmentId p
      /\ Appointment.paymentStatus a' = "paid"
      /\ Appointment.paymentId a' = Some (Payment._id p).
Proof.
  intros env cloud req st st' code p Fresh H.
  destruct (submitPayment_accepted _ _ _ _ _ _ _ H)
    as (id & a & file & url & publicId
        & I & Fi & A & P & V & E & C & Np & F & Co & S).
  assert (Ip : Payment.appointmentId p = id) by (rewrite Np; reflexivity).
  assert (Idp : Payment._id p = nextId st) by (rewrite Np; reflexivity).
  assert (Fp : find (PaymentModel.hasId (Payment._id p)) (payments st') = Some p).
  { rewrite S. unfold writeAppointment.
    cbn [payments freshId setPayments setAppointments].
    apply find_app_fresh.
    - destruct (find (PaymentModel.hasId (Payment._id p)) (payments st))
        as [q|] eqn:Q; [|reflexivity].
      apply find_some in Q as [Iq Eq]. apply Nat.eqb_eq in Eq.
      rewrite Idp in Eq. elim (Fresh q Iq Eq).
    - apply Nat.eqb_refl. }
  exists (Appointment.setPaymentId (Payment._id p)
            (Appointment.setPaymentStatus "paid" a)).
  rewrite getPaymentById_eq, Fp, Ip.
  split.
  { f_equal. f_equal. f_equal.
    rewrite S. rewrite find_writeAppointment by reflexivity.
    cbn [appointments freshId setPayments CloudinaryService.unlinkSync
           setUploads].
    rewrite A. reflexivity. }
  split; [exact (find_appointment_id _ _ _ A)|].
  split; reflexivity.
Qed.

Lemma submitted_payment_is_fetched_witness :
  exists p a',
    getPaymentById (Some (Payment._id p)) Sample.paid
    = (Sample.paid, Success 200 (p, Some a'))
    /\ Appointment.paymentStatus a' = "paid".
Proof.
  assert (H : exists p,
             submitPayment Sample.env Sample.stored (Sample.payment 0%nat true)
               (Sample.withReceipt Sample.booked)
             = (Sample.paid, PaymentOk 201 p))
    by (eexists; vm_compute; reflexivity).
  destruct H as [p H].
  assert (Fresh : forall q,
             In q (payments (Sample.withReceipt Sample.booked)) ->
             Payment._id q <> nextId (Sample.withReceipt Sample.booked))
    by (intros q Iq; vm_compute in Iq; contradiction).
  destruct (submitted_payment_is_fetched _ _ _ _ _ _ _ Fresh H)
    as (a' & G & _ & Ps & _).
  exists p, a'. split; [exact G | exact Ps].
Defined.

(** ** Stored documents pass their schema *)

Lemma failing_forallb (checks : list (string * bool)) :
  map fst (filter (fun c => negb (snd c)) checks) = [] ->
  forallb snd checks = true.
Proof.
  induction checks as [|[n b] cs IH]; cbn [filter map forallb snd negb];
    [reflexivity|].
  destruct b; cbn [negb andb]; [exact IH | discriminate].
Qed.

Lemma In_write {A} (q : A -> bool) (f : A -> A) l b :
  In b (map (fun x => if q x then f x else x) l) ->
  In b l \/ exists x, In x l /\ b = f x.
Proof.
  rewrite in_map_iff. intros (x & E & I).
  destruct (q x); subst; eauto.
Qed.

Ltac andb_split :=
  repeat match goal with
         | H : _ && _ = true |- _ => apply andb_true_iff in H as [? H]
         end.

Ltac field v :=
  destruct v;
  cbn [Appointment.required Appointment.maxlength Appointment.enum
         Appointment.matches Appointment.orElse andb orb negb] in *;
  try discriminate.

Lemma build_conforms id now body a :
  Appointment.build id now body = inr a -> conforms a = true.
Proof.
  unfold Appointment.build. cbv zeta.
  generalize (Appointment.cast body). intros b.
  destruct (Appointment.failing true b) eqn:F; [|discriminate].
  destruct (Appointment.b_appointmentDate b); [|discriminate].
  intros H. injection H as <-.
  apply failing_forallb in F. unfold Appointment.checks in F.
  cbn [forallb snd orb negb] in F. andb_split.
  unfold conforms.
  cbn [Appointment.clientName Appointment.email Appointment.phone
         Appointment.appointmentTime Appointment.serviceType
         Appointment.message Appointment.status Appointment.paymentStatus
         Appointment.adminNotes].
  field (Appointment.b_clientName b). field (Appointment.b_email b).
  field (Appointment.b_phone b). field (Appointment.b_appointmentTime b).
  field (Appointment.b_serviceType b). field (Appointment.b_message b).
  all: field (Appointment.b_status b).
  all: field (Appointment.b_paymentStatus b).
  all: field (Appointment.b_adminNotes b).
  all: repeat (apply andb_true_iff; split); try assumption; reflexivity.
Qed.

Lemma assign_conforms body a :
  Appointment.failing false (Appointment.cast body) = [] ->
  conforms a = true -> conforms (Appointment.assign a body) = true.
Proof.
  unfold Appointment.assign. cbv zeta.
  generalize (Appointment.cast body). intros b F C.
  apply failing_forallb in F. unfold Appointment.checks in F.
  cbn [forallb snd orb negb] in F. andb_split.
  unfold conforms in *.
  cbn [Appointment.clientName Appointment.email Appointment.phone
         Appointment.appointmentTime Appointment.serviceType
         Appointment.message Appointment.status Appointment.paymentStatus
         Appointment.adminNotes].
  andb_split.
  field (Appointment.b_clientName b); andb_split.
  all: field (Appointment.b_email b); andb_split.
  all: field (Appointment.b_phone b); andb_split.
  all: field (Appointment.b_appointmentTime b); andb_split.
  all: field (Appointment.b_serviceType b); andb_split.
  all: repeat (apply andb_true_iff; split); try assumption.
  all: field (Appointment.b_message b); try assumption.
  all: field (Appointment.b_status b); try assumption.
  all: field (Appointment.b_paymentStatus b); try assumption.
  all: field (Appointment.b_adminNotes b); assumption.
Qed.

Lemma setPayment_conforms ps pid a :
  Js.includes Appointment.paymentStatusEnum ps = true ->
  conforms a = true ->
  conforms (Appointment.setPaymentId pid (Appointment.setPaymentStatus ps a))
  = true.
Proof.
  unfold conforms. cbn. intros P C. andb_split.
  repeat (apply andb_true_iff; split); assumption.
Qed.

Lemma setStatus_conforms s ps a :
  Js.includes Appointment.statusEnum s = true ->
  Js.includes Appointment.paymentStatusEnum ps = true ->
  conforms a = true ->
  conforms (Appointment.setStatus s (Appointment.setPaymentStatus ps a))
  = true.
Proof.
  unfold conforms. cbn. intros S P C. andb_split.
  repeat (apply andb_true_iff; split); assumption.
Qed.

Lemma created_paymentConforms p :
  Payment.failing p = [] ->
  Payment.verificationNotes p = None -> Payment.rejectedReason p = None ->
  paymentConforms p = true.
Proof.
  intros F V R. unfold paymentConforms. rewrite V, R.
  rewrite (failing_forallb _ F). reflexivity.
Qed.

Lemma verified_paymentConforms by_ at_ notes now x :
  Appointment.maxlength 500 notes = true ->
  paymentConforms x = true ->
  paymentConforms (Payment.touch now (Payment.setVerified by_ at_ notes x))
  = true.
Proof.
  unfold paymentConforms, Payment.checks. intros N C.
  cbn [forallb snd Payment.touch Payment.setVerified Payment.clientName
         Payment.clientEmail Payment.clientPhone Payment.amount
         Payment.paymentMethod Payment.transactionId Payment.receiptImage
         Payment.status Payment.verificationNotes Payment.rejectedReason]
    in *.
  andb_split. rewrite N.
  repeat (apply andb_true_iff; split); try assumption; reflexivity.
Qed.

Lemma rejected_paymentConforms reason now x :
  Appointment.maxlength 500 (Some reason) = true ->
  paymentConforms x = true ->
  paymentConforms (Payment.touch now (Payment.setRejected reason x)) = true.
Proof.
  unfold paymentConforms, Payment.checks. intros N C.
  cbn [forallb snd Payment.touch Payment.setRejected Payment.clientName
         Payment.clientEmail Payment.clientPhone Payment.amount
         Payment.paymentMethod Payment.transactionId Payment.receiptImage
         Payment.status Payment.verificationNotes Payment.rejectedReason]
    in *.
  andb_split. rewrite N.
  repeat (apply andb_true_iff; split); try assumption; reflexivity.
Qed.

Lemma schemaHolds_inserted st a :
  schemaHolds st -> conforms a = true ->
  schemaHolds (freshId (setAppointments st (appointments st ++ [a])%list)).
Proof.
  intros [A P] C. split; [|exact P].
  cbn. intros b I. apply in_app_or in I as [I|[<-|[]]]; auto.
Qed.

Lemma schemaHolds_written id f st :
  (forall x, conforms x = true -> conforms (f x) = true) ->
  schemaHolds st -> schemaHolds (writeAppointment id f st).
Proof.
  intros K [A P]. split; [|exact P].
  unfold writeAppointment. cbn [appointments setAppointments].
  intros b I. apply In_write in I as [I|(x & I & ->)]; auto.
Qed.

Lemma schemaHolds_paid id f st :
  (forall x, paymentConforms x = true -> paymentConforms (f x) = true) ->
  schemaHolds st -> schemaHolds (writePayment id f st).
Proof.
  intros K [A P]. split; [exact A|].
  unfold writePayment. cbn [payments setPayments].
  intros b I. apply In_write in I as [I|(x & I & ->)]; auto.
Qed.

Lemma schemaHolds_sameDatabase st st' :
  sameDatabase st st' -> schemaHolds st -> schemaHolds st'.
Proof.
  intros (A & P & _) [Ha Hp]. split; [rewrite A | rewrite P]; assumption.
Qed.

Lemma perform_schemaHolds op st :
  schemaHolds st -> schemaHolds (perform op st).
Proof.
  intros H. destruct op; cbn [perform].
  - rewrite createAppointment_eq.
    destruct (Appointment.b_appointmentDate body); [|exact H].
    destruct (find _ _); [exact H|].
    destruct (Appointment.build _ _ _) eqn:B; [exact H|].
    apply schemaHolds_inserted; [exact H | exact (build_conforms _ _ _ _ B)].
  - rewrite postApiAppointments_eq.
    destruct (Appointment.b_appointmentDate body); [|exact H].
    destruct (match find _ (calendarSettings st) with
              | Some c => negb (CalendarSettings.isAvailable c)
              | None => false
              end); [exact H|].
    destruct (find _ _); [exact H|].
    destruct (Appointment.build _ _ _) eqn:B; [exact H|].
    apply schemaHolds_inserted; [exact H | exact (build_conforms _ _ _ _ B)].
  - rewrite updateAppointment_eq.
    destruct id; [|exact H].
    destruct (Appointment.failing _ _) eqn:F; [|exact H].
    destruct (find _ _); [|exact H].
    apply schemaHolds_written; [|exact H].
    intros x. apply assign_conforms. exact F.
  - rewrite deleteAppointment_eq.
    destruct id; [|exact H].
    destruct (find _ _); [|exact H].
    destruct H as [A P]. split; [|exact P].
    cbn. intros b I. apply filter_In in I as [I _]. auto.
  - rewrite submitPayment_eq.
    destruct (s_file req) as [file|]; [|exact H].
    destruct (s_appointmentId req);
      [|exact (schemaHolds_sameDatabase _ _ (cleanUp_sameDatabase _ _) H)].
    destruct (find _ (appointments st)); [|exact H].
    destruct (find _ (payments st)); [exact H|].
    destruct (CloudinaryService.validateFile file); [exact H|].
    destruct (negb _); [exact H|].
    destruct cloud; [|exact H].
    cbv zeta.
    pose proof (schemaHolds_sameDatabase _ _
                  (unlinkSync_sameDatabase (CloudinaryService.path file) st)
                  H) as H1.
    destruct (Payment.failing _) eqn:F; cbn [fst].
    + apply schemaHolds_written.
      { intros x. apply setPayment_conforms. reflexivity. }
      destruct H1 as [A P]. split; [exact A|].
      cbn [payments freshId setPayments]. intros b I.
      apply in_app_or in I as [I|[<-|[]]]; [auto|].
      apply created_paymentConforms; [exact F | reflexivity | reflexivity].
    + exact (schemaHolds_sameDatabase _ _ (cleanUp_sameDatabase _ _) H1).
  - rewrite verifyPayment_eq.
    destruct (v_id req); [|exact H].
    destruct (find _ (payments st)) as [payment|]; [|exact H].
    destruct (String.eqb _ _); [exact H|].
    cbv zeta.
    destruct (Payment.failingOf _) eqn:F; [|exact H].
    cbn [fst].
    assert (H1 : schemaHolds
                   (writePayment (Payment._id payment)
                      (fun x => Payment.touch (now env)
                                  (Payment.setVerified (adminUser req)
                                     (now env) (v_notes req) x)) st)).
    { apply schemaHolds_paid; [|exact H].
      intros x. apply verified_paymentConforms.
      apply failing_forallb in F. cbn in F. andb_split. assumption. }
    destruct (find _ _); [|exact H1].
    apply schemaHolds_written; [|exact H1].
    intros x. apply setStatus_conforms; reflexivity.
  - rewrite rejectPayment_eq.
    destruct (reasonTooShort _); [exact H|].
    destruct (r_id req); [|exact H].
    destruct (find _ (payments st)) as [payment|]; [|exact H].
    cbv zeta.
    destruct (Payment.failingOf _) eqn:F; [|exact H].
    cbn [fst].
    assert (H1 : schemaHolds
                   (writePayment (Payment._id payment)
                      (fun x => Payment.touch (now env)
                                  (Payment.setRejected
                                     (Appointment.orElse (r_reason req) "") x))
                      st)).
    { apply schemaHolds_paid; [|exact H].
      intros x. apply rejected_paymentConforms.
      apply failing_forallb in F. cbn in F. andb_split. assumption. }
    destruct (find _ _); [|exact H1].
    apply schemaHolds_written; [|exact H1].
    intros x. apply setStatus_conforms; reflexivity.
Qed.

(** X12.  Whatever requests are served, one after the other, every stored
    appointment and payment keeps passing the validators of its schema
    (required members, lengths, the e-mail pattern, the enumerations, the
    minimum amount), provided those stored at the start do. *)
Theorem stored_documents_stay_valid :
  forall ops st, schemaHolds st -> schemaHolds (performAll ops st).
Proof.
  intros ops. unfold performAll.
  induction ops as [|op ops IH]; intros st H; cbn [fold_left];
    [exact H|].
  apply IH. apply perform_schemaHolds. exact H.
Qed.

(** From the empty database: a booking, its payment, a rejection and an
    admin update. *)
Lemma stored_documents_stay_valid_witness :
  schemaHolds (Sample.withReceipt Sample.empty)
  /\ schemaHolds
       (performAll
          [ CreateAppointment Sample.env
              (Sample.booking Sample.monday "10:00");
            SubmitPayment Sample.env Sample.stored
              (Sample.payment 0%nat true);
            RejectPayment Sample.env (Sample.reject 1%nat "No such transfer");
            UpdateAppointment (Some 0%nat) (Sample.statusUpdate "completed") ]
          (Sample.withReceipt Sample.empty)).
Proof.
  assert (E : schemaHolds (Sample.withReceipt Sample.empty))
    by (split; intros x []).
  split; [exact E|].
  exact (stored_documents_stay_valid _ _ E).
Defined.

(** ** The two booking routes and a slot that was given up *)

(** X13.  A slot whose only appointments are cancelled or completed is
    open on one booking route and closed on the other: for a valid body,
    [createAppointment] books it again (201), while the handler of the
    entry point refuses it, with 'Slot booked' or, the date being closed,
    'Date unavailable', and writes nothing. *)
Theorem released_slot_open_on_one_route :
  forall env body date time st a,
    Appointment.b_appointmentDate body = Some date ->
    Appointment.b_appointmentTime body = Some time ->
    Appointment.failing true (Appointment.cast body) = [] ->
    In a (appointments st) ->
    occupies date time a = true ->
    holders statusInPendingConfirmed date time st = [] ->
    (exists b, snd (createAppointment env body st) = Success 201 b
               /\ occupies date time b = true
               /\ In b (appointments (fst (createAppointment env body st))))
    /\ (postApiAppointments env body st
        = (st, Failure 400 (Literal "Slot booked"))
        \/ postApiAppointments env body st
           = (st, Failure 400 (Literal "Date unavailable"))).
Proof.
  intros env body date time st a D T F I O H. split.
  - destruct (createAppointment_free env body date time st D T H F)
      as (b & E & Ob).
    exists b. rewrite E. cbn [fst snd appointments freshId setAppointments].
    split; [reflexivity|]. split; [exact Ob|].
    apply in_or_app. right. left. reflexivity.
  - rewrite postApiAppointments_eq, D, T.
    match goal with |- context [if ?c then _ else _] => destruct c end;
      [right; reflexivity | left].
    destruct (find _ (appointments st)) eqn:E; [reflexivity|].
    exfalso. pose proof (find_none _ _ E a I) as N.
    cbn [timeIs] in N. unfold occupies in O. rewrite O in N. discriminate.
Qed.

(** The Monday booking was rejected with its payment, which cancelled
    it. *)
Lemma released_slot_open_on_one_route_witness :
  let st := perform (RejectPayment Sample.env
                       (Sample.reject 1%nat "No such transfer")) Sample.paid in
  isSuccess
    (snd (createAppointment Sample.env
            (Sample.otherBooking Sample.monday "10:00") st)) = true
  /\ isSuccess
       (snd (postApiAppointments Sample.env
               (Sample.otherBooking Sample.monday "10:00") st)) = false.
Proof.
  cbv zeta.
  set (st := perform (RejectPayment Sample.env
                        (Sample.reject 1%nat "No such transfer")) Sample.paid).
  assert (A : exists a, In a (appointments st)
                        /\ occupies Sample.monday "10:00" a = true).
  { eexists. split; [vm_compute; left; reflexivity|].
    vm_compute. reflexivity. }
  destruct A as (a & I & O).
  destruct (released_slot_open_on_one_route Sample.env
              (Sample.otherBooking Sample.monday "10:00")
              Sample.monday "10:00" st a eq_refl eq_refl
              ltac:(vm_compute; reflexivity) I O
              ltac:(vm_compute; reflexivity))
    as [(b & C & _) P].
  split; [rewrite C; reflexivity|].
  destruct P as [-> | ->]; reflexivity.
Defined.

(** ** One appointment on a pair, under the handler of the entry point *)









(** ** The calendar of a range of dates *)

Lemma getCalendarSettings_eq env start end_ st :
  getCalendarSettings env (Valid start) (Valid end_) st =
  let settings :=
    sortByDate
      (filter (fun c => (start <=? CalendarSettings.date c)
                        && (CalendarSettings.date c <=? end_))
         (calendarSettings st)) in
  (st, Success 200
         {| cal_data :=
              calendarLoop (calendarTurns start end_) (tz env) settings start
                end_;
            cal_defaultHours := allSlots |}).
Proof. reflexivity. Qed.









(** X16.  The weekend of the calendar is that of the server's zone, while
    an entry is named by its UTC day: for a date given as a plain day
    (midnight UTC) with no setting of its own, a server west of UTC
    reports the day as a weekend when the day before is a Saturday or a
    Sunday, so that a Saturday is shown as an available weekday and a
    Monday as a weekend; a server at or east of UTC goes by the day
    itself. *)
Theorem calendar_weekend_of_the_server :
  forall env n st,
    - JsDate.msPerDay <= tz env < JsDate.msPerDay ->
    (forall c, In c (calendarSettings st) ->
               CalendarSettings.date c <> n * JsDate.msPerDay) ->
    exists d,
      getCalendarSettings env (Valid (n * JsDate.msPerDay))
        (Valid (n * JsDate.msPerDay)) st
      = (st, Success 200 {| cal_data := [d]; cal_defaultHours := allSlots |})
      /\ cd_date d = n
      /\ cd_hasCustomSettings d = false
      /\ let weekday := ((if tz env <? 0 then n - 1 else n) + 4) mod 7 in
         cd_isAvailable d = negb ((weekday =? 0) || (weekday =? 6)).
Proof.
  intros env n st Tz No. rewrite getCalendarSettings_eq. cbv zeta.
  assert (F : filter
                (fun c => (n * JsDate.msPerDay <=? CalendarSettings.date c)
                          && (CalendarSettings.date c <=? n * JsDate.msPerDay))
                (calendarSettings st) = []).
  { destruct (filter _ _) as [|c l] eqn:E; [reflexivity|].
    assert (I : In c (c :: l)) by (left; reflexivity).
    rewrite <- E in I. apply filter_In in I as [I R].
    apply andb_true_iff in R. rewrite !Z.leb_le in R.
    elim (No c I). lia. }
  rewrite F.
  assert (T : calendarTurns (n * JsDate.msPerDay) (n * JsDate.msPerDay)
              = 1%nat)
    by (unfold calendarTurns; rewrite Z.sub_diag; reflexivity).
  rewrite T. cbn [calendarLoop sortByDate fold_right].
  rewrite Z.leb_refl. eexists. split; [reflexivity|].
  unfold calendarDay. cbn [settingsMap rev find cd_date cd_hasCustomSettings
                             cd_isAvailable].
  unfold settingsMap. cbn [rev find cd_date cd_hasCustomSettings
                             cd_isAvailable].
  split.
  { unfold JsDate.isoDay. apply Z.div_mul. discriminate. }
  split; [reflexivity|].
  assert (G : JsDate.getDay (tz env) (n * JsDate.msPerDay)
              = ((if tz env <? 0 then n - 1 else n) + 4) mod 7).
  { unfold JsDate.getDay. f_equal. f_equal.
    unfold JsDate.msPerDay in *.
    destruct (tz env <? 0) eqn:Neg;
      [apply Z.ltb_lt in Neg | apply Z.ltb_ge in Neg];
      Z.div_mod_to_equations; lia. }
  rewrite G. reflexivity.
Qed.

(** In New York the calendar shows Saturday 2024-06-15 as available. *)
Lemma calendar_weekend_of_the_server_witness :
  exists d,
    getCalendarSettings More.newYork (Valid Sample.saturday)
      (Valid Sample.saturday) Sample.empty
    = (Sample.empty,
       Success 200 {| cal_data := [d]; cal_defaultHours := allSlots |})
    /\ cd_isAvailable d = true.
Proof.
  replace Sample.saturday with (19889 * JsDate.msPerDay)
    by (vm_compute; reflexivity).
  assert (Tz : - JsDate.msPerDay <= tz More.newYork < JsDate.msPerDay)
    by (vm_compute; split; [discriminate | reflexivity]).
  assert (No : forall c, In c (calendarSettings Sample.empty) ->
                         CalendarSettings.date c <> 19889 * JsDate.msPerDay)
    by (intros c []).
  destruct (calendar_weekend_of_the_server More.newYork 19889 Sample.empty
              Tz No) as (d & G & _ & _ & A).
  exists d. split; [exact G | exact A].
Defined.

(** ** The slug of a blog title *)

Ltac each_char c :=
  destruct c as [[] [] [] [] [] [] [] []].

Lemma lowered_slugChar c :
  slugChar (if Blog.alphanumeric (Blog.lower c) then Blog.lower c
            else Blog.dash) = true.
Proof. each_char c; vm_compute; reflexivity. Qed.


Lemma slugChar_lower c : slugChar c = true -> Blog.lower c = c.
Proof. each_char c; vm_compute; intros H; try discriminate; reflexivity. Qed.

Lemma slugChar_kept c :
  slugChar c = true ->
  (if Blog.alphanumeric c then c else Blog.dash) = c.
Proof. each_char c; vm_compute; intros H; try discriminate; reflexivity. Qed.



Lemma isDash_dash c : Blog.isDash c = true -> c = Blog.dash.
Proof. apply Ascii.eqb_eq. Qed.

(** After [toLowerCase()] and the first [replace]. *)
Lemma dashOthers_allChars t :
  allChars slugChar (Blog.dashOthers (Blog.toLowerCase t)) = true.
Proof.
  induction t as [|c r IH]; cbn [Blog.toLowerCase Blog.dashOthers allChars];
    [reflexivity|].
  rewrite lowered_slugChar, IH. reflexivity.
Qed.


(** The second [replace]. *)
Lemma squeeze_allChars s :
  allChars slugChar s = true -> allChars slugChar (Blog.squeeze s) = true.
Proof.
  induction s as [|c r IH]; [reflexivity|].
  cbn [allChars]. intros H. apply andb_true_iff in H as [Hc Hr].
  specialize (IH Hr). cbn [Blog.squeeze].
  destruct (Blog.isDash c).
  - destruct r as [|c' r']; [reflexivity|].
    destruct (Blog.isDash c'); [exact IH|].
    cbn [allChars]. rewrite IH. reflexivity.
  - cbn [allChars]. rewrite Hc, IH. reflexivity.
Qed.

Lemma squeeze_start s :
  startsWithDash (Blog.squeeze s) = startsWithDash s.
Proof.
  induction s as [|c r IH]; [reflexivity|].
  cbn [Blog.squeeze startsWithDash].
  destruct (Blog.isDash c) eqn:D; [|exact D].
  destruct r as [|c' r']; [reflexivity|].
  destruct (Blog.isDash c') eqn:D'; [|reflexivity].
  rewrite IH. exact D'.
Qed.

Lemma noDashRun_cons c s :
  noDashRun (String c s)
  = negb (Blog.isDash c && startsWithDash s) && noDashRun s.
Proof.
  destruct s as [|c' r]; cbn [noDashRun startsWithDash];
    [rewrite andb_false_r|]; reflexivity.
Qed.

Lemma squeeze_noDashRun s : noDashRun (Blog.squeeze s) = true.
Proof.
  induction s as [|c r IH]; [reflexivity|].
  cbn [Blog.squeeze].
  destruct (Blog.isDash c) eqn:D.
  - destruct r as [|c' r']; [reflexivity|].
    destruct (Blog.isDash c') eqn:D'; [exact IH|].
    rewrite noDashRun_cons, squeeze_start, IH.
    cbn [startsWithDash]. rewrite D', andb_false_r. reflexivity.
  - rewrite noDashRun_cons, D, IH. reflexivity.
Qed.


Lemma squeeze_fixed s : noDashRun s = true -> Blog.squeeze s = s.
Proof.
  induction s as [|c r IH]; [reflexivity|].
  rewrite noDashRun_cons. intros H. apply andb_true_iff in H as [H Hr].
  specialize (IH Hr). cbn [Blog.squeeze].
  destruct (Blog.isDash c) eqn:D.
  - rewrite (isDash_dash c D) in *.
    destruct r as [|c' r']; [reflexivity|].
    cbn [startsWithDash andb negb] in H.
    destruct (Blog.isDash c'); [discriminate|].
    rewrite IH. reflexivity.
  - rewrite IH. reflexivity.
Qed.

(** The third [replace]. *)
Lemma dropLastDash_allChars p s :
  allChars p s = true -> allChars p (Blog.dropLastDash s) = true.
Proof.
  induction s as [|c r IH]; [reflexivity|].
  cbn [allChars]. intros H. apply andb_true_iff in H as [Hc Hr].
  specialize (IH Hr). cbn [Blog.dropLastDash].
  destruct r as [|c' r'].
  - destruct (Blog.isDash c); [reflexivity|].
    cbn [allChars]. rewrite Hc. reflexivity.
  - cbn [allChars] in *. rewrite Hc. exact IH.
Qed.

Lemma dropLastDash_start s :
  startsWithDash s = false -> startsWithDash (Blog.dropLastDash s) = false.
Proof.
  destruct s as [|c r]; [reflexivity|].
  cbn [startsWithDash Blog.dropLastDash]. intros D.
  destruct r; [rewrite D|]; exact D.
Qed.

Lemma dropLastDash_noDashRun s :
  noDashRun s = true -> noDashRun (Blog.dropLastDash s) = true.
Proof.
  induction s as [|c r IH]; [reflexivity|].
  rewrite noDashRun_cons. intros H. apply andb_true_iff in H as [H Hr].
  specialize (IH Hr).
  destruct r as [|c' r'].
  - cbn [Blog.dropLastDash]. destruct (Blog.isDash c); reflexivity.
  - change (Blog.dropLastDash (String c (String c' r')))
      with (String c (Blog.dropLastDash (String c' r'))).
    rewrite noDashRun_cons, IH, andb_true_r.
    destruct (Blog.isDash c); [|reflexivity].
    cbn [andb] in *. apply negb_true_iff in H.
    rewrite (dropLastDash_start _ H). reflexivity.
Qed.

Lemma dropLastDash_end s :
  noDashRun s = true -> endsWithDash (Blog.dropLastDash s) = false.
Proof.
  induction s as [|c r IH]; [reflexivity|].
  rewrite noDashRun_cons. intros H. apply andb_true_iff in H as [H Hr].
  specialize (IH Hr).
  destruct r as [|c' r'].
  - cbn [Blog.dropLastDash]. destruct (Blog.isDash c) eqn:D;
      [reflexivity | exact D].
  - change (Blog.dropLastDash (String c (String c' r')))
      with (String c (Blog.dropLastDash (String c' r'))).
    destruct (Blog.dropLastDash (String c' r')) as [|d q] eqn:E;
      [|exact IH].
    (* the rest was one dash: [c] is none *)
    cbn [endsWithDash].
    destruct r' as [|c'' r'']; [|discriminate].
    cbn [Blog.dropLastDash] in E.
    destruct (Blog.isDash c') eqn:D'; [|discriminate].
    cbn [startsWithDash] in H. rewrite D', andb_true_r in H.
    apply negb_true_iff in H. exact H.
Qed.


Lemma dropLastDash_fixed s :
  endsWithDash s = false -> Blog.dropLastDash s = s.
Proof.
  induction s as [|c r IH]; [reflexivity|].
  destruct r as [|c' r'].
  - cbn [endsWithDash Blog.dropLastDash]. intros ->. reflexivity.
  - change (endsWithDash (String c (String c' r')))
      with (endsWithDash (String c' r')).
    change (Blog.dropLastDash (String c (String c' r')))
      with (String c (Blog.dropLastDash (String c' r'))).
    intros H. rewrite (IH H). reflexivity.
Qed.

Lemma trimDashes_wellShaped s :
  allChars slugChar s = true -> noDashRun s = true ->
  wellShaped (Blog.trimDashes s) = true.
Proof.
  intros A N. unfold wellShaped.
  destruct s as [|c r]; [reflexivity|].
  cbn [Blog.trimDashes].
  destruct (Blog.isDash c) eqn:D.
  - cbn [allChars] in A. apply andb_true_iff in A as [_ A].
    rewrite noDashRun_cons, D in N. cbn [andb] in N.
    apply andb_true_iff in N as [S N]. apply negb_true_iff in S.
    rewrite (dropLastDash_allChars _ _ A), (dropLastDash_noDashRun _ N),
      (dropLastDash_start _ S), (dropLastDash_end _ N).
    reflexivity.
  - assert (S : startsWithDash (String c r) = false) by exact D.
    rewrite (dropLastDash_allChars _ _ A), (dropLastDash_noDashRun _ N),
      (dropLastDash_start _ S), (dropLastDash_end _ N).
    reflexivity.
Qed.


Lemma slug_is_wellShaped title : wellShaped (Blog.slug title) = true.
Proof.
  unfold Blog.slug. apply trimDashes_wellShaped.
  - apply squeeze_allChars, dashOthers_allChars.
  - apply squeeze_noDashRun.
Qed.


Lemma toLowerCase_fixed s :
  allChars slugChar s = true -> Blog.toLowerCase s = s.
Proof.
  induction s as [|c r IH]; [reflexivity|].
  cbn [allChars Blog.toLowerCase]. intros H.
  apply andb_true_iff in H as [Hc Hr].
  rewrite (slugChar_lower c Hc), (IH Hr). reflexivity.
Qed.

Lemma dashOthers_fixed s :
  allChars slugChar s = true -> Blog.dashOthers s = s.
Proof.
  induction s as [|c r IH]; [reflexivity|].
  cbn [allChars Blog.dashOthers]. intros H.
  apply andb_true_iff in H as [Hc Hr].
  rewrite (slugChar_kept c Hc), (IH Hr). reflexivity.
Qed.

Lemma wellShaped_fixed s : wellShaped s = true -> Blog.slug s = s.
Proof.
  unfold wellShaped. intros H.
  apply andb_true_iff in H as [H E]. apply andb_true_iff in H as [H S].
  apply andb_true_iff in H as [A N].
  apply negb_true_iff in E. apply negb_true_iff in S.
  unfold Blog.slug.
  rewrite (toLowerCase_fixed _ A), (dashOthers_fixed _ A),
    (squeeze_fixed _ N).
  destruct s as [|c r]; [reflexivity|].
  cbn [Blog.trimDashes]. cbn [startsWithDash] in S. rewrite S.
  apply dropLastDash_fixed. exact E.
Qed.

(** X17.  Whatever the title, its slug is made of lowercase letters a to
    z, digits and dashes only, has no two dashes in a row and neither
    starts nor ends with a dash. *)
Theorem slug_shape :
  forall title,
    allChars slugChar (Blog.slug title) = true
    /\ noDashRun (Blog.slug title) = true
    /\ startsWithDash (Blog.slug title) = false
    /\ endsWithDash (Blog.slug title) = false.
Proof.
  intros title. pose proof (slug_is_wellShaped title) as H.
  unfold wellShaped in H.
  apply andb_true_iff in H as [H E]. apply andb_true_iff in H as [H S].
  apply andb_true_iff in H as [A N].
  apply negb_true_iff in E. apply negb_true_iff in S. auto.
Qed.

(** X18.  The strings that are their own slug are exactly those of that
    shape; so the slug of a slug is the slug itself. *)
Theorem slug_of_a_slug :
  (forall s, Blog.slug s = s <-> wellShaped s = true)
  /\ (forall title, Blog.slug (Blog.slug title) = Blog.slug title).
Proof.
  split.
  - intros s. split; [|apply wellShaped_fixed].
    intros E. rewrite <- E. apply slug_is_wellShaped.
  - intros title. apply wellShaped_fixed, slug_is_wellShaped.
Qed.


(** ** Two submissions in flight *)

(** A submission that runs alone, turn after turn, is [submitPayment]. *)
Lemma submitPayment_resumeSubmit env cloud req st :
  let '(st1, p1) := resumeSubmit env cloud (AtAppointment req) st in
  let '(st2, p2) := resumeSubmit env cloud p1 st1 in
  let '(st3, p3) := resumeSubmit env cloud p2 st2 in
  let '(st4, p4) := resumeSubmit env cloud p3 st3 in
  resumeSubmit env cloud p4 st4
  = (fst (submitPayment env cloud req st),
     Answered (snd (submitPayment env cloud req st))).
Proof.
  rewrite submitPayment_eq. unfold resumeSubmit at 1. unfold_monad.
  destruct (s_file req) as [file|]; [|reflexivity].
  destruct (s_appointmentId req); cbv beta iota; [|reflexivity].
  destruct (find _ (appointments st)); cbv beta iota; [|reflexivity].
  unfold resumeSubmit at 1. unfold_monad.
  destruct (find _ (payments st)); cbv beta iota; [reflexivity|].
  destruct (CloudinaryService.validateFile file); cbv beta iota;
    [reflexivity|].
  unfold resumeSubmit at 1. unfold_monad.
  destruct (negb _); cbv beta iota; [reflexivity|].
  destruct cloud; cbv beta iota; [|reflexivity].
  unfold resumeSubmit at 1. unfold_monad.
  destruct (Payment.failing _); cbv beta iota; reflexivity.
Qed.

Lemma resumeSubmit_AtAppointment env cloud req file id a st :
  s_file req = Some file ->
  s_appointmentId req = Some id ->
  find (AppointmentModel.hasId id) (appointments st) = Some a ->
  resumeSubmit env cloud (AtAppointment req) st
  = (st, AtExisting req file id a).
Proof.
  intros F I A. unfold resumeSubmit. unfold_monad.
  rewrite F, I. cbv beta iota. rewrite A. reflexivity.
Qed.

Lemma resumeSubmit_AtExisting env cloud req file id a st :
  find (fun p => Nat.eqb (Payment.appointmentId p) id) (payments st) = None ->
  CloudinaryService.validateFile file = None ->
  resumeSubmit env cloud (AtExisting req file id a) st
  = (st, AtUpload req file id a).
Proof.
  intros P V. unfold resumeSubmit. unfold_monad. rewrite P, V. reflexivity.
Qed.

Lemma resumeSubmit_AtUpload env url publicId req file id a st :
  CloudinaryService.existsSync (CloudinaryService.path file) st = true ->
  resumeSubmit env (CloudinaryService.Uploaded url publicId)
    (AtUpload req file id a) st
  = (CloudinaryService.unlinkSync (CloudinaryService.path file) st,
     AtPayment req id a url publicId).
Proof.
  intros E. unfold resumeSubmit. unfold_monad. rewrite E. reflexivity.
Qed.

Lemma resumeSubmit_AtPayment env cloud req id a url publicId st :
  Payment.failing (newPayment req id a url publicId (nextId st) (now env))
  = [] ->
  resumeSubmit env cloud (AtPayment req id a url publicId) st
  = (freshId
       (setPayments st
          (payments st
           ++ [newPayment req id a url publicId (nextId st) (now env)])%list),
     AtAppointmentSave req a
       (newPayment req id a url publicId (nextId st) (now env))).
Proof.
  intros F. unfold resumeSubmit. unfold_monad. rewrite F. reflexivity.
Qed.

Lemma resumeSubmit_AtAppointmentSave env cloud req a p st :
  resumeSubmit env cloud (AtAppointmentSave req a p) st
  = (writeAppointment (Appointment._id a)
       (fun x => Appointment.setPaymentId (Payment._id p)
                   (Appointment.setPaymentStatus "paid" x)) st,
     Answered (PaymentOk 201 p)).
Proof. reflexivity. Qed.

Lemma existsSync_unlinkSync_other f g st :
  f <> g ->
  CloudinaryService.existsSync f (CloudinaryService.unlinkSync g st)
  = CloudinaryService.existsSync f st.
Proof.
  intros N. unfold CloudinaryService.existsSync, CloudinaryService.unlinkSync.
  cbn [uploads setUploads]. unfold Js.includes.
  induction (uploads st) as [|x l IH]; [reflexivity|].
  cbn [filter existsb].
  destruct (String.eqb x g) eqn:G; cbn [negb existsb].
  - apply String.eqb_eq in G. subst x.
    apply String.eqb_neq in N. rewrite N. exact IH.
  - rewrite IH. reflexivity.
Qed.

(** X20.  Two submissions for the same appointment, each with its own
    receipt, can both be accepted when they are in flight together: if the
    second request runs between the first one's look for an existing
    payment and its insert, both pass the check, both are answered 201 and
    two payments reference the appointment, which points at the one
    inserted last. *)
Theorem concurrent_submissions_both_accepted :
  forall env1 env2 req1 req2 file1 file2 url1 publicId1 url2 publicId2
         id a st,
    s_file req1 = Some file1 -> s_file req2 = Some file2 ->
    s_appointmentId req1 = Some id -> s_appointmentId req2 = Some id ->
    find (AppointmentModel.hasId id) (appointments st) = Some a ->
    paymentsOf id st = [] ->
    CloudinaryService.validateFile file1 = None ->
    CloudinaryService.validateFile file2 = None ->
    CloudinaryService.existsSync (CloudinaryService.path file1) st = true ->
    CloudinaryService.existsSync (CloudinaryService.path file2) st = true ->
    CloudinaryService.path file1 <> CloudinaryService.path file2 ->
    (forall n t,
        Payment.failing (newPayment req1 id a url1 publicId1 n t) = []) ->
    (forall n t,
        Payment.failing (newPayment req2 id a url2 publicId2 n t) = []) ->
    exists p1 p2 st',
      interleave
        (resumeSubmit env1 (CloudinaryService.Uploaded url1 publicId1))
        (resumeSubmit env2 (CloudinaryService.Uploaded url2 publicId2))
        [true; true; false; false; false; false; false; true; true; true]
        (AtAppointment req1) (AtAppointment req2) st
      = (st', Answered (PaymentOk 201 p1), Answered (PaymentOk 201 p2))
      /\ paymentsOf id st' = [p2; p1]
      /\ payments st' = (payments st ++ [p2; p1])%list
      /\ exists a',
           find (AppointmentModel.hasId id) (appointments st') = Some a'
           /\ Appointment.paymentStatus a' = "paid"
           /\ Appointment.paymentId a' = Some (Payment._id p1).
Proof.
  intros env1 env2 req1 req2 file1 file2 url1 publicId1 url2 publicId2
         id a st F1 F2 I1 I2 A P V1 V2 E1 E2 N K1 K2.
  assert (P' : find (fun p => Nat.eqb (Payment.appointmentId p) id)
                 (payments st) = None)
    by (apply filter_nil_find; exact P).
  pose proof (find_appointment_id _ _ _ A) as Ia.
  cbn [interleave].
  rewrite (resumeSubmit_AtAppointment _ _ _ _ _ _ _ F1 I1 A).
  rewrite (resumeSubmit_AtExisting _ _ _ _ _ _ _ P' V1).
  rewrite (resumeSubmit_AtAppointment _ _ _ _ _ _ _ F2 I2 A).
  rewrite (resumeSubmit_AtExisting _ _ _ _ _ _ _ P' V2).
  rewrite (resumeSubmit_AtUpload _ _ _ _ _ _ _ _ E2).
  rewrite (resumeSubmit_AtPayment _ _ _ _ _ _ _ _ (K2 _ _)).
  rewrite resumeSubmit_AtAppointmentSave.
  rewrite resumeSubmit_AtUpload
    by (unfold writeAppointment, CloudinaryService.existsSync;
        cbn [uploads setAppointments freshId setPayments];
        fold (CloudinaryService.existsSync (CloudinaryService.path file1)
                (CloudinaryService.unlinkSync (CloudinaryService.path file2)
                   st));
        rewrite existsSync_unlinkSync_other; assumption).
  rewrite (resumeSubmit_AtPayment _ _ _ _ _ _ _ _ (K1 _ _)).
  rewrite resumeSubmit_AtAppointmentSave.
  do 3 eexists. split; [reflexivity|].
  unfold paymentsOf, writeAppointment.
  cbn [payments appointments setAppointments freshId setPayments
         CloudinaryService.unlinkSync setUploads].
  split.
  { rewrite <- app_assoc, filter_app. fold (paymentsOf id st). rewrite P.
    cbn [app filter newPayment Payment.appointmentId].
    rewrite Nat.eqb_refl. reflexivity. }
  split; [rewrite <- app_assoc; reflexivity|].
  rewrite Ia.
  rewrite (find_map_if (AppointmentModel.hasId id)) by reflexivity.
  rewrite (find_map_if (AppointmentModel.hasId id)) by reflexivity.
  rewrite A. cbn [option_map]. eexists. split; [reflexivity|].
  split; reflexivity.
Qed.

(** Two receipts for the Monday booking. *)
Lemma concurrent_submissions_both_accepted_witness :
  exists p1 p2 st',
    interleave (resumeSubmit Sample.env Sample.stored)
      (resumeSubmit Sample.env More.stored2)
      [true; true; false; false; false; false; false; true; true; true]
      (AtAppointment (Sample.payment 0%nat true))
      (AtAppointment (More.payment2 0%nat)) More.twoReceipts
    = (st', Answered (PaymentOk 201 p1), Answered (PaymentOk 201 p2))
    /\ paymentsOf 0%nat st' = [p2; p1].
Proof.
  assert (A : exists a,
             find (AppointmentModel.hasId 0%nat)
               (appointments More.twoReceipts) = Some a
             /\ (forall n t,
                    Payment.failing
                      (newPayment (Sample.payment 0%nat true) 0%nat a
                         "https://res.cloudinary.com/demo/mindwell_payments/r1.png"
                         "mindwell_payments/r1" n t) = [])
             /\ (forall n t,
                    Payment.failing
                      (newPayment (More.payment2 0%nat) 0%nat a
                         "https://res.cloudinary.com/demo/mindwell_payments/r2.jpg"
                         "mindwell_payments/r2" n t) = []))
    by (eexists; split; [vm_compute; reflexivity|];
        split; intros n t; vm_compute; reflexivity).
  destruct A as (a & A & K1 & K2).
  destruct (concurrent_submissions_both_accepted Sample.env Sample.env
              (Sample.payment 0%nat true) (More.payment2 0%nat)
              Sample.receipt More.receipt2 _ _ _ _ 0%nat a More.twoReceipts
              eq_refl eq_refl eq_refl eq_refl A
              ltac:(vm_compute; reflexivity)
              ltac:(vm_compute; reflexivity)
              ltac:(vm_compute; reflexivity)
              ltac:(vm_compute; reflexivity)
              ltac:(vm_compute; reflexivity)
              ltac:(vm_compute; discriminate)
              K1 K2)
    as (p1 & p2 & st' & H & Q & _).
  exists p1, p2, st'. split; [exact H | exact Q].
Defined.

(** ** A verification into a slot that was taken meanwhile *)

Lemma two_in_length {A} (x y : A) l :
  In x l -> In y l -> x <> y -> (2 <= List.length l)%nat.
Proof.
  intros Hx Hy N. destruct l as [|u [|v l]]; cbn [List.length]; [| |lia].
  - destruct Hx.
  - destruct Hx as [<-|[]]. destruct Hy as [<-|[]]. contradiction.
Qed.

(** X21.  [verifyPayment] confirms the appointment of the payment without
    looking at its slot: when another pending or confirmed appointment
    sits on the same date and time (the slot having been booked again
    after a rejection cancelled the first booking, say), the verification
    still answers 200, and two pending-or-confirmed appointments then hold
    the pair. *)
Theorem verifyPayment_confirms_into_taken_slot :
  forall env req id st payment a b,
    v_id req = Some id ->
    find (PaymentModel.hasId id) (payments st) = Some payment ->
    Payment.status payment <> "verified" ->
    Appointment.maxlength 500 (v_notes req) = true ->
    find (AppointmentModel.hasId (Payment.appointmentId payment))
      (appointments st) = Some a ->
    In b (appointments st) ->
    Appointment._id b <> Appointment._id a ->
    occupies (Appointment.appointmentDate a) (Appointment.appointmentTime a) b
    = true ->
    statusInPendingConfirmed b = true ->
    exists st' payment',
      verifyPayment env req st = (st', PaymentOk 200 payment')
      /\ (exists a',
            In a' (appointments st')
            /\ Appointment._id a' = Appointment._id a
            /\ Appointment.status a' = "confirmed")
      /\ In b (appointments st')
      /\ (2 <= List.length
                 (holders statusInPendingConfirmed
                    (Appointment.appointmentDate a)
                    (Appointment.appointmentTime a) st'))%nat.
Proof.
  intros env req id st payment a b I F S N A Ib Nb O Sb.
  rewrite (verifyPayment_goes_through env req id st payment I F S N).
  do 2 eexists. split; [reflexivity|].
  pose proof (verified_appointment env req payment st a A) as Fa.
  set (st' := verified env req payment st) in *.
  set (a' := Appointment.setStatus "confirmed"
               (Appointment.setPaymentStatus "verified" a)) in *.
  assert (Ia' : In a' (appointments st'))
    by (apply find_some in Fa; tauto).
  assert (Ib' : In b (appointments st')).
  { unfold st', verified. cbv zeta. rewrite A.
    unfold writeAppointment.
    cbn [appointments setAppointments writePayment setPayments].
    apply In_write_other; [reflexivity | exact Nb | exact Ib]. }
  split; [exists a'; split; [exact Ia' | split; reflexivity]|].
  split; [exact Ib'|].
  apply (two_in_length a' b).
  - apply filter_In. split; [exact Ia'|].
    unfold a', occupies.
    cbn [Appointment.appointmentDate Appointment.appointmentTime
           Appointment.setStatus Appointment.setPaymentStatus].
    rewrite Z.eqb_refl, String.eqb_refl. reflexivity.
  - apply filter_In. split; [exact Ib'|]. rewrite O, Sb. reflexivity.
  - intros E. apply Nb. rewrite <- E. reflexivity.
Qed.

(** The Monday booking is paid and the payment rejected, which cancels the
    booking; a second client books the slot; the admin then verifies the
    first payment after all. *)
Lemma verifyPayment_confirms_into_taken_slot_witness :
  let st :=
    performAll
      [ RejectPayment Sample.env (Sample.reject 1%nat "No such transfer");
        CreateAppointment Sample.env
          (Sample.otherBooking Sample.monday "10:00") ]
      Sample.paid in
  exists st' payment',
    verifyPayment Sample.env (Sample.verify 1%nat None) st
    = (st', PaymentOk 200 payment')
    /\ (2 <= List.length
               (holders statusInPendingConfirmed Sample.monday "10:00" st'))%nat.
Proof.
  cbv zeta.
  set (st := performAll _ Sample.paid).
  assert (H : exists payment a b,
             find (PaymentModel.hasId 1%nat) (payments st) = Some payment
             /\ Payment.status payment <> "verified"
             /\ find (AppointmentModel.hasId (Payment.appointmentId payment))
                  (appointments st) = Some a
             /\ In b (appointments st)
             /\ Appointment._id b <> Appointment._id a
             /\ occupies (Appointment.appointmentDate a)
                  (Appointment.appointmentTime a) b = true
             /\ statusInPendingConfirmed b = true
             /\ Appointment.appointmentDate a = Sample.monday
             /\ Appointment.appointmentTime a = "10:00").
  { do 3 eexists.
    split; [vm_compute; reflexivity|].
    split; [vm_compute; discriminate|].
    split; [vm_compute; reflexivity|].
    split; [vm_compute; right; left; reflexivity|].
    split; [vm_compute; discriminate|].
    split; [vm_compute; reflexivity|].
    split; [vm_compute; reflexivity|].
    split; vm_compute; reflexivity. }
  destruct H as (payment & a & b & F & S & A & Ib & Nb & O & Sb & D & T).
  destruct (verifyPayment_confirms_into_taken_slot Sample.env
              (Sample.verify 1%nat None) 1%nat st payment a b
              eq_refl F S eq_refl A Ib Nb O Sb)
    as (st' & payment' & V & _ & _ & L).
  exists st', payment'. split; [exact V|].
  rewrite D, T in L. exact L.
Defined.

(** ** The admin's calendar updates *)

Lemma updateCalendarSettings_eq validHours u st :
  updateCalendarSettings validHours u st =
  match u_date u with
  | Missing => (st, Failure 400 (Literal "Date is required"))
  | date =>
      if existsb incomplete (Appointment.orElse (u_customHours u) [])
      then (st, Failure 400
                  (Literal "Custom hours must have start and end times"))
      else
        match date with
        | Valid d =>
            match Payment.failingOf (settingChecks validHours (settingOf d u))
            with
            | [] =>
                (setCalendarSettings st
                   (upsert (settingOf d u) (calendarSettings st)),
                 Success 200 (settingOf d u))
            | paths => (st, Failure 500 (MessageOf (ValidationError paths)))
            end
        | _ => (st, Failure 500 (MessageOf (CastError "date")))
        end
  end.
Proof.
  unfold updateCalendarSettings, findOneAndUpdate; unfold_monad.
  destruct (u_date u); [reflexivity| |];
    (destruct (existsb _ _); [reflexivity|]); [reflexivity|].
  destruct (Payment.failingOf _); reflexivity.
Qed.

Lemma bulkOne_eq validHours u st :
  bulkOne validHours u st =
  match u_date u with
  | Valid d =>
      match Payment.failingOf (settingChecks validHours (settingOf d u)) with
      | [] =>
          (setCalendarSettings st
             (upsert (settingOf d u) (calendarSettings st)),
           Updated (settingOf d u))
      | paths => (st, NotUpdated (u_date u) (ValidationError paths))
      end
  | _ => (st, NotUpdated (u_date u) (CastError "date"))
  end.
Proof.
  unfold bulkOne, findOneAndUpdate; unfold_monad.
  destruct (u_date u); try reflexivity.
  destruct (Payment.failingOf _); reflexivity.
Qed.

Lemma find_upsert c l :
  find (fun x => CalendarSettings.date x =? CalendarSettings.date c)
    (upsert c l) = Some c.
Proof.
  induction l as [|x l IH]; cbn [upsert find].
  - rewrite Z.eqb_refl. reflexivity.
  - destruct (CalendarSettings.date x =? CalendarSettings.date c) eqn:E;
      cbn [find]; [rewrite Z.eqb_refl; reflexivity|].
    rewrite E. exact IH.
Qed.

Lemma In_upsert_other c l x :
  CalendarSettings.date x <> CalendarSettings.date c ->
  (In x (upsert c l) <-> In x l).
Proof.
  intros N. induction l as [|y l IH]; cbn [upsert In].
  - split; [intros [<-|[]]; contradiction | tauto].
  - destruct (CalendarSettings.date y =? CalendarSettings.date c) eqn:E;
      cbn [In]; [|rewrite IH; tauto].
    apply Z.eqb_eq in E. split; intros [H|H]; auto.
    + subst x. contradiction.
    + subst x. congruence.
Qed.

Lemma length_filter_upsert_other p c l :
  p c = false ->
  (List.length (filter p (upsert c l)) <= List.length (filter p l))%nat.
Proof.
  intros F. induction l as [|x l IH]; cbn [upsert filter].
  - rewrite F. cbn. lia.
  - destruct (CalendarSettings.date x =? CalendarSettings.date c);
      cbn [filter]; [rewrite F|]; destruct (p x); cbn [List.length]; lia.
Qed.

Lemma length_filter_upsert d c l :
  let p x := CalendarSettings.date x =? d in
  (List.length (filter p (upsert c l))
   <= Nat.max 1 (List.length (filter p l)))%nat.
Proof.
  cbv zeta. induction l as [|x l IH]; cbn [upsert filter].
  - destruct (_ =? _); cbn; lia.
  - destruct (CalendarSettings.date x =? CalendarSettings.date c) eqn:E;
      cbn [filter].
    + apply Z.eqb_eq in E. rewrite E.
      destruct (_ =? _); cbn [List.length]; lia.
    + destruct (CalendarSettings.date x =? d) eqn:D; cbn [List.length];
        [|exact IH].
      assert (F : (CalendarSettings.date c =? d) = false).
      { apply Z.eqb_neq. apply Z.eqb_eq in D. apply Z.eqb_neq in E.
        congruence. }
      pose proof (length_filter_upsert_other
                    (fun x => CalendarSettings.date x =? d) c l F).
      lia.
Qed.

Lemma length_upsert c l :
  (List.length (upsert c l) <= S (List.length l))%nat.
Proof.
  induction l as [|x l IH]; cbn [upsert]; [cbn; lia|].
  destruct (_ =? _); cbn [List.length]; lia.
Qed.

Lemma incomplete_false slot :
  incomplete slot = false ->
  exists s e,
    CalendarSettings.start slot = Some s /\ CalendarSettings.end_ slot = Some e
    /\ s <> "" /\ e <> "".
Proof.
  unfold incomplete.
  destruct (CalendarSettings.start slot) as [s|];
    destruct (CalendarSettings.end_ slot) as [e|]; cbn;
    try discriminate; try (rewrite orb_true_r; discriminate).
  destruct s; [discriminate|]. destruct e; [discriminate|].
  intros _. do 2 eexists. repeat split; discriminate.
Qed.

(** X22.  When [updateCalendarSettings] answers with success, the setting
    it returns is the one now stored for the date of the request and the
    one a query on that date finds: available unless the request says
    otherwise, with a cap of at least 1, a reason of at most 200
    characters and hour ranges that all have a start and an end.  The
    settings of other dates are what they were, no date gets a second
    setting, and the appointments and payments are untouched. *)
Theorem updateCalendarSettings_upserts :
  forall validHours u st st' code c,
    updateCalendarSettings validHours u st = (st', Success code c) ->
    u_date u = Valid (CalendarSettings.date c)
    /\ CalendarSettings.isAvailable c
       = Appointment.orElse (u_isAvailable u) true
    /\ 1 <= CalendarSettings.maxAppointments c
    /\ Js.length (CalendarSettings.reason c) <= 200
    /\ (forall slot,
          In slot (CalendarSettings.customHours c) ->
          exists s e,
            CalendarSettings.start slot = Some s
            /\ CalendarSettings.end_ slot = Some e /\ s <> "" /\ e <> "")
    /\ find (fun x => CalendarSettings.date x =? CalendarSettings.date c)
         (calendarSettings st') = Some c
    /\ (forall x,
          CalendarSettings.date x <> CalendarSettings.date c ->
          (In x (calendarSettings st') <-> In x (calendarSettings st)))
    /\ (forall d,
          (List.length
             (filter (fun x => (CalendarSettings.date x =? d)%Z)
                (calendarSettings st'))
           <= Nat.max 1
                (List.length
                   (filter (fun x => (CalendarSettings.date x =? d)%Z)
                      (calendarSettings st))))%nat)
    /\ appointments st' = appointments st
    /\ payments st' = payments st.
Proof.
  intros validHours u st st' code c H.
  rewrite updateCalendarSettings_eq in H.
  destruct (u_date u) as [| |d]; try discriminate;
    destruct (existsb incomplete _) eqn:I; try discriminate.
  destruct (Payment.failingOf _) eqn:F; [|discriminate].
  apply pair_equal_spec in H as [<- H]. apply success_inj in H. subst c.
  apply failing_forallb in F. cbn [settingChecks forallb snd] in F.
  andb_split.
  cbn [calendarSettings setCalendarSettings appointments payments].
  split; [reflexivity|]. split; [reflexivity|].
  split; [apply Z.leb_le; assumption|].
  split; [apply Z.leb_le; assumption|].
  split.
  { intros slot S. apply incomplete_false.
    cbn [settingOf CalendarSettings.customHours] in S.
    destruct (incomplete slot) eqn:K; [|reflexivity].
    assert (E : existsb incomplete
                  (Appointment.orElse (u_customHours u) []) = true)
      by (apply existsb_exists; eauto).
    congruence. }
  split; [apply find_upsert|].
  split; [intros x; apply In_upsert_other|].
  split; [intros d'; apply length_filter_upsert|].
  split; reflexivity.
Qed.

Lemma find_settingOfDay_upsert tz n c l :
  settingOfDay tz n c = true ->
  (forall x, In x l -> settingOfDay tz n x = true ->
             CalendarSettings.date x = CalendarSettings.date c) ->
  find (settingOfDay tz n) (upsert c l) = Some c.
Proof.
  intros C. induction l as [|x l IH]; intros O; cbn [upsert find].
  - rewrite C. reflexivity.
  - destruct (CalendarSettings.date x =? CalendarSettings.date c) eqn:E;
      cbn [find]; [rewrite C; reflexivity|].
    destruct (settingOfDay tz n x) eqn:X.
    + apply Z.eqb_neq in E. elim E. apply O; [left; reflexivity | exact X].
    + apply IH. intros y I. apply O. right. exact I.
Qed.

Lemma settingOfDay_midnight tz n c :
  CalendarSettings.date c = n * JsDate.msPerDay ->
  0 <= tz < 86399000 ->
  settingOfDay tz n c = true.
Proof.
  intros D T. unfold settingOfDay, JsDate.localTimeOfDay. rewrite D.
  apply andb_true_iff. rewrite Z.leb_le, Z.ltb_lt.
  unfold JsDate.msPerDay. lia.
Qed.

(** Closing Monday 2024-06-10 on an empty calendar. *)
Lemma updateCalendarSettings_upserts_witness :
  exists st' c,
    updateCalendarSettings More.lenient More.closeMonday Sample.empty
    = (st', Success 200 c)
    /\ calendarSettings st' = [c]
    /\ CalendarSettings.isAvailable c = false.
Proof.
  assert (H : exists st' c,
             updateCalendarSettings More.lenient More.closeMonday Sample.empty
             = (st', Success 200 c)
             /\ calendarSettings st' = [c])
    by (do 2 eexists; split; vm_compute; reflexivity).
  destruct H as (st' & c & H & S). exists st', c.
  destruct (updateCalendarSettings_upserts _ _ _ _ _ _ H) as (_ & A & _).
  split; [exact H|]. split; [exact S | exact A].
Defined.

(** X23.  Closing a day takes effect on bookings where the server's clock
    is at or east of UTC: after [updateCalendarSettings] has stored a
    setting with [isAvailable] false for a plain date (midnight UTC), no
    other setting falling within that day, the handler of the entry point
    refuses every booking for the day with 'Date unavailable' and
    [checkAvailability] reports no time of the day as available. *)
Theorem closed_day_refuses_bookings :
  forall validHours env u n st st' code c body bookingDate,
    u_date u = Valid (n * JsDate.msPerDay) ->
    u_isAvailable u = Some false ->
    updateCalendarSettings validHours u st = (st', Success code c) ->
    (forall x, In x (calendarSettings st) ->
               settingOfDay (tz env) n x = true ->
               CalendarSettings.date x = n * JsDate.msPerDay) ->
    0 <= tz env < 86399000 ->
    Appointment.b_appointmentDate body = Some bookingDate ->
    JsDate.isoDay bookingDate = n ->
    postApiAppointments env body st'
    = (st', Failure 400 (Literal "Date unavailable"))
    /\ (forall time st'' code' a,
          checkAvailability env (Valid bookingDate) time st'
          = (st'', Success code' a) ->
          av_isAvailable a = false).
Proof.
  intros validHours env u n st st' code c body bookingDate
         D A H O T B N.
  rewrite updateCalendarSettings_eq, D in H.
  destruct (existsb incomplete _); [discriminate|].
  destruct (Payment.failingOf _); [|discriminate].
  apply pair_equal_spec in H as [<- H]. apply success_inj in H. subst c.
  assert (F : find (settingOfDay (tz env) n)
                (upsert (settingOf (n * JsDate.msPerDay) u)
                   (calendarSettings st))
              = Some (settingOf (n * JsDate.msPerDay) u)).
  { apply find_settingOfDay_upsert; [|exact O].
    apply settingOfDay_midnight; [reflexivity | exact T]. }
  split.
  - rewrite postApiAppointments_eq, B, N.
    cbn [calendarSettings setCalendarSettings]. rewrite F.
    cbn [settingOf CalendarSettings.isAvailable]. rewrite A. reflexivity.
  - intros time st'' code' a C.
    destruct (checkAvailability_answers _ _ _ _ _ _ _ C)
      as (d & t & Ed & -> & Tt).
    injection Ed as <-.
    rewrite (checkAvailability_eq env bookingDate t _ Tt) in C.
    cbv zeta in C. rewrite N in C.
    cbn [calendarSettings setCalendarSettings] in C. rewrite F in C.
    cbn [settingOf CalendarSettings.isAvailable CalendarSettings.customHours]
      in C.
    rewrite A in C. cbn [Appointment.orElse] in C.
    apply pair_equal_spec in C as [_ C].
    destruct (Appointment.orElse (u_customHours u) []) as [|slot rest].
    + apply success_inj in C. subst a. reflexivity.
    + destruct (someHours (minutesOf t) (slot :: rest)) as [[|]|];
        try discriminate; apply success_inj in C; subst a; reflexivity.
Qed.

(** Monday 2024-06-10 closed, on the server in Karachi. *)
Lemma closed_day_refuses_bookings_witness :
  exists st',
    fst (updateCalendarSettings More.lenient More.closeMonday Sample.empty)
    = st'
    /\ postApiAppointments More.karachi
         (Sample.booking Sample.monday "10:00") st'
       = (st', Failure 400 (Literal "Date unavailable")).
Proof.
  assert (H : exists st' c,
             updateCalendarSettings More.lenient More.closeMonday Sample.empty
             = (st', Success 200 c))
    by (do 2 eexists; vm_compute; reflexivity).
  destruct H as (st' & c & H). exists st'.
  split; [rewrite H; reflexivity|].
  assert (D : u_date More.closeMonday = Valid (19884 * JsDate.msPerDay))
    by (vm_compute; reflexivity).
  assert (T : 0 <= tz More.karachi < 86399000)
    by (cbn [tz More.karachi]; lia).
  assert (N : JsDate.isoDay Sample.monday = 19884)
    by (vm_compute; reflexivity).
  assert (O : forall x, In x (calendarSettings Sample.empty) ->
                        settingOfDay (tz More.karachi) 19884 x = true ->
                        CalendarSettings.date x = 19884 * JsDate.msPerDay)
    by (intros x []).
  exact (proj1 (closed_day_refuses_bookings More.lenient More.karachi
                  More.closeMonday 19884 Sample.empty st' 200 c
                  (Sample.booking Sample.monday "10:00") Sample.monday
                  D eq_refl H O T eq_refl N)).
Defined.

Lemma bulkUpdateCalendarSettings_one validHours u st :
  bulkUpdateCalendarSettings validHours (Some [u]) st
  = (fst (bulkOne validHours u st),
     Success 200
       {| bulk_data := [snd (bulkOne validHours u st)];
          bulk_totalUpdated :=
            if isUpdated (snd (bulkOne validHours u st)) then 1%nat
            else 0%nat |}).
Proof.
  unfold bulkUpdateCalendarSettings. cbn [bulkLoop].
  destruct (bulkOne validHours u st) as [st' r]. cbn [fst snd app filter].
  destruct (isUpdated r); reflexivity.
Qed.

(** X24.  Hours with a range that lacks its start or its end are refused
    by [updateCalendarSettings] (400, nothing written), but
    [bulkUpdateCalendarSettings] makes no such check: when the update
    validators let them pass it stores the setting and counts it as
    updated.  With such a range first among the hours of the setting
    found for a day, [checkAvailability] then answers 500 for every time
    of that day. *)
Theorem bulk_update_stores_open_ranges :
  forall validHours env u n slot rest st,
    u_date u = Valid (n * JsDate.msPerDay) ->
    u_customHours u = Some (slot :: rest) ->
    CalendarSettings.start slot = None \/ CalendarSettings.end_ slot = None ->
    Payment.failingOf
      (settingChecks validHours (settingOf (n * JsDate.msPerDay) u)) = [] ->
    (forall x, In x (calendarSettings st) ->
               settingOfDay (tz env) n x = true ->
               CalendarSettings.date x = n * JsDate.msPerDay) ->
    0 <= tz env < 86399000 ->
    updateCalendarSettings validHours u st
    = (st, Failure 400
             (Literal "Custom hours must have start and end times"))
    /\ exists st' c,
         bulkUpdateCalendarSettings validHours (Some [u]) st
         = (st', Success 200
                   {| bulk_data := [Updated c]; bulk_totalUpdated := 1 |})
         /\ In c (calendarSettings st')
         /\ CalendarSettings.customHours c = slot :: rest
         /\ forall date time,
              JsDate.isoDay date = n -> Js.truthy time = true ->
              checkAvailability env (Valid date) (Some time) st'
              = (st', Failure 500 (Literal "Failed to check availability")).
Proof.
  intros validHours env u n slot rest st D Hh L V O T. split.
  - rewrite updateCalendarSettings_eq, D, Hh.
    cbn [Appointment.orElse existsb].
    assert (I : incomplete slot = true).
    { unfold incomplete. destruct L as [-> | ->];
        [reflexivity | apply orb_true_r]. }
    rewrite I. reflexivity.
  - rewrite bulkUpdateCalendarSettings_one, bulkOne_eq, D, V.
    cbn [fst snd isUpdated]. do 2 eexists. split; [reflexivity|].
    assert (F : find (settingOfDay (tz env) n)
                  (upsert (settingOf (n * JsDate.msPerDay) u)
                     (calendarSettings st))
                = Some (settingOf (n * JsDate.msPerDay) u)).
    { apply find_settingOfDay_upsert; [|exact O].
      apply settingOfDay_midnight; [reflexivity | exact T]. }
    cbn [calendarSettings setCalendarSettings].
    split; [apply find_some in F; tauto|].
    split; [cbn [settingOf CalendarSettings.customHours]; rewrite Hh;
            reflexivity|].
    intros date time N Tt.
    rewrite (checkAvailability_eq env date time _ Tt). cbv zeta.
    rewrite N. cbn [calendarSettings setCalendarSettings]. rewrite F.
    cbn [settingOf CalendarSettings.customHours]. rewrite Hh.
    cbn [Appointment.orElse someHours].
    assert (I : inHours (minutesOf time) slot = None).
    { unfold inHours. destruct L as [-> | ->];
        [|destruct (CalendarSettings.start slot)]; reflexivity. }
    rewrite I. reflexivity.
Qed.

(** Monday 2024-06-10 from 09:00 with no end, on the server in Karachi. *)
Lemma bulk_update_stores_open_ranges_witness :
  isSuccess
    (snd (updateCalendarSettings More.lenient More.openEnded Sample.empty))
  = false
  /\ exists st',
       fst (bulkUpdateCalendarSettings More.lenient (Some [More.openEnded])
              Sample.empty) = st'
       /\ checkAvailability More.karachi (Valid Sample.monday) (Some "10:00")
            st'
          = (st', Failure 500 (Literal "Failed to check availability")).
Proof.
  assert (D : u_date More.openEnded = Valid (19884 * JsDate.msPerDay))
    by (vm_compute; reflexivity).
  assert (T : 0 <= tz More.karachi < 86399000)
    by (cbn [tz More.karachi]; lia).
  assert (N : JsDate.isoDay Sample.monday = 19884)
    by (vm_compute; reflexivity).
  assert (O : forall x, In x (calendarSettings Sample.empty) ->
                        settingOfDay (tz More.karachi) 19884 x = true ->
                        CalendarSettings.date x = 19884 * JsDate.msPerDay)
    by (intros x []).
  destruct (bulk_update_stores_open_ranges More.lenient More.karachi
              More.openEnded 19884 _ _ Sample.empty D eq_refl
              (or_intror eq_refl) ltac:(vm_compute; reflexivity) O T)
    as (U & st' & c & B & _ & _ & C).
  split; [rewrite U; reflexivity|].
  exists st'. split; [rewrite B; reflexivity|].
  exact (C Sample.monday "10:00" N eq_refl).
Defined.

(** ** A slot that is given back *)

Lemma forallb_failing (checks : list (string * bool)) :
  forallb snd checks = true ->
  map fst (filter (fun c => negb (snd c)) checks) = [].
Proof.
  induction checks as [|[n b] cs IH]; cbn [filter map forallb snd negb];
    [reflexivity|].
  destruct b; cbn [negb andb]; [exact IH | discriminate].
Qed.

Lemma withStatusPending_valid body :
  Appointment.failing true (Appointment.cast body) = [] ->
  Appointment.failing true (Appointment.cast (withStatusPending body)) = [].
Proof.
  intros F. apply failing_forallb in F. apply forallb_failing.
  unfold Appointment.checks in *.
  cbn [forallb snd orb negb Appointment.cast withStatusPending
         Appointment.b_clientName Appointment.b_email Appointment.b_phone
         Appointment.b_appointmentDate Appointment.b_appointmentTime
         Appointment.b_serviceType Appointment.b_message Appointment.b_status
         Appointment.b_paymentStatus Appointment.b_adminNotes] in *.
  andb_split.
  repeat (apply andb_true_iff; split); try assumption; reflexivity.
Qed.

(** X25.  A rejection gives the slot back: after [rejectPayment] has gone
    through for the payment of an appointment, that appointment being the
    only pending or confirmed one on its date and time,
    [createAppointment] accepts a new booking of the pair (any body for
    it that passes the schema). *)
Theorem rejection_frees_the_slot :
  forall env env' req id reason st payment a body,
    r_id req = Some id ->
    r_reason req = Some reason ->
    find (PaymentModel.hasId id) (payments st) = Some payment ->
    5 <= Js.length (Js.trim reason) ->
    Js.length reason <= 500 ->
    find (AppointmentModel.hasId (Payment.appointmentId payment))
      (appointments st) = Some a ->
    (forall b, In b (appointments st) ->
               occupies (Appointment.appointmentDate a)
                 (Appointment.appointmentTime a) b = true ->
               statusInPendingConfirmed b = true ->
               Appointment._id b = Appointment._id a) ->
    Appointment.b_appointmentDate body = Some (Appointment.appointmentDate a) ->
    Appointment.b_appointmentTime body = Some (Appointment.appointmentTime a) ->
    Appointment.failing true (Appointment.cast body) = [] ->
    exists st' payment' st'' b,
      rejectPayment env req st = (st', PaymentOk 200 payment')
      /\ createAppointment env' body st' = (st'', Success 201 b)
      /\ occupies (Appointment.appointmentDate a)
           (Appointment.appointmentTime a) b = true.
Proof.
  intros env env' req id reason st payment a body I R F L5 L500 A O D T V.
  rewrite (rejectPayment_goes_through env req id st payment reason
             I R F L5 L500).
  assert (H : holders statusInPendingConfirmed (Appointment.appointmentDate a)
                (Appointment.appointmentTime a)
                (rejected env reason payment st) = []).
  { apply holders_empty. unfold rejected. cbv zeta. rewrite A.
    unfold writeAppointment.
    cbn [appointments setAppointments writePayment setPayments].
    intros b Ib Ob. apply in_map_iff in Ib as (x & E & Ix).
    destruct (Nat.eqb (Appointment._id x) (Appointment._id a)) eqn:Q.
    - subst b. reflexivity.
    - subst b. destruct (statusInPendingConfirmed x) eqn:S; [|reflexivity].
      apply Nat.eqb_neq in Q. elim Q. exact (O x Ix Ob S). }
  destruct (createAppointment_free env' body _ _ _ D T H V) as (b & C & Ob).
  do 4 eexists. split; [reflexivity|]. split; [exact C | exact Ob].
Qed.

(** The Monday booking, paid and rejected: the second client books it. *)
Lemma rejection_frees_the_slot_witness :
  exists st' payment' st'' b,
    rejectPayment Sample.env (Sample.reject 1%nat "No such transfer")
      Sample.paid = (st', PaymentOk 200 payment')
    /\ createAppointment Sample.env
         (Sample.otherBooking Sample.monday "10:00") st'
       = (st'', Success 201 b).
Proof.
  assert (H : exists payment a,
             find (PaymentModel.hasId 1%nat) (payments Sample.paid)
             = Some payment
             /\ find (AppointmentModel.hasId (Payment.appointmentId payment))
                  (appointments Sample.paid) = Some a
             /\ appointments Sample.paid = [a]
             /\ Appointment.appointmentDate a = Sample.monday
             /\ Appointment.appointmentTime a = "10:00")
    by (do 2 eexists; split; [vm_compute; reflexivity|];
        split; [vm_compute; reflexivity|];
        split; [vm_compute; reflexivity|];
        split; vm_compute; reflexivity).
  destruct H as (payment & a & F & A & L & D & T).
  assert (O : forall b, In b (appointments Sample.paid) ->
                        occupies (Appointment.appointmentDate a)
                          (Appointment.appointmentTime a) b = true ->
                        statusInPendingConfirmed b = true ->
                        Appointment._id b = Appointment._id a)
    by (rewrite L; intros b [<-|[]] _ _; reflexivity).
  destruct (rejection_frees_the_slot Sample.env Sample.env
              (Sample.reject 1%nat "No such transfer") 1%nat
              "No such transfer" Sample.paid payment a
              (Sample.otherBooking Sample.monday "10:00")
              eq_refl eq_refl F
              ltac:(vm_compute; discriminate) ltac:(vm_compute; discriminate)
              A O
              ltac:(rewrite D; reflexivity) ltac:(rewrite T; reflexivity)
              ltac:(vm_compute; reflexivity))
    as (st' & payment' & st'' & b & Rj & C & _).
  exists st', payment', st'', b. split; [exact Rj | exact C].
Defined.

(** X26.  A deletion gives the slot back on both booking routes: after
    [deleteAppointment] has removed the only appointment on a date and
    time, [createAppointment] accepts a new booking of the pair, and so
    does the handler of the entry point unless the calendar setting it
    finds for the day is closed. *)
Theorem deletion_frees_the_slot :
  forall env id st a body,
    find (AppointmentModel.hasId id) (appointments st) = Some a ->
    (forall b, In b (appointments st) ->
               occupies (Appointment.appointmentDate a)
                 (Appointment.appointmentTime a) b = true ->
               Appointment._id b = id) ->
    Appointment.b_appointmentDate body = Some (Appointment.appointmentDate a) ->
    Appointment.b_appointmentTime body = Some (Appointment.appointmentTime a) ->
    Appointment.failing true (Appointment.cast body) = [] ->
    let st' := fst (deleteAppointment (Some id) st) in
    snd (deleteAppointment (Some id) st) = Success 200 tt
    /\ (exists st'' b, createAppointment env body st' = (st'', Success 201 b))
    /\ (match find (settingOfDay (tz env)
                      (JsDate.isoDay (Appointment.appointmentDate a)))
                (calendarSettings st) with
        | Some c => CalendarSettings.isAvailable c = true
        | None => True
        end ->
        exists st'' b,
          postApiAppointments env body st' = (st'', Success 200 b)).
Proof.
  intros env id st a body A O D T V. cbv zeta.
  rewrite deleteAppointment_eq, A. cbn [fst snd].
  set (st' := setAppointments st _).
  assert (N : forall b, In b (appointments st') ->
                        occupies (Appointment.appointmentDate a)
                          (Appointment.appointmentTime a) b = false).
  { intros b Ib. unfold st' in Ib. cbn [appointments setAppointments] in Ib.
    apply filter_In in Ib as [Ib Nb].
    destruct (occupies _ _ b) eqn:Ob; [|reflexivity].
    unfold AppointmentModel.hasId in Nb. rewrite (O b Ib Ob) in Nb.
    rewrite Nat.eqb_refl in Nb. discriminate. }
  split; [reflexivity|]. split.
  - assert (H : holders statusInPendingConfirmed
                  (Appointment.appointmentDate a)
                  (Appointment.appointmentTime a) st' = []).
    { apply holders_empty. intros b Ib Ob. rewrite (N b Ib) in Ob.
      discriminate. }
    destruct (createAppointment_free env body _ _ _ D T H V) as (b & C & _).
    eauto.
  - intros Open. rewrite postApiAppointments_eq, D, T.
    change (calendarSettings st') with (calendarSettings st).
    assert (K : match find (settingOfDay (tz env)
                              (JsDate.isoDay (Appointment.appointmentDate a)))
                        (calendarSettings st) with
                | Some c => negb (CalendarSettings.isAvailable c)
                | None => false
                end = false).
    { destruct (find _ (calendarSettings st)) as [c|]; [|reflexivity].
      rewrite Open. reflexivity. }
    rewrite K.
    assert (E : find (fun x =>
                        (Appointment.appointmentDate x
                         =? Appointment.appointmentDate a)
                        && timeIs (Some (Appointment.appointmentTime a)) x)
                  (appointments st') = None).
    { destruct (find _ (appointments st')) as [x|] eqn:Fx; [|reflexivity].
      apply find_some in Fx as [Ix Px].
      pose proof (N x Ix) as Nx. unfold occupies in Nx. cbn [timeIs] in Px.
      congruence. }
    rewrite E.
    destruct (build_valid (nextId st') (now env) (withStatusPending body)
                (Appointment.appointmentDate a)
                (withStatusPending_valid body V) D) as [b B].
    rewrite B. eauto.
Qed.

(** The Monday booking is deleted and booked again. *)
Lemma deletion_frees_the_slot_witness :
  let st' := fst (deleteAppointment (Some 0%nat) Sample.booked) in
  exists st'' b,
    createAppointment Sample.env
      (Sample.otherBooking Sample.monday "10:00") st' = (st'', Success 201 b).
Proof.
  cbv zeta.
  assert (H : exists a,
             find (AppointmentModel.hasId 0%nat) (appointments Sample.booked)
             = Some a
             /\ appointments Sample.booked = [a]
             /\ Appointment._id a = 0%nat
             /\ Appointment.appointmentDate a = Sample.monday
             /\ Appointment.appointmentTime a = "10:00")
    by (eexists; split; [vm_compute; reflexivity|];
        split; [vm_compute; reflexivity|];
        split; [vm_compute; reflexivity|];
        split; vm_compute; reflexivity).
  destruct H as (a & A & L & Ia & D & T).
  assert (O : forall b, In b (appointments Sample.booked) ->
                        occupies (Appointment.appointmentDate a)
                          (Appointment.appointmentTime a) b = true ->
                        Appointment._id b = 0%nat)
    by (rewrite L; intros b [<-|[]] _; exact Ia).
  exact (proj1 (proj2
           (deletion_frees_the_slot Sample.env 0%nat Sample.booked a
              (Sample.otherBooking Sample.monday "10:00") A O
              ltac:(rewrite D; reflexivity) ltac:(rewrite T; reflexivity)
              ltac:(vm_compute; reflexivity)))).
Defined.

(** ** A bulk update, item by item *)







